(** * asf_notebook.py: product filters, granule download, polarization
      selection and the AOI widget, as a shallow embedding

    The embedding follows [SAR_Training/English/Master/asf_notebook.py].
    Python values are typed where the source asserts their type
    ([assert type(x) == str] becomes an argument of type [string]); whatever
    the source can still raise at run time is kept as an explicit exception
    result.  Code that prints, reads the console, touches the file system or
    the network runs in a state-and-exception monad over an explicit
    [world].

    Strings are sequences of 8-bit code points (the Latin-1 range of
    Python's [str]).  The clock, the text of a progress bar, and the
    objects of the plotting library are not modelled: a progress line is
    kept symbolic, and the widget is reduced to the attributes of the AOI
    object, the callbacks registered on its figure, and the document that
    owns the models the object keeps. *)

From Stdlib Require Import ZArith QArith String Ascii List Bool Lia DecimalString.
From stdpp Require Import base option list gmap strings fin_maps.

Local Open Scope string_scope.
Local Open Scope list_scope.
Local Open Scope Z_scope.

(** ** Exceptions and results *)

(** [OSError] stands for the operating-system errors that have no class of
    their own below. *)
Inductive exn : Type :=
| AssertionError (msg : string)
| IndexError
| KeyError (key : string)
| ValueError
| TypeError
| AttributeError
| ZeroDivisionError
| EOFError
| OSError
| FileNotFoundError
| IsADirectoryError
| NotADirectoryError
| RuntimeError
| SystemExit (status : Z).

Inductive result (A : Type) : Type :=
| Ok (a : A)
| Raise (e : exn).
Arguments Ok {A} a.
Arguments Raise {A} e.

Definition rbind {A B : Type} (r : result A) (k : A → result B) : result B :=
  match r with
  | Ok a => k a
  | Raise e => Raise e
  end.

Notation "'try!' x ':=' r 'in' k" := (rbind r (fun x => k))
  (at level 10, x name, r at level 100, k at level 200, only parsing).

(** ** Python string primitives *)

(** [s.split(sep)] for a one-character separator: every occurrence of the
    separator ends a token, so the result is never empty. *)
Fixpoint str_split (sep : ascii) (s : string) : list string :=
  match s with
  | EmptyString => [EmptyString]
  | String c s' =>
      if Ascii.eqb c sep then EmptyString :: str_split sep s'
      else match str_split sep s' with
           | [] => [String c EmptyString]
           | tok :: toks => String c tok :: toks
           end
  end.

(** [sep not in s], for a one-character [sep]. *)
Fixpoint free_of (sep : ascii) (s : string) : bool :=
  match s with
  | EmptyString => true
  | String c s' => negb (Ascii.eqb c sep) && free_of sep s'
  end.

(** [s[a:b]] for literal bounds [0 <= a <= b]; a short string is clamped. *)
Definition str_slice (a b : nat) (s : string) : string :=
  substring a (b - a) s.

(** White space skipped by [int()]: tab to carriage return and the blank,
    plus NEL and the no-break space above the ASCII range. *)
Definition int_space (c : ascii) : bool :=
  let n := nat_of_ascii c in
  ((9 <=? n)%nat && (n <=? 13)%nat) || (n =? 32)%nat || (n =? 133)%nat || (n =? 160)%nat.

Definition digit_of (c : ascii) : option Z :=
  let n := Z.of_nat (nat_of_ascii c) in
  if (48 <=? n) && (n <=? 57) then Some (n - 48) else None.

Fixpoint lstrip (l : list ascii) : list ascii :=
  match l with
  | c :: l' => if int_space c then lstrip l' else l
  | [] => []
  end.

Definition strip (l : list ascii) : list ascii :=
  rev (lstrip (rev (lstrip l))).

(** Decimal digits with single underscores allowed between two digits. *)
Fixpoint int_digits (acc : Z) (after_digit : bool) (l : list ascii) : option Z :=
  match l with
  | [] => if after_digit then Some acc else None
  | c :: l' =>
      match digit_of c with
      | Some d => int_digits (10 * acc + d) true l'
      | None =>
          if Ascii.eqb c "_" && after_digit then int_digits acc false l'
          else None
      end
  end.

(** [int(s)] on a string, base 10; [ValueError] on anything else. *)
Definition py_int (s : string) : result Z :=
  let body := strip (list_ascii_of_string s) in
  let signed :=
    match body with
    | c :: l' =>
        if Ascii.eqb c "-" then (-1, l')
        else if Ascii.eqb c "+" then (1, l')
        else (1, body)
    | [] => (1, body)
    end in
  match int_digits 0 false (snd signed) with
  | Some n => Ok (fst signed * n)
  | None => Raise ValueError
  end.

(** ** [datetime.date] *)

Record date : Type := mkdate { year : Z; month : Z; day : Z }.

Definition is_leap (y : Z) : bool :=
  (y mod 4 =? 0) && (negb (y mod 100 =? 0) || (y mod 400 =? 0)).

Definition days_in_month (y m : Z) : Z :=
  if m =? 2 then (if is_leap y then 29 else 28)
  else if (m =? 4) || (m =? 6) || (m =? 9) || (m =? 11) then 30
  else 31.

(** The constructor: years 1..9999, a month of the year, a day of it. *)
Definition datetime_date (y m d : Z) : result date :=
  if (1 <=? y) && (y <=? 9999) && (1 <=? m) && (m <=? 12)
     && (1 <=? d) && (d <=? days_in_month y m)
  then Ok (mkdate y m d)
  else Raise ValueError.

(** Dates compare as the triples (year, month, day). *)
Definition date_lt (a b : date) : bool :=
  (year a <? year b)
  || ((year a =? year b)
      && ((month a <? month b)
          || ((month a =? month b) && (day a <? day b)))).

Definition date_ge (a b : date) : bool := negb (date_lt a b).

(** ** Values and records *)

(** A Python number, int or float; the two compare exactly, so both embed
    in the rationals extended by the float specials. *)
Inductive number : Type :=
| Finite (q : Q)
| PosInf
| NegInf
| NaN.

Inductive value : Type :=
| VNone
| VNum (n : number)
| VStr (s : string).

(** A product record (and a subscription, a granule record, an event
    geometry) is a [dict] with string keys. *)
Abbreviation record := (gmap string value).

(** ** Acquisition date of a product (source lines 388-405) *)

Definition date_of_token (d : string) : result date :=
  try! y := py_int (str_slice 0 4 d) in
  try! m := py_int (str_slice 4 6 d) in
  try! dd := py_int (str_slice 6 8 d) in
  datetime_date y m dd.

Definition get_aquisition_date_from_product_name (product_info : record)
  : result date :=
  match product_info !! "name" with
  | None => Raise (KeyError "name")
  | Some (VStr product_name) =>
      let split_name := str_split "_" product_name in
      if (length split_name =? 1)%nat then
        let split_name := str_split "-" product_name in
        match split_name !! 1%nat with
        | Some d => date_of_token d
        | None => Raise IndexError
        end
      else
        match split_name !! 4%nat with
        | Some d => date_of_token d
        | None => Raise IndexError
        end
  | Some _ => Raise AttributeError
  end.

(** ** [filter_date_range] (source lines 408-426) *)

Fixpoint filter_date_range_loop (product_list : list record)
    (start_date end_date : date) (filtered_products : list record)
  : result (list record) :=
  match product_list with
  | [] => Ok filtered_products
  | product :: rest =>
      try! date := get_aquisition_date_from_product_name product in
      if date_ge date start_date && date_lt date end_date
      then filter_date_range_loop rest start_date end_date
             (filtered_products ++ [product])
      else filter_date_range_loop rest start_date end_date filtered_products
  end.

Definition filter_date_range (product_list : list record)
    (start_date end_date : date) : result (list record) :=
  if (0 <? length product_list)%nat then
    filter_date_range_loop product_list start_date end_date []
  else
    Raise (AssertionError
      "Error: product_list must contain at least one product_info dictionary.").

(** ** The world: console, file system, network *)

(** What [print] writes.  A line whose text depends on the clock or on the
    formatting of a float is kept symbolic. *)
Inductive output : Type :=
| Line (text : string)
| LineOf (prefix : string) (arg : value)
| ProgressBar (dl total_length : Z)
| SubsetCoordsEcho (c00 c01 c10 c11 : value).

Inductive node : Type :=
| RegularFile (content : list Byte.byte)
| Directory (st_size : Z).

(** A [requests] response: its headers, its body decoded as the search
    API's JSON (an array of arrays of records) when it is JSON, and the
    chunks [iter_content] yields. *)
Record response : Type := mkresponse {
  headers : gmap string string;
  json : option (list (list record));
  iter_content : list (list Byte.byte)
}.

(** [glob_glob] and [requests_post] are the answers of the environment:
    the paths matching a wildcard pattern, and either the text of a
    [RequestException] or a response. *)
Record world : Type := mkworld {
  stdout : list output;
  stdin : list string;
  fs : gmap string node;
  glob_glob : string → list string;
  requests_post : value → list (string * value) → string + response
}.

Definition with_stdout (w : world) (o : list output) : world :=
  mkworld o (stdin w) (fs w) (glob_glob w) (requests_post w).
Definition with_stdin (w : world) (i : list string) : world :=
  mkworld (stdout w) i (fs w) (glob_glob w) (requests_post w).
Definition with_fs (w : world) (f : gmap string node) : world :=
  mkworld (stdout w) (stdin w) f (glob_glob w) (requests_post w).

(** State and exceptions: the state survives a raise. *)
Definition M (S A : Type) : Type := S → result A * S.

Definition ret {S A : Type} (a : A) : M S A := fun s => (Ok a, s).
Definition raise {S A : Type} (e : exn) : M S A := fun s => (Raise e, s).
Definition bind {S A B : Type} (m : M S A) (k : A → M S B) : M S B :=
  fun s => match m s with
           | (Ok a, s') => k a s'
           | (Raise e, s') => (Raise e, s')
           end.
Definition lift {S A : Type} (r : result A) : M S A := fun s => (r, s).

Notation "'do!' x ':=' m 'in' k" := (bind m (fun x => k))
  (at level 10, x name, m at level 100, k at level 200, only parsing).
Notation "m ';;' k" := (bind m (fun _ => k))
  (at level 100, k at level 200, right associativity, only parsing).

Definition print (o : output) : M world unit :=
  fun w => (Ok tt, with_stdout w (stdout w ++ [o])).

Definition nl : string := String "010" EmptyString.

(** ** File system *)

(** The disk maps a path, in the spelling the program uses, to what is
    there.  The current directory and the root are always there and are not
    listed.  Permissions, the limits on the length of a name and a full
    disk are left out. *)

Definition os_path_exists (path : string) : M world bool :=
  fun w => (Ok (match fs w !! path with Some _ => true | None => false end), w).

Definition node_size (n : node) : Z :=
  match n with
  | RegularFile content => Z.of_nat (length content)
  | Directory st_size => st_size
  end.

Definition os_stat_st_size (path : string) : M world Z :=
  fun w => match fs w !! path with
           | Some n => (Ok (node_size n), w)
           | None => (Raise FileNotFoundError, w)
           end.

(** The string without its trailing slashes. *)
Fixpoint rstrip_slash (s : string) : string :=
  match s with
  | EmptyString => EmptyString
  | String c s' =>
      match rstrip_slash s' with
      | EmptyString =>
          if Ascii.eqb c "/" then EmptyString else String c EmptyString
      | r => String c r
      end
  end.

(** A component that names no entry of its own: empty (between two
    slashes, or before a leading one), the directory itself, or its
    parent. *)
Definition dot_name (c : string) : bool :=
  String.eqb c "" || String.eqb c "." || String.eqb c "..".

(** The directories of a path, walked from the left: [prefix] is the path
    so far and [status] tells whether it is a directory that is there.  A
    listed path is what the disk says; an unlisted one is missing from the
    directory before it.  The result is the status of the last directory
    and the name to look up in it. *)
Fixpoint walk (disk : gmap string node) (status : result unit)
    (prefix : string) (components : list string) : result unit * string :=
  match components with
  | [] => (status, EmptyString)
  | c :: rest =>
      match rest with
      | [] => (status, c)
      | _ =>
          let status :=
            if dot_name c then status
            else match disk !! (prefix +:+ c) with
                 | Some (Directory _) => Ok tt
                 | Some (RegularFile _) => Raise NotADirectoryError
                 | None =>
                     match status with
                     | Ok _ => Raise FileNotFoundError
                     | Raise e => Raise e
                     end
                 end in
          walk disk status (prefix +:+ c +:+ "/") rest
      end
  end.

(** Whether [open(filename, 'wb')] (or ['w+']) succeeds.  A regular file
    that is there can be opened, a directory cannot; a new name needs its
    directory to be there, and must not itself spell a directory. *)
Definition open_for_writing (disk : gmap string node) (filename : string)
  : result unit :=
  if negb (free_of "000" filename) then Raise ValueError
  else
    match disk !! filename with
    | Some (RegularFile _) => Ok tt
    | Some (Directory _) => Raise IsADirectoryError
    | None =>
        if String.eqb filename "" then Raise FileNotFoundError
        else
          let name := rstrip_slash filename in
          let '(status, tail) := walk disk (Ok tt) "" (str_split "/" name) in
          try! _ := status in
          if negb (String.eqb name filename) || dot_name tail
          then Raise IsADirectoryError
          else Ok tt
    end.

(** [open(filename, 'wb')]: creates or truncates a regular file. *)
Definition open_wb (filename : string) : M world unit :=
  fun w => match open_for_writing (fs w) filename with
           | Ok _ => (Ok tt, with_fs w (<[filename := RegularFile []]> (fs w)))
           | Raise e => (Raise e, w)
           end.

Definition f_write (filename : string) (chunk : list Byte.byte) : M world unit :=
  fun w => match fs w !! filename with
           | Some (RegularFile content) =>
               (Ok tt, with_fs w (<[filename := RegularFile (content ++ chunk)]> (fs w)))
           | _ => (Raise OSError, w)
           end.

Definition polarization_exists (paths : string) : M world bool :=
  fun w => (Ok (match glob_glob w paths with [] => false | _ => true end), w).

(** ** [download] (source lines 69-95) *)

Fixpoint download_chunks (filename : string) (total_length : Z)
    (chunks : list (list Byte.byte)) (dl : Z) : M world unit :=
  match chunks with
  | [] => ret tt
  | chunk :: rest =>
      let dl := dl + Z.of_nat (length chunk) in
      match chunk with
      | [] => download_chunks filename total_length rest dl
      | _ =>
          f_write filename chunk ;;
          (if total_length =? 0 then raise ZeroDivisionError
           else print (ProgressBar dl total_length)) ;;
          download_chunks filename total_length rest dl
      end
  end.

Definition content_length (request : response) : result Z :=
  match headers request !! "content-length" with
  | Some h => py_int h
  | None => Raise TypeError
  end.

Definition download (filename : string) (request : response) : M world unit :=
  open_wb filename ;;
  do! total_length := lift (content_length request) in
  download_chunks filename total_length (iter_content request) 0.

(** ** Vertex API (source lines 192-256) *)

Definition vertex_API_URL : string :=
  "https://api.daac.asf.alaska.edu/services/search/param".

(** [requests.post] inside [try: ... except RequestException as e:
    print(e); sys.exit(1)]. *)
Definition post_or_exit (url : value) (params : list (string * value))
  : M world response :=
  fun w => match requests_post w url params with
           | inr r => (Ok r, w)
           | inl e => (print (Line e) ;; raise (SystemExit 1)) w
           end.

Definition response_json (r : response) : result (list (list record)) :=
  match json r with
  | Some js => Ok js
  | None => Raise ValueError
  end.

Definition get_vertex_granule_info (granule_name processing_level : string)
  : M world (option record) :=
  do! response := post_or_exit (VStr vertex_API_URL)
      [("granule_list", VStr granule_name); ("output", VStr "json");
       ("processingLevel", VStr processing_level)] in
  do! js := lift (response_json response) in
  match js with
  | first :: _ =>
      match first with
      | json_response :: _ => ret (Some json_response)
      | [] => raise IndexError
      end
  | [] =>
      print (Line ("get_vertex_granule_info() failed." +:+ nl
                   +:+ "granule/processing level mismatch.")) ;;
      ret None
  end.

Definition getitem (d : record) (key : string) : result value :=
  match d !! key with
  | Some v => Ok v
  | None => Raise (KeyError key)
  end.

(** A file name that is not a string is refused by [os.stat] and [open]
    (an integer would be read as a file descriptor; that is left out). *)
Definition as_path (v : value) : result string :=
  match v with
  | VStr s => Ok s
  | _ => Raise TypeError
  end.

Definition download_ASF_granule (granule_name processing_level : string)
  : M world (option string) :=
  do! vertex_info := get_vertex_granule_info granule_name processing_level in
  match vertex_info with
  | None => raise TypeError
  | Some vertex_info =>
      do! url := lift (getitem vertex_info "downloadUrl") in
      do! file_name := lift (getitem vertex_info "fileName") in
      do! r := post_or_exit url [] in
      do! total_length := lift (content_length r) in
      do! local_filename := lift (as_path file_name) in
      do! present := os_path_exists local_filename in
      do! already :=
        (if present then
           do! size := os_stat_st_size local_filename in ret (size =? total_length)
         else ret false) in
      if already then
        print (Line (local_filename
                     +:+ " is already present in current working directory.")) ;;
        ret (Some local_filename)
      else
        print (LineOf "Downloading " url) ;;
        download local_filename r ;;
        do! size := os_stat_st_size local_filename in
        if size <? total_length then
          print (Line (nl +:+ "Download failed!" +:+ nl)) ;;
          ret None
        else
          print (Line (nl +:+ "Done" +:+ nl)) ;;
          ret (Some local_filename)
  end.

(** ** Hyp3 subscriptions (source lines 265-279) *)

(** The part of an [asf_hyp3.API] object the function uses: the answer of
    [get_subscriptions(enabled=...)], a list of subscription records or
    [None], or an exception. *)
Record API : Type := mkAPI {
  get_subscriptions : bool → result (option (list record))
}.

(** [not subscriptions]: [None] and the empty list are falsy. *)
Definition falsy_list {A : Type} (l : option (list A)) : bool :=
  match l with
  | Some (_ :: _) => false
  | _ => true
  end.

Definition get_hyp3_subscriptions (hyp3_api_object : API)
  : M world (option (list record)) :=
  do! subscriptions := lift (get_subscriptions hyp3_api_object true) in
  (if falsy_list subscriptions then
     print (Line "There are no subscriptions associated with this Hyp3 account.")
   else ret tt) ;;
  ret subscriptions.

(** ** Polarization selection (source lines 324-367) *)

Definition str_of_nat (n : nat) : string :=
  DecimalString.NilZero.string_of_uint (Nat.to_uint n).

Fixpoint print_choices (polarizations : list string) (i : nat) : M world unit :=
  match polarizations with
  | [] => ret tt
  | pol :: rest =>
      print (Line ("[" +:+ str_of_nat i +:+ "]: " +:+ pol)) ;;
      print_choices rest (S i)
  end.

(** The [while True] loop over the console: each round reads one line with
    [input()], which raises [EOFError] once the console is exhausted. *)
Fixpoint choose_polarization (base_path : string) (polarizations : list string)
    (lines : list string) : M world (option string) :=
  match lines with
  | [] => raise EOFError
  | user_input :: rest =>
      (fun w => (Ok tt, with_stdin w rest)) ;;
      match py_int user_input with
      | Raise _ =>
          print (Line "Please enter the number of an available polarization.") ;;
          choose_polarization base_path polarizations rest
      | Ok choice =>
          if (choice >? Z.of_nat (length polarizations)) || (choice <? 0) then
            print (Line "Please enter the number of an available polarization.") ;;
            choose_polarization base_path polarizations rest
          else
            match polarizations !! Z.to_nat choice with
            | Some pol => ret (Some (base_path +:+ "/*/*" +:+ pol +:+ ".tif"))
            | None => raise IndexError
            end
      end
  end.

Definition select_RTC_polarization (process_type : Z) (base_path : string)
  : M world (option string) :=
  if negb ((process_type =? 2) || (process_type =? 18)) then
    raise (AssertionError "Error: process_type must be 2 (GAMMA) or 18 (S1TBX).")
  else
  do! present := os_path_exists base_path in
  if negb present then
    raise (AssertionError
      ("Error: select_RTC_polarization was passed an invalid base_path, "
       +:+ base_path))
  else
  let separator := if process_type =? 2 then "_" else "-" in
  let probe (band : string) (polarizations : list string)
    : M world (list string) :=
    do! found := polarization_exists
        (base_path +:+ "/*/*" +:+ separator +:+ band +:+ ".tif") in
    ret (if found then polarizations ++ [separator +:+ band] else polarizations) in
  do! polarizations := probe "VV" [] in
  do! polarizations := probe "VH" polarizations in
  do! polarizations := probe "HV" polarizations in
  do! polarizations := probe "HH" polarizations in
  match polarizations with
  | [only] =>
      print (Line ("Selecting the only available polarization: " +:+ only)) ;;
      ret (Some (base_path +:+ "/*/*" +:+ only +:+ ".tif"))
  | _ :: _ :: _ =>
      print (Line "Select a polarization:") ;;
      print_choices polarizations 0 ;;
      fun w => choose_polarization base_path polarizations (stdin w) w
  | [] =>
      print (Line "Error: found no available polarizations.") ;;
      ret None
  end.

(** ** Flight direction and path filters (source lines 429-484) *)

Definition valid_directions : list string :=
  ["A"; "ASC"; "ASCENDING"; "D"; "DESC"; "DESCENDING"].

Definition flight_direction_valid (flight_direction : string) : M world bool :=
  if negb (existsb (String.eqb flight_direction) valid_directions) then
    print (Line ("Error: " +:+ flight_direction
                 +:+ " is not a valid flight direction.")) ;;
    print (Line
      "Valid Directions: ['A', 'ASC', 'ASCENDING', 'D', 'DESC', 'DESCENDING']") ;;
    ret false
  else ret true.

(** Truth value of an optional argument: [None], the empty string and 0
    are falsy. *)
Definition truthy_str (s : option string) : bool :=
  match s with
  | Some s => negb (String.eqb s "")
  | None => false
  end.

Definition truthy_int (z : option Z) : bool :=
  match z with
  | Some z => negb (z =? 0)
  | None => false
  end.

Definition search_parameters (granule_name : string)
    (flight_direction : option string) (path : option Z)
  : list (string * value) :=
  [("granule_list", VStr granule_name); ("output", VStr "json")]
  ++ (match flight_direction with
      | Some fd => if truthy_str flight_direction
                   then [("flightDirection", VStr fd)] else []
      | None => []
      end)
  ++ (match path with
      | Some p => if truthy_int path
                  then [("relativeOrbit", VNum (Finite (inject_Z p)))] else []
      | None => []
      end).

Definition granule_of_product (product : record) : result string :=
  try! name := getitem product "name" in
  match name with
  | VStr granule_name =>
      match str_split "-" granule_name with
      | first :: _ => Ok first
      | [] => Raise IndexError
      end
  | _ => Raise AttributeError
  end.

Fixpoint product_filter_loop (product_list : list record)
    (flight_direction : option string) (path : option Z)
    (filtered_products : list record) : M world (list record) :=
  match product_list with
  | [] => ret filtered_products
  | product :: rest =>
      do! granule_name := lift (granule_of_product product) in
      do! response := post_or_exit (VStr vertex_API_URL)
          (search_parameters granule_name flight_direction path) in
      do! js := lift (response_json response) in
      match js with
      | [] => raise IndexError
      | first :: _ =>
          let keep :=
            match first with
            | json_response :: _ => negb (size json_response =? 0)%nat
            | [] => false
            end in
          product_filter_loop rest flight_direction path
            (if keep then filtered_products ++ [product] else filtered_products)
      end
  end.

Definition product_filter (product_list : list record)
    (flight_direction : option string) (path : option Z)
  : M world (option (list record)) :=
  if negb (0 <? length product_list)%nat then
    raise (AssertionError
      "Error: product_list must contain at least one product_info dictionary.")
  else if truthy_str flight_direction || truthy_int path then
    do! filtered_products :=
      product_filter_loop product_list flight_direction path [] in
    ret (Some filtered_products)
  else ret None.

(** ** Numbers and their order *)

(** [a < b] on Python numbers: exact on finite values, false whenever a NaN
    is involved. *)
Definition num_lt (a b : number) : bool :=
  match a, b with
  | NaN, _ => false
  | _, NaN => false
  | Finite p, Finite q => negb (Qle_bool q p)
  | Finite _, PosInf => true
  | Finite _, NegInf => false
  | PosInf, _ => false
  | NegInf, NegInf => false
  | NegInf, _ => true
  end.

Definition num_gt (a b : number) : bool := num_lt b a.

(** The binary64 values the literals 20037508.342789244 and
    19971868.880408563 denote. *)
Definition x_extent : Q := 5378777689100435 # 268435456.
Definition y_extent : Q := 2680578865042341 # 134217728.

(** ** The AOI widget (source lines 593-781) *)

Inductive event_name : Type := selectiongeometry | reset.

Inductive event : Type :=
| SelectionGeometry (geometry : record)
| Reset.

Definition name_of (ev : event) : event_name :=
  match ev with
  | SelectionGeometry _ => selectiongeometry
  | Reset => reset
  end.

Definition event_name_eqb (a b : event_name) : bool :=
  match a, b with
  | selectiongeometry, selectiongeometry => true
  | reset, reset => true
  | _, _ => false
  end.

(** Python callables registered with [on_event]: the only one the module
    builds is the closure [python_callback] that [update_subset_bounds]
    returns. *)
Inductive python_handler : Type := python_callback_closure.

(** What [js_on_event] was handed: a browser-side [CustomJS], or [None]. *)
Inductive js_handler : Type := CustomJS (code : string).

(** The figure, reduced to its event wiring; ranges, tools, tiles and
    glyphs are display only. *)
Record figure : Type := mkfigure {
  python_event_callbacks : list (event_name * python_handler);
  js_event_callbacks : list (event_name * option js_handler)
}.

(** A Bokeh document, told from the others by its identity, with the
    figures added to it as roots. *)
Record document : Type := mkdocument {
  doc_id : nat;
  roots : list figure
}.

(** The Bokeh models that the object keeps from one display to the next,
    each with the document that owns it, if any: the data source
    [sources['subset']], the data source that [callbacks['subset']] was
    built on, and the three callbacks, which are made and attached
    together.  ([sources['hover']] is a plain dictionary.) *)
Record owners : Type := mkowners {
  source_document : option nat;
  callback_source_document : option nat;
  callbacks_document : option nat
}.

Record AOI : Type := mkAOI {
  geom : gmap string value;
  tiff_stack_coords : list (list number);
  subset_coords : list (list value);
  p : option figure;
  sources : gset string;
  callbacks : gset string;
  models : owners
}.

Definition with_geom (self : AOI) (g : gmap string value) : AOI :=
  mkAOI g (tiff_stack_coords self) (subset_coords self) (p self)
        (sources self) (callbacks self) (models self).
Definition with_subset_coords (self : AOI) (c : list (list value)) : AOI :=
  mkAOI (geom self) (tiff_stack_coords self) c (p self)
        (sources self) (callbacks self) (models self).
Definition with_p (self : AOI) (f : option figure) : AOI :=
  mkAOI (geom self) (tiff_stack_coords self) (subset_coords self) f
        (sources self) (callbacks self) (models self).
Definition with_sources (self : AOI) (s : gset string) : AOI :=
  mkAOI (geom self) (tiff_stack_coords self) (subset_coords self) (p self)
        s (callbacks self) (models self).
Definition with_callbacks (self : AOI) (c : gset string) : AOI :=
  mkAOI (geom self) (tiff_stack_coords self) (subset_coords self) (p self)
        (sources self) c (models self).
Definition with_models (self : AOI) (m : owners) : AOI :=
  mkAOI (geom self) (tiff_stack_coords self) (subset_coords self) (p self)
        (sources self) (callbacks self) m.

Definition unset_coords : list (list value) := [[VNone; VNone]; [VNone; VNone]].

(** [create_sources] puts a new data source, which no document owns,
    under ['subset']; a callback built before keeps the source it was
    built on. *)
Definition create_sources (self : AOI) : result AOI :=
  Ok (with_models
        (with_sources self (sources self ∪ {["hover"; "subset"]}))
        (mkowners None (callback_source_document (models self))
                  (callbacks_document (models self)))).

(** [create_callbacks] reads [self.sources['subset']] and builds three new
    callbacks, the first of them on that source. *)
Definition create_callbacks (self : AOI) : result AOI :=
  if bool_decide ("subset" ∈ sources self) then
    Ok (with_models
          (with_callbacks self
             (callbacks self ∪ {["subset"; "latitude"; "longitude"]}))
          (mkowners (source_document (models self))
                    (source_document (models self)) None))
  else Raise (KeyError "subset").

Definition out_of_range (bound : Q) (c : number) : bool :=
  num_lt c (Finite (- bound)) || num_gt c (Finite bound).

Definition e_length : string :=
  "Error: lower_left_coord must contain one EPSG:3857 coordinate [x, y]".
Definition e_order : string :=
  "Error: A lower_left_coord value is greater than an upper_right_coord value.".
Definition e_off_planet : string :=
  "Error: Cannot instantiate AOI class object with invalid EPSG:3857 coordinates.".

(** [AOI.__init__]; the two arguments are Python lists of numbers. *)
Definition AOI_init (lower_left_coord upper_right_coord : list number)
  : result AOI :=
  match lower_left_coord, upper_right_coord with
  | [llx; lly], [urx; ury] =>
      if negb (num_lt llx urx) then Raise (AssertionError e_order)
      else if negb (num_lt lly ury) then Raise (AssertionError e_order)
      else
        let coord_error := false in
        let coord_error := if out_of_range x_extent llx then true else coord_error in
        let coord_error := if out_of_range x_extent urx then true else coord_error in
        let coord_error := if out_of_range y_extent lly then true else coord_error in
        let coord_error := if out_of_range y_extent ury then true else coord_error in
        if coord_error then Raise (AssertionError e_off_planet)
        else
          let self :=
            mkAOI ∅ [lower_left_coord; upper_right_coord] unset_coords None ∅ ∅
                  (mkowners None None None) in
          try! self := create_sources self in
          create_callbacks self
  | _, _ => Raise (AssertionError e_length)
  end.

(** The default arguments of the constructor. *)
Definition AOI_default : result AOI :=
  AOI_init [Finite (- x_extent); Finite (- y_extent)]
           [Finite x_extent; Finite y_extent].

(** Methods run on the object and the world together. *)
Definition lift_world {A : Type} (m : M world A) : M (AOI * world) A :=
  fun s => let '(r, w') := m (snd s) in (r, (fst s, w')).

Definition modify_self (f : AOI → AOI) : M (AOI * world) unit :=
  fun s => (Ok tt, (f (fst s), snd s)).

(** [self.subset_coords[i][j] = v]. *)
Definition set_subset_coord (i j : nat) (v : value) : M (AOI * world) unit :=
  fun s =>
    let self := fst s in
    match subset_coords self !! i with
    | Some row =>
        if (j <? length row)%nat then
          (Ok tt, (with_subset_coords self
                     (<[i := <[j := v]> row]> (subset_coords self)), snd s))
        else (Raise IndexError, s)
    | None => (Raise IndexError, s)
    end.

Definition get_subset_coord (i j : nat) : M (AOI * world) value :=
  fun s =>
    match subset_coords (fst s) !! i with
    | Some row =>
        match row !! j with
        | Some v => (Ok v, s)
        | None => (Raise IndexError, s)
        end
    | None => (Raise IndexError, s)
    end.

(** The closure returned by [update_subset_bounds], applied to the
    geometry of a selection event. *)
Definition python_callback (geometry : record) : M (AOI * world) unit :=
  modify_self (fun self => with_geom self (geometry ∪ geom self)) ;;
  do! x0 := lift (getitem geometry "x0") in set_subset_coord 0 0 x0 ;;
  do! y0 := lift (getitem geometry "y0") in set_subset_coord 0 1 y0 ;;
  do! x1 := lift (getitem geometry "x1") in set_subset_coord 1 0 x1 ;;
  do! y1 := lift (getitem geometry "y1") in set_subset_coord 1 1 y1 ;;
  do! c00 := get_subset_coord 0 0 in
  do! c01 := get_subset_coord 0 1 in
  do! c10 := get_subset_coord 1 0 in
  do! c11 := get_subset_coord 1 1 in
  lift_world (print (SubsetCoordsEcho c00 c01 c10 c11)).

Definition reset_subset_bounds : M (AOI * world) unit :=
  modify_self (fun self => with_subset_coords self unset_coords).

Definition run_handler (h : python_handler) (ev : event) : M (AOI * world) unit :=
  match h, ev with
  | python_callback_closure, SelectionGeometry geometry => python_callback geometry
  | python_callback_closure, Reset => raise (KeyError "geometry")
  end.

Definition require_key (key : string) (keys : AOI → gset string)
  : M (AOI * world) unit :=
  fun s => if bool_decide (key ∈ keys (fst s)) then (Ok tt, s)
           else (Raise (KeyError key), s).

Definition set_figure (fig : figure) : M (AOI * world) unit :=
  modify_self (fun self => with_p self (Some fig)).

(** A model can join a document when no document owns it yet, or that
    very document does. *)
Definition free_for (doc : document) (owner : option nat) : bool :=
  match owner with
  | None => true
  | Some d => (d =? doc_id doc)%nat
  end.

Definition attachable (doc : document) (m : owners) : bool :=
  free_for doc (source_document m)
  && free_for doc (callback_source_document m)
  && free_for doc (callbacks_document m).

Definition attached (doc : document) : owners :=
  mkowners (Some (doc_id doc)) (Some (doc_id doc)) (Some (doc_id doc)).

(** [doc.add_root(fig)]: the figure becomes a root of the document, and
    every model it refers to is attached to the document.  The figure of
    [build_plot] is new at every call and refers to the models the object
    keeps; a model that another document owns raises RuntimeError.  Bokeh
    attaches the models in no fixed order and stops at the first one it
    cannot take: the model has it meet that one first, so a refused call
    attaches nothing.  (An object built by the constructor alone has its
    models all free or all in one document, and then no order matters.)
    The argument [doc] is changed in place: the model returns it as the
    call leaves it. *)
Definition add_root (doc : document) (fig : figure)
  : M (AOI * world) document :=
  fun s =>
    if attachable doc (models (fst s)) then
      (Ok (mkdocument (doc_id doc) (roots doc ++ [fig])),
       (with_models (fst s) (attached doc), snd s))
    else (Raise RuntimeError, s).

(** [build_plot], reduced to what it does to the object and to the
    document.  Line 760 calls [self.reset_subset_bounds()] on the spot and
    hands its result, [None], to [js_on_event]; line 761 registers the
    closure that [update_subset_bounds] returns; line 775 adds the figure
    to the document. *)
Definition build_plot (doc : document) : M (AOI * world) document :=
  require_key "subset" callbacks ;;
  set_figure (mkfigure [] []) ;;
  require_key "hover" sources ;;
  require_key "latitude" callbacks ;;
  require_key "longitude" callbacks ;;
  reset_subset_bounds ;;
  set_figure (mkfigure [] [(reset, None)]) ;;
  set_figure (mkfigure [(selectiongeometry, python_callback_closure)]
                       [(reset, None)]) ;;
  require_key "subset" sources ;;
  add_root doc (mkfigure [(selectiongeometry, python_callback_closure)]
                         [(reset, None)]).

Fixpoint run_handlers (hs : list (event_name * python_handler)) (ev : event)
  : M (AOI * world) unit :=
  match hs with
  | [] => ret tt
  | (n, h) :: rest =>
      (if event_name_eqb n (name_of ev) then run_handler h ev else ret tt) ;;
      run_handlers rest ev
  end.

(** An event arriving from the browser: the Python callbacks registered
    for it run in order; JavaScript callbacks run in the browser and never
    reach the object. *)
Definition fire (ev : event) : M (AOI * world) unit :=
  fun s =>
    match p (fst s) with
    | Some fig => run_handlers (python_event_callbacks fig) ev s
    | None => (Ok tt, s)
    end.

(** ** Date range check (source lines 370-385) *)

(** The result is [True], [False] or, when the function falls off its end
    after the error message, [None]. *)
Definition date_range_valid (start_date end_date : option date)
  : M world (option bool) :=
  match start_date, end_date with
  | Some s, Some e =>
      if date_lt e s then
        print (Line "Error: The start date must be prior to the end date.") ;;
        ret None
      else ret (Some true)
  | _, _ => ret (Some false)
  end.

(** ** Choice of a subscription (source lines 283-306) *)

(** [n == v] for an int [n] and a value of a record. *)
Definition value_eq_int (v : value) (n : Z) : bool :=
  match v with
  | VNum (Finite q) => Qeq_bool q (inject_Z n)
  | _ => false
  end.

(** The [for] loop: one line per subscription, and the ids collected.
    [py_str] is Python's [str] on the values of a record. *)
Fixpoint list_subscriptions (py_str : value → string)
    (subscriptions : list record) (possible_ids : list value)
  : M world (list value) :=
  match subscriptions with
  | [] => ret possible_ids
  | subscription :: rest =>
      do! id := lift (getitem subscription "id") in
      do! name := lift (getitem subscription "name") in
      print (Line (nl +:+ "Subscription id: " +:+ py_str id +:+ " "
                   +:+ py_str name)) ;;
      list_subscriptions py_str rest (possible_ids ++ [id])
  end.

(** The [while True] loop over the console. *)
Fixpoint pick_loop (possible_ids : list value) (lines : list string) : M world Z :=
  match lines with
  | [] =>
      print (Line "Pick a subscription ID from the above list:") ;;
      raise EOFError
  | line :: rest =>
      print (Line "Pick a subscription ID from the above list:") ;;
      (fun w => (Ok tt, with_stdin w rest)) ;;
      match py_int line with
      | Ok user_choice =>
          if existsb (λ id, value_eq_int id user_choice) possible_ids
          then ret user_choice
          else print (Line (nl +:+ "Invalid ID")) ;; pick_loop possible_ids rest
      | Raise _ =>
          print (Line (nl +:+ "Invalid ID")) ;; pick_loop possible_ids rest
      end
  end.

(** The argument is what [get_hyp3_subscriptions] returned: a list, or
    [None], which the first assertion refuses. *)
Definition pick_hyp3_subscription (py_str : value → string)
    (subscriptions : option (list record)) : M world Z :=
  match subscriptions with
  | None => raise (AssertionError "Error: subscriptions must be a list")
  | Some [] =>
      raise (AssertionError "Error: There are no subscriptions in the passed list")
  | Some subscriptions =>
      do! possible_ids := list_subscriptions py_str subscriptions [] in
      fun w => pick_loop possible_ids (stdin w) w
  end.

(** ** Removal of empty rasters (source lines 118-137) *)

(** [os.remove]: unlinks a regular file. *)
Definition os_remove (path : string) : M world unit :=
  fun w => match fs w !! path with
           | Some (RegularFile _) => (Ok tt, with_fs w (delete path (fs w)))
           | Some (Directory _) => (Raise IsADirectoryError, w)
           | None => (Raise FileNotFoundError, w)
           end.

(** [gdal_Open] stands for [gdal.Open] followed by [ReadAsArray] and
    [np.count_nonzero]: the number of non-zero cells of the raster a disk
    entry holds, or [None] when GDAL does not open it. *)
Fixpoint remove_nan_filled_tifs_loop (gdal_Open : node → option Z)
    (tif_dir : string) (file_names : list string) (removed : nat) : M world nat :=
  match file_names with
  | [] => ret removed
  | tiff :: rest =>
      fun w =>
        match fs w !! (tif_dir +:+ tiff) with
        | Some n =>
            match gdal_Open n with
            | Some count_nonzero =>
                if count_nonzero <? 1 then
                  (os_remove (tif_dir +:+ tiff) ;;
                   remove_nan_filled_tifs_loop gdal_Open tif_dir rest (S removed)) w
                else remove_nan_filled_tifs_loop gdal_Open tif_dir rest removed w
            | None => remove_nan_filled_tifs_loop gdal_Open tif_dir rest removed w
            end
        | None => remove_nan_filled_tifs_loop gdal_Open tif_dir rest removed w
        end
  end.

Definition remove_nan_filled_tifs (gdal_Open : node → option Z)
    (tif_dir : string) (file_names : list string) : M world unit :=
  if negb (0 <? length file_names)%nat then
    raise (AssertionError "Error: file_names must contain at least 1 file name")
  else
    do! removed := remove_nan_filled_tifs_loop gdal_Open tif_dir file_names 0 in
    print (Line ("GeoTiffs Examined: " +:+ str_of_nat (length file_names))) ;;
    print (Line ("GeoTiffs Removed:  " +:+ str_of_nat removed)).

(** ** Existence check and unzip (source lines 38-49 and 98-115) *)

Definition path_exists (path : string) : M world bool :=
  do! present := os_path_exists path in
  if present then ret true
  else print (Line ("Invalid Path: " +:+ path)) ;; ret false.

(** [s.rfind(c)]: the last index of the character, -1 when it does not
    occur; [i] is the index of the head of [s]. *)
Fixpoint rfind (c : ascii) (s : string) (i : Z) : Z :=
  match s with
  | EmptyString => -1
  | String a s' =>
      let later := rfind c s' (i + 1) in
      if 0 <=? later then later
      else if Ascii.eqb a c then i else -1
  end.

Fixpoint all_dots (s : string) : bool :=
  match s with
  | EmptyString => true
  | String c s' => Ascii.eqb c "." && all_dots s'
  end.

(** [os.path.splitext] on a POSIX path: the extension starts at the last
    dot of the last component, leading dots of the component set aside. *)
Definition os_path_splitext (p : string) : string * string :=
  let sepIndex := rfind "/" p 0 in
  let dotIndex := rfind "." p 0 in
  if sepIndex <? dotIndex then
    if all_dots (substring (Z.to_nat (sepIndex + 1))
                   (Z.to_nat (dotIndex - sepIndex - 1)) p)
    then (p, EmptyString)
    else (substring 0 (Z.to_nat dotIndex) p,
          substring (Z.to_nat dotIndex) (String.length p - Z.to_nat dotIndex) p)
  else (p, EmptyString).

(** What [zipfile.ZipFile(file_path).extractall(output_dir)] does with the
    bytes of an archive: it returns, raises [BadZipFile], or raises
    something else.  Members are written one after the other, so each
    outcome comes with the disk as the call leaves it: an archive can fail
    after some of its members are out. *)
Inductive unzip_outcome : Type :=
| Extracted (disk : gmap string node)
| BadZipFile (disk : gmap string node)
| UnzipRaises (e : exn) (disk : gmap string node).

Definition asf_unzip
    (extractall : list Byte.byte → string → gmap string node → unzip_outcome)
    (output_dir file_path : string) : M world unit :=
  let ext := snd (os_path_splitext file_path) in
  if negb (String.eqb ext ".zip") then
    raise (AssertionError "Error: file_path must be the path of a zip")
  else
    do! dir_ok := path_exists output_dir in
    if dir_ok then
      do! file_ok := path_exists file_path in
      if file_ok then
        print (Line ("Extracting: " +:+ file_path)) ;;
        fun w =>
          match fs w !! file_path with
          | Some (RegularFile content) =>
              match extractall content output_dir (fs w) with
              | Extracted disk => (Ok tt, with_fs w disk)
              | BadZipFile disk => print (Line "Zipfile Error.") (with_fs w disk)
              | UnzipRaises e disk => (Raise e, with_fs w disk)
              end
          | Some (Directory _) => (Raise IsADirectoryError, w)
          | None => (Raise FileNotFoundError, w)
          end
      else ret tt
    else ret tt.

(** ** Earthdata login (source lines 146-184) *)

(** What [api.login(password)] does: it returns, raises [LoginError], or
    raises something else. *)
Inductive login_outcome : Type :=
| LoggedIn
| LoginError (msg : string)
| LoginRaises (e : exn).

(** [clear_output()] wipes what the cell has displayed. *)
Definition clear_output : M world unit :=
  fun w => (Ok tt, with_stdout w []).

Definition netrc : string := "/home/jovyan/.netrc".

(** The [while True] loop; [input()] and [getpass()] each read one entry
    from the console.  [new_API] is the constructor [API(username)],
    [api_login] the method [login] of the object it builds, and [encode]
    the encoding of the text file, which refuses a text it cannot encode
    (UnicodeEncodeError, a ValueError). *)
Fixpoint earthdata_hyp3_login_loop (new_API : string → result API)
    (api_login : string → string → login_outcome)
    (encode : string → option (list Byte.byte))
    (err : option string) (lines : list string) : M world API :=
  (match err with
   | Some e => print (Line e) ;; print (Line ("Please Try again." +:+ nl))
   | None => ret tt
   end) ;;
  print (Line "Enter your NASA EarthData username:") ;;
  match lines with
  | [] => raise EOFError
  | username :: after_username =>
      (fun w => (Ok tt, with_stdin w after_username)) ;;
      print (Line "Enter your password:") ;;
      match after_username with
      | [] => raise EOFError
      | password :: rest =>
          (fun w => (Ok tt, with_stdin w rest)) ;;
          match new_API username with
          | Raise e => raise e
          | Ok api =>
              match api_login username password with
              | LoginError e =>
                  clear_output ;;
                  earthdata_hyp3_login_loop new_API api_login encode (Some e) rest
              | LoginRaises e => raise e
              | LoggedIn =>
                  clear_output ;;
                  print (Line "Login successful.") ;;
                  print (Line ("Welcome " +:+ username +:+ ".")) ;;
                  open_wb netrc ;;
                  match encode ("machine urs.earthdata.nasa.gov login "
                                +:+ username +:+ " password " +:+ password
                                +:+ nl) with
                  | Some bytes => f_write netrc bytes ;; ret api
                  | None => raise ValueError
                  end
              end
          end
      end
  end.

Definition earthdata_hyp3_login (new_API : string → result API)
    (api_login : string → string → login_outcome)
    (encode : string → option (list Byte.byte)) : M world API :=
  fun w => earthdata_hyp3_login_loop new_API api_login encode None (stdin w) w.

(** ** Download of the products of a subscription (source lines 487-561) *)

(** A prefix of the pattern, where a dot stands for any character but the
    newline; the result is what follows the prefix. *)
Fixpoint match_prefix (pattern s : string) : option string :=
  match pattern with
  | EmptyString => Some s
  | String pc pattern' =>
      match s with
      | EmptyString => None
      | String c s' =>
          if (if Ascii.eqb pc "." then negb (Ascii.eqb c "010") else Ascii.eqb pc c)
          then match_prefix pattern' s' else None
      end
  end.

(** The greedy group of the pattern, which ends in a group of any
    characters, a dot and [zip]: the longest run of characters, none of
    them a newline, that is followed by one more such character and by
    [zip]. *)
Fixpoint zip_group (r : string) : option string :=
  match r with
  | EmptyString => None
  | String c r' =>
      if Ascii.eqb c "010" then None
      else match zip_group r' with
           | Some g => Some (String c g)
           | None => if String.prefix "zip" r' then Some EmptyString else None
           end
  end.

(** [re.match] of the download pattern on the url, as its first group:
    the prefix https://hyp3-download.asf.alaska.edu/asf/data/ with its dots
    unescaped, then the group. *)
Definition product_of_url (url : string) : option string :=
  match match_prefix "https://hyp3-download.asf.alaska.edu/asf/data/" url with
  | Some r => zip_group r
  | None => None
  end.

(** [os.rename] of a regular file to a name in the same directory: the
    only caller renames the file that [download] has just written, by
    adding an extension. *)
Definition os_rename (src dst : string) : M world unit :=
  fun w =>
    match fs w !! src, fs w !! dst with
    | Some (RegularFile content), Some (Directory _) =>
        (Raise IsADirectoryError, w)
    | Some (RegularFile content), _ =>
        (Ok tt, with_fs w (<[dst := RegularFile content]> (delete src (fs w))))
    | Some (Directory _), _ => (Raise OSError, w)
    | None, _ => (Raise FileNotFoundError, w)
    end.

Definition str_of_Z (z : Z) : string := NilZero.string_of_int (Z.to_int z).

(** One round of the [for p in products] loop. *)
Definition fetch_product (requests_get : string → result response)
    (extractall : list Byte.byte → string → gmap string node → unzip_outcome)
    (destination_path : string) (product_count : nat) (p : record)
  : M world unit :=
  print (Line (nl +:+ "Product Number " +:+ str_of_nat product_count +:+ ":")) ;;
  do! url := lift (getitem p "url") in
  match url with
  | VStr url =>
      match product_of_url url with
      | Some product =>
          let filename := destination_path +:+ "/" +:+ product in
          do! present := os_path_exists filename in
          if negb present then
            print (Line (nl +:+ product +:+ " is not present." +:+ nl
                         +:+ "Downloading from " +:+ url)) ;;
            do! r := lift (requests_get url) in
            download filename r ;;
            print (Line nl) ;;
            os_rename filename (filename +:+ ".zip") ;;
            asf_unzip extractall destination_path (filename +:+ ".zip") ;;
            os_remove (filename +:+ ".zip") ;;
            print (Line (nl +:+ "Done."))
          else print (Line (filename +:+ " already exists."))
      | None => raise AttributeError
      end
  | _ => raise TypeError
  end.

Fixpoint fetch_products (requests_get : string → result response)
    (extractall : list Byte.byte → string → gmap string node → unzip_outcome)
    (destination_path : string) (product_count : nat) (products : list record)
  : M world unit :=
  match products with
  | [] => ret tt
  | p :: rest =>
      fetch_product requests_get extractall destination_path product_count p ;;
      fetch_products requests_get extractall destination_path (S product_count) rest
  end.

(** The pages of products the service holds for a subscription are read
    until the first empty one; past the last page the service answers with
    an empty page. *)
Fixpoint collect_pages (pages : list (list record)) (products : list record)
  : list record :=
  match pages with
  | [] => products
  | product_page :: rest =>
      match product_page with
      | [] => products
      | _ => collect_pages rest (products ++ product_page)
      end
  end.

(** [product_filter] applied to what the previous stage left in
    [products]. *)
Definition product_filter_on (products : option (list record))
    (flight_direction : option string) (path : option Z)
  : M world (option (list record)) :=
  match products with
  | Some product_list => product_filter product_list flight_direction path
  | None =>
      raise (AssertionError
        "Error: product_list must be a list of product_info dictionaries.")
  end.

(** [py_str] is Python's [str] on the values of a record, [get_products]
    the pages of each subscription, [requests_get] the download service and
    [extractall] the unzip. *)
Definition download_hyp3_products (py_str : value → string)
    (get_products : Z → list (list record))
    (requests_get : string → result response)
    (extractall : list Byte.byte → string → gmap string node → unzip_outcome)
    (hyp3_api_object : API) (destination_path : string)
    (start_date end_date : option date)
    (flight_direction : option string) (path : option Z)
  : M world (option Z) :=
  do! dest_ok := os_path_exists destination_path in
  if negb dest_ok then
    raise (AssertionError "Error: desitination_path must be valid")
  else
  do! subscriptions := get_hyp3_subscriptions hyp3_api_object in
  do! subscription_id := pick_hyp3_subscription py_str subscriptions in
  if subscription_id =? 0 then ret None
  else
  let products := collect_pages (get_products subscription_id) [] in
  do! valid := date_range_valid start_date end_date in
  do! products :=
    (match valid with
     | Some true =>
         match start_date, end_date with
         | Some s, Some e =>
             do! kept := lift (filter_date_range products s e) in ret (Some kept)
         | _, _ => raise TypeError
         end
     | _ => ret (Some products)
     end) in
  do! products :=
    (match flight_direction with
     | Some fd =>
         if truthy_str flight_direction then
           do! fd_ok := flight_direction_valid fd in
           if fd_ok then product_filter_on products flight_direction None
           else
             print (Line
               "Aborting download_hyp3_products() due to invalid flight_direction.") ;;
             raise (SystemExit 1)
         else ret products
     | None => ret products
     end) in
  do! products :=
    (if truthy_int path then product_filter_on products None path
     else ret products) in
  do! dest_ok := path_exists destination_path in
  (if dest_ok then
     match products with
     | Some products =>
         print (Line (nl +:+ str_of_nat (length products)
                      +:+ " products are associated with the selected date range, flight direction, and path for Subscription ID: "
                      +:+ str_of_Z subscription_id)) ;;
         fetch_products requests_get extractall destination_path 1 products
     | None => raise TypeError
     end
   else ret tt) ;;
  ret (Some subscription_id).

(** ** Vocabulary of the specification *)

(** Tokens written one after the other with the separator in between. *)
Fixpoint join (sep : ascii) (toks : list string) : string :=
  match toks with
  | [] => EmptyString
  | tok :: rest =>
      match rest with
      | [] => tok
      | _ => tok +:+ String sep (join sep rest)
      end
  end.

Fixpoint all_digits (s : string) : bool :=
  match s with
  | EmptyString => true
  | String c s' =>
      match digit_of c with
      | Some _ => all_digits s'
      | None => false
      end
  end.

(** The number a string of decimal digits writes. *)
Fixpoint decimal_from (acc : Z) (s : string) : Z :=
  match s with
  | EmptyString => acc
  | String c s' => decimal_from (10 * acc + (Z.of_nat (nat_of_ascii c) - 48)) s'
  end.

Definition decimal (s : string) : Z := decimal_from 0 s.

(** The date the digits YYYYMMDD write, when it is one. *)
Definition date_of_digits (ds : string) : result date :=
  datetime_date (decimal (substring 0 4 ds)) (decimal (substring 4 2 ds))
                (decimal (substring 6 2 ds)).

(** Chronological order on dates. *)
Definition date_before (a b : date) : Prop :=
  year a < year b
  ∨ (year a = year b
     ∧ (month a < month b ∨ (month a = month b ∧ day a < day b))).

Definition date_on_or_before (a b : date) : Prop := a = b ∨ date_before a b.

(** The filter the specification describes: keep the products whose
    acquisition date lies in [start_date, end_date). *)
Definition in_date_range (start_date end_date : date) (product : record) : bool :=
  match get_aquisition_date_from_product_name product with
  | Ok d => date_ge d start_date && date_lt d end_date
  | Raise _ => false
  end.

Definition named (name : string) : record := {[ "name" := VStr name ]}.

(** [a < b] between two numbers, as a proposition. *)
Definition below (a b : number) : Prop :=
  match a, b with
  | Finite p, Finite q => (p < q)%Q
  | Finite _, PosInf => True
  | NegInf, Finite _ => True
  | NegInf, PosInf => True
  | _, _ => False
  end.

(** A coordinate inside the extent: a finite number c with |c| <= bound. *)
Definition within (bound : Q) (c : number) : Prop :=
  match c with
  | Finite q => (- bound <= q)%Q ∧ (q <= bound)%Q
  | _ => False
  end.

(** Corner ordering and world extent of a corner pair. *)
Definition valid_corners (llx lly urx ury : number) : Prop :=
  below llx urx ∧ below lly ury
  ∧ within x_extent llx ∧ within x_extent urx
  ∧ within y_extent lly ∧ within y_extent ury.

(** The four bands and the wildcard path of one of them. *)
Definition bands : list string := ["VV"; "VH"; "HV"; "HH"].

Definition band_path (base_path separator band : string) : string :=
  base_path +:+ "/*/*" +:+ separator +:+ band +:+ ".tif".

(** The two literals read as decimal fractions. *)
Definition x_literal : Q := 20037508342789244 # 1000000000.
Definition y_literal : Q := 19971868880408563 # 1000000000.

(** What the search API answers about a product: the first group of its
    JSON result, when the product has a name, the request goes through and
    the result is a non-empty JSON array. *)
Definition search_answer (w : world) (flight_direction : option string)
    (path : option Z) (product : record) : option (list record) :=
  match granule_of_product product with
  | Ok granule_name =>
      match requests_post w (VStr vertex_API_URL)
              (search_parameters granule_name flight_direction path) with
      | inr r =>
          match json r with
          | Some (first :: _) => Some first
          | _ => None
          end
      | inl _ => None
      end
  | Raise _ => None
  end.

(** The search echoed a non-empty record for the product. *)
Definition confirmed (w : world) (flight_direction : option string)
    (path : option Z) (product : record) : bool :=
  match search_answer w flight_direction path product with
  | Some (json_response :: _) => negb (size json_response =? 0)%nat
  | _ => false
  end.

(** The line [get_vertex_granule_info] prints when the search is empty. *)
Definition mismatch_line : output :=
  Line ("get_vertex_granule_info() failed." +:+ nl
        +:+ "granule/processing level mismatch.").

(** The polarizations found on disk, in the order they are probed. *)
Definition available (w : world) (base_path separator : string) : list string :=
  let found band :=
    match glob_glob w (band_path base_path separator band) with
    | [] => [] | _ => [separator +:+ band]
    end in
  found "VV" ++ found "VH" ++ found "HV" ++ found "HH".

(** The numbered menu of the choices, and the line that answers a refused
    entry. *)
Fixpoint menu_lines (polarizations : list string) (i : nat) : list output :=
  match polarizations with
  | [] => []
  | pol :: rest =>
      Line ("[" +:+ str_of_nat i +:+ "]: " +:+ pol) :: menu_lines rest (S i)
  end.

Definition retry_line : output :=
  Line "Please enter the number of an available polarization.".

(** An entry the prompt refuses among [n] choices: not an integer, below
    zero, or above [n]. *)
Definition refused (n : nat) (line : string) : bool :=
  match py_int line with
  | Ok choice => (choice >? Z.of_nat n) || (choice <? 0)
  | Raise _ => true
  end.

(** Events delivered to the widget one after the other. *)
Fixpoint fire_all (evs : list event) : M (AOI * world) unit :=
  match evs with
  | [] => ret tt
  | ev :: rest => fire ev ;; fire_all rest
  end.

(** The figure as [build_plot] leaves it. *)
Definition wired_figure : figure :=
  mkfigure [(selectiongeometry, python_callback_closure)] [(reset, None)].

(** The corners a selection geometry carries, when it carries all four. *)
Definition corners_of (geometry : record) : option (list (list value)) :=
  match geometry !! "x0", geometry !! "y0", geometry !! "x1", geometry !! "y1" with
  | Some x0, Some y0, Some x1, Some y1 => Some [[x0; y0]; [x1; y1]]
  | _, _, _, _ => None
  end.

Definition complete (ev : event) : Prop :=
  match ev with
  | SelectionGeometry geometry => is_Some (corners_of geometry)
  | Reset => True
  end.

(** The corners of the last selection among the events, or the corners
    held before them when they bring no selection. *)
Fixpoint last_selection (evs : list event) (coords : list (list value))
  : list (list value) :=
  match evs with
  | [] => coords
  | SelectionGeometry geometry :: rest =>
      last_selection rest (default coords (corners_of geometry))
  | Reset :: rest => last_selection rest coords
  end.

(** The ids of the subscriptions, and whether a number is one of them. *)
Definition ids_of (subscriptions : list record) : list value :=
  omap (λ sub : record, sub !! "id") subscriptions.

Definition listed_id (subscriptions : list record) (n : Z) : bool :=
  existsb (λ id, value_eq_int id n) (ids_of subscriptions).

(** An entry the choice of a subscription refuses: not an integer, or not
    the id of a subscription. *)
Definition not_an_id (subscriptions : list record) (line : string) : bool :=
  match py_int line with
  | Ok n => negb (listed_id subscriptions n)
  | Raise _ => true
  end.

(** The rasters that [remove_nan_filled_tifs] deletes: regular files that
    GDAL opens and that hold no non-zero cell. *)
Definition blank_raster (gdal_Open : node → option Z) (n : node) : bool :=
  match n, gdal_Open n with
  | RegularFile _, Some count_nonzero => count_nonzero <? 1
  | _, _ => false
  end.

(** The path is one of the listed names under the directory. *)
Definition listed (tif_dir : string) (file_names : list string) (path : string)
  : bool :=
  bool_decide (path ∈ (λ name, tif_dir +:+ name) <$> file_names).

(** No newline in the string. *)
Definition one_line (s : string) : bool := free_of "010" s.

(** The address under which the download service serves a product. *)
Definition download_base : string :=
  "https://hyp3-download.asf.alaska.edu/asf/data/".

(** The line of credentials that the login writes. *)
Definition netrc_line (username password : string) : string :=
  "machine urs.earthdata.nasa.gov login " +:+ username
  +:+ " password " +:+ password +:+ nl.

(** The console entries of a series of login attempts. *)
Fixpoint typed (attempts : list (string * string)) : list string :=
  match attempts with
  | [] => []
  | (username, password) :: rest => username :: password :: typed rest
  end.

(** An attempt the service turns away with a login error. *)
Definition turned_away (new_API : string → result API)
    (api_login : string → string → login_outcome)
    (attempt : string * string) : Prop :=
  (∃ api, new_API attempt.1 = Ok api)
  ∧ ∃ msg, api_login attempt.1 attempt.2 = LoginError msg.

(** A product whose archive was extracted before: its url names it and
    its directory is on disk. *)
Definition on_disk (destination_path : string) (disk : gmap string node)
    (p : record) : Prop :=
  ∃ url product,
    p !! "url" = Some (VStr url) ∧ product_of_url url = Some product
    ∧ is_Some (disk !! (destination_path +:+ "/" +:+ product)).

(** The disk as an extraction leaves it. *)
Definition disk_after (outcome : unzip_outcome) : gmap string node :=
  match outcome with
  | Extracted disk => disk
  | BadZipFile disk => disk
  | UnzipRaises _ disk => disk
  end.

(** The first chunk of a body that holds bytes. *)
Fixpoint first_chunk (chunks : list (list Byte.byte)) : list Byte.byte :=
  match chunks with
  | [] => []
  | [] :: rest => first_chunk rest
  | chunk :: _ => chunk
  end.

(** The string ends with the suffix. *)
Definition ends_with (suffix s : string) : bool :=
  String.eqb
    (substring (String.length s - String.length suffix) (String.length suffix) s)
    suffix.

(** ** Concrete inputs *)

Definition sentinel_name : string :=
  "S1A_IW_GRDH_1SDV_20200615T153045_20200615T153110_033000_03D2A1_1B2C".
Definition radarsat_name : string := "RS2-20200615-153045-SLC".

Definition jan01 : record := named "RS2-20200101-040000-SLC".
Definition jun15 : record := named sentinel_name.
Definition dec31 : record := named "RS2-20201231-040000-SLC".

(** A world with an empty console, an empty disk and no network. *)
Definition world0 : world :=
  mkworld [] [] ∅ (λ _, []) (λ _ _, inl "no route to host").

(** A Hyp3 account without enabled subscriptions: the service answers
    with an empty JSON array. *)
Definition api_without_subscriptions : API := mkAPI (λ _, Ok (Some [])).

(** A granule the search API knows, served as a three-byte archive in two
    chunks; [declared] is the content-length the download response
    announces. *)
Definition granule_zip : string := "S1A_IW_GRDH_1SDV_20200615T153045.zip".
Definition granule_url : value :=
  VStr "https://datapool.asf.alaska.edu/GRD_HD/SA/S1A_IW_GRDH_1SDV_20200615T153045.zip".
Definition granule_info : record :=
  {[ "downloadUrl" := granule_url; "fileName" := VStr granule_zip ]}.
Definition granule_body : list (list Byte.byte) :=
  [[Byte.x50; Byte.x4b]; [Byte.x03]].
Definition granule_response (declared : string) : response :=
  mkresponse {[ "content-length" := declared ]} None granule_body.
Definition search_response : response :=
  mkresponse ∅ (Some [[granule_info]]) [].
Definition granule_service (declared : string) (url : value)
    (params : list (string * value)) : string + response :=
  match url with
  | VStr u => if String.eqb u vertex_API_URL then inr search_response
              else inr (granule_response declared)
  | _ => inl "Invalid URL"
  end.
Definition granule_world (declared : string) (disk : gmap string node) : world :=
  mkworld [] [] disk (λ _, []) (granule_service declared).

(** A disk with RTC products in one polarization only. *)
Definition rtc_glob (pattern : string) : list string :=
  if String.eqb pattern "rtc_products/*/*_VH.tif"
  then ["rtc_products/S1A_20200615/S1A_20200615_VH.tif"]
  else [].
Definition rtc_world : world :=
  mkworld [] ["1"] {[ "rtc_products" := Directory 4096 ]} rtc_glob
          (λ _ _, inl "no route to host").
Definition bare_world : world :=
  mkworld [] ["1"] {[ "rtc_products" := Directory 4096 ]} (λ _, [])
          (λ _ _, inl "no route to host").

(** The selection of the specification's example, and a displayed widget
    that receives it and then a reset event. *)
Definition selection_0_100 : record :=
  {[ "x0" := VNum (Finite 0); "y0" := VNum (Finite 0);
     "x1" := VNum (Finite 100); "y1" := VNum (Finite 100) ]}.

Definition new_document : document := mkdocument 0 [].

Definition select_then_reset : M (AOI * world) unit :=
  build_plot new_document ;; fire (SelectionGeometry selection_0_100) ;;
  fire Reset.

(** A disk with RTC products in two polarizations. *)
Definition dual_glob (pattern : string) : list string :=
  if String.eqb pattern "rtc_products/*/*_VV.tif"
  then ["rtc_products/S1A_20200615/S1A_20200615_VV.tif"]
  else if String.eqb pattern "rtc_products/*/*_VH.tif"
  then ["rtc_products/S1A_20200615/S1A_20200615_VH.tif"]
  else [].
Definition dual_world (console : list string) : world :=
  mkworld [] console {[ "rtc_products" := Directory 4096 ]} dual_glob
          (λ _ _, inl "no route to host").

(** An archive already on disk, and a response that declares no length. *)
Definition stale_disk : gmap string node :=
  {[ granule_zip := RegularFile [Byte.x00; Byte.x01; Byte.x02; Byte.x03] ]}.
Definition headless_response : response := mkresponse ∅ None granule_body.

Definition feb30 : record := named "RS2-20200230-040000-SLC".

(** A search service that knows the RADARSAT granules only, one that
    knows no granule, and one that is down. *)
Definition radarsat_service (url : value) (params : list (string * value))
  : string + response :=
  match params with
  | (_, VStr g) :: _ =>
      if String.eqb g "RS2" then inr search_response
      else inr (mkresponse ∅ (Some [[]]) [])
  | _ => inl "400 Bad Request"
  end.
Definition radarsat_world : world :=
  mkworld [] [] ∅ (λ _, []) radarsat_service.
Definition unknown_world : world :=
  mkworld [] [] stale_disk (λ _, []) (λ _ _, inr (mkresponse ∅ (Some []) [])).
Definition offline_world : world :=
  mkworld [] [] stale_disk (λ _, []) (λ _ _, inl "Connection refused").

(** A widget on display in the new document, and a geometry that lost
    its second corner. *)
Definition displayed_widget : AOI :=
  mkAOI ∅ [[Finite (- x_extent); Finite (- y_extent)];
           [Finite x_extent; Finite y_extent]]
        unset_coords (Some wired_figure)
        {["hover"; "subset"]} {["subset"; "latitude"; "longitude"]}
        (attached new_document).
Definition selection_5_9 : record :=
  {[ "x0" := VNum (Finite 5); "y0" := VNum (Finite 5);
     "x1" := VNum (Finite 9); "y1" := VNum (Finite 9) ]}.
Definition half_selection : record :=
  {[ "x0" := VNum (Finite 5); "y0" := VNum (Finite 5) ]}.

(** [str] on the values of the examples: strings, whole numbers, None. *)
Definition example_str (v : value) : string :=
  match v with
  | VStr s => s
  | VNum (Finite q) => NilZero.string_of_int (Z.to_int (Qnum q))
  | _ => "None"
  end.
Definition two_subscriptions : list record :=
  [ {[ "id" := VNum (Finite 1234); "name" := VStr "rtc_gamma" ]};
    {[ "id" := VNum (Finite 5678); "name" := VStr "insar" ]} ].
Definition console_world (console : list string) : world :=
  mkworld [] console ∅ (λ _, []) (λ _ _, inl "no route to host").

(** The same console in front of a disk with the home directory of the
    notebook server. *)
Definition home_world (console : list string) : world :=
  mkworld [] console {[ "/home/jovyan" := Directory 4096 ]} (λ _, [])
          (λ _ _, inl "no route to host").

(** A directory of rasters: one blank, one with data, one that is not a
    raster; GDAL reads the first byte as the number of non-zero cells. *)
Definition toy_gdal (n : node) : option Z :=
  match n with
  | RegularFile (b :: _) =>
      if Byte.eqb b Byte.xff then None else Some (Z.of_N (Byte.to_N b))
  | _ => None
  end.
Definition tif_disk : gmap string node :=
  {[ "tifs/a.tif" := RegularFile [Byte.x00; Byte.x00];
     "tifs/b.tif" := RegularFile [Byte.x07; Byte.x01];
     "tifs/notes.txt" := RegularFile [Byte.xff] ]}.
Definition tif_world : world :=
  mkworld [] [] tif_disk (λ _, []) (λ _ _, inl "no route to host").

(** A login service with one account, and an encoding for ASCII text. *)
Definition one_account (username password : string) : login_outcome :=
  if String.eqb username "analyst" && String.eqb password "s3cret"
  then LoggedIn else LoginError "Invalid username or password".
Definition ascii_bytes (s : string) : list Byte.byte :=
  map byte_of_ascii (list_ascii_of_string s).

(** A subscription service with two subscriptions; subscription 1234 has
    two products in one page, subscription 5678 has none. *)
Definition two_subscription_api : API := mkAPI (λ _, Ok (Some two_subscriptions)).
Definition rtc_product (name : string) : record :=
  {[ "name" := VStr name;
     "url" := VStr (download_base +:+ name +:+ ".zip") ]}.
Definition example_pages (subscription_id : Z) : list (list record) :=
  if subscription_id =? 1234
  then [[rtc_product "S1A_IW_RT30_20200615T153045_G_gpn";
         rtc_product "S1A_IW_RT30_20200627T153046_G_gpn"]]
  else [].
Definition no_download (url : string) : result response := Raise OSError.
Definition no_unzip (content : list Byte.byte) (output_dir : string)
    (disk : gmap string node) : unzip_outcome := BadZipFile disk.
Definition products_disk : gmap string node :=
  {[ "products" := Directory 4096;
     "products/S1A_IW_RT30_20200615T153045_G_gpn" := Directory 4096;
     "products/S1A_IW_RT30_20200627T153046_G_gpn" := Directory 4096 ]}.
Definition products_world (console : list string) : world :=
  mkworld [] console products_disk (λ _, []) (λ _ _, inl "no route to host").

(** A download service and an unzip that leave the product directory
    behind, for a run that fetches what is missing. *)
Definition zip_download (url : string) : result response :=
  Ok (granule_response "3").
Definition toy_unzip (content : list Byte.byte) (output_dir : string)
    (disk : gmap string node) : unzip_outcome :=
  match content with
  | [] => BadZipFile disk
  | _ => Extracted (<[output_dir +:+ "/S1A_IW_RT30_20200627T153046_G_gpn"
                      := Directory 4096]> disk)
  end.
Definition half_disk : gmap string node :=
  {[ "products" := Directory 4096;
     "products/S1A_IW_RT30_20200615T153045_G_gpn" := Directory 4096 ]}.
Definition half_world (console : list string) : world :=
  mkworld [] console half_disk (λ _, []) (λ _ _, inl "no route to host").

(** An unzip that fails on every archive after writing a first member. *)
Definition torn_unzip (content : list Byte.byte) (output_dir : string)
    (disk : gmap string node) : unzip_outcome :=
  BadZipFile (<[output_dir +:+ "/part.tif" := RegularFile []]> disk).

(** A disk with an archive that is not a zip. *)
Definition broken_world : world :=
  mkworld [] [] (<["products/broken.zip" := RegularFile []]> products_disk)
          (λ _, []) (λ _ _, inl "no route to host").

(** * Properties *)

Section Evaluation.

Example str_split_keeps_empty_tokens :
  str_split "_" "a__b_" = ["a"; ""; "b"; ""] ∧ str_split "_" "" = [""].
Proof. split; reflexivity. Qed.

Example py_int_accepts :
  py_int " 0615 " = Ok 615 ∧ py_int "-12" = Ok (-12) ∧ py_int "1_0" = Ok 10.
Proof. repeat split; reflexivity. Qed.

Example py_int_refuses :
  py_int "" = Raise ValueError ∧ py_int "06T1" = Raise ValueError
  ∧ py_int "_1" = Raise ValueError ∧ py_int "+ 1" = Raise ValueError.
Proof. repeat split; reflexivity. Qed.

Example datetime_date_checks_the_calendar :
  datetime_date 2020 2 29 = Ok (mkdate 2020 2 29)
  ∧ datetime_date 2021 2 29 = Raise ValueError
  ∧ datetime_date 2020 13 1 = Raise ValueError.
Proof. repeat split; reflexivity. Qed.

Example short_names_raise :
  get_aquisition_date_from_product_name (named "S1A_IW_GRDH") = Raise IndexError
  ∧ get_aquisition_date_from_product_name (named "RS2") = Raise IndexError
  ∧ get_aquisition_date_from_product_name (named "RS2-20200615-a_b")
    = Raise IndexError
  ∧ get_aquisition_date_from_product_name ∅ = Raise (KeyError "name").
Proof. repeat split; vm_compute; reflexivity. Qed.

Example three_dates_filtered :
  filter_date_range [jan01; jun15; dec31] (mkdate 2020 1 1) (mkdate 2020 12 31)
  = Ok [jan01; jun15].
Proof. vm_compute. reflexivity. Qed.

(** With two polarizations on disk the user is asked; an answer equal to
    the number of choices passes the range test and fails on the index. *)
Example two_polarizations_prompt :
  fst (select_RTC_polarization 2 "rtc_products" (dual_world ["x"; "1"]))
  = Ok (Some "rtc_products/*/*_VH.tif")
  ∧ fst (select_RTC_polarization 2 "rtc_products" (dual_world ["2"]))
    = Raise IndexError
  ∧ fst (select_RTC_polarization 2 "rtc_products" (dual_world ["7"]))
    = Raise EOFError.
Proof. repeat split; vm_compute; reflexivity. Qed.

(** [open] for writing, on a disk with a directory, a regular file and the
    home directory of the notebook server: a new name needs the directory
    it lies in, and a name that spells a directory is refused. *)
Example open_for_writing_examples :
  let disk : gmap string node :=
    {[ "d" := Directory 4096; "f" := RegularFile [];
       "/home/jovyan" := Directory 4096 ]} in
  map (open_for_writing disk)
      ["new.zip"; "f"; "d/new.zip"; "d//new.zip"; "./new.zip"; "/new.zip";
       "/home/jovyan/.netrc"]
  = [Ok tt; Ok tt; Ok tt; Ok tt; Ok tt; Ok tt; Ok tt]
  ∧ map (open_for_writing disk)
        [""; "missing/new.zip"; "d/missing/new.zip"; "missing/"; "missing/sub/"]
    = [Raise FileNotFoundError; Raise FileNotFoundError;
       Raise FileNotFoundError; Raise IsADirectoryError;
       Raise FileNotFoundError]
  ∧ map (open_for_writing disk) ["d"; "d/"; "f/"; "."; "d/.."; "/"]
    = [Raise IsADirectoryError; Raise IsADirectoryError;
       Raise IsADirectoryError; Raise IsADirectoryError;
       Raise IsADirectoryError; Raise IsADirectoryError]
  ∧ map (open_for_writing disk) ["f/new.zip"; "f/sub/new.zip"; "f/."; "f/sub/"]
    = [Raise NotADirectoryError; Raise NotADirectoryError;
       Raise NotADirectoryError; Raise NotADirectoryError]
  ∧ open_for_writing disk (String "000" "new.zip") = Raise ValueError.
Proof. repeat split; vm_compute; reflexivity. Qed.

(** A response that declares no bytes and still delivers some stops the
    progress bar on a division by zero. *)
Example download_divides_by_declared_length :
  fst (download_ASF_granule "S1A_IW_GRDH_1SDV_20200615T153045" "GRD_HD"
         (granule_world "0" ∅))
  = Raise ZeroDivisionError.
Proof. vm_compute. reflexivity. Qed.

End Evaluation.

Section Strings.

Lemma str_split_cons sep s : ∃ tok toks, str_split sep s = tok :: toks.
Proof.
  induction s as [|c s IH]; simpl; [by eauto|].
  destruct (Ascii.eqb c sep); [by eauto|].
  destruct IH as (tok & toks & ->). eauto.
Qed.

Lemma str_split_free sep s : free_of sep s = true → str_split sep s = [s].
Proof.
  induction s as [|c s IH]; simpl; [done|].
  destruct (Ascii.eqb c sep); simpl; [done|].
  intros H. by rewrite IH.
Qed.

Lemma str_split_single sep s :
  length (str_split sep s) = 1%nat ↔ free_of sep s = true.
Proof.
  split; [|by intros H; rewrite str_split_free].
  induction s as [|c s IH]; simpl; [done|].
  destruct (Ascii.eqb c sep); simpl.
  - destruct (str_split_cons sep s) as (tok & toks & ->). done.
  - destruct (str_split_cons sep s) as (tok & toks & E).
    rewrite E in IH |- *. simpl in *. auto.
Qed.

Lemma str_split_app sep tok s :
  free_of sep tok = true →
  str_split sep (tok +:+ String sep s) = tok :: str_split sep s.
Proof.
  induction tok as [|c tok IH]; simpl.
  - by rewrite Ascii.eqb_refl.
  - destruct (Ascii.eqb c sep); simpl; [done|].
    intros H. by rewrite IH.
Qed.

(** Splitting undoes joining, as long as no token holds the separator. *)
Lemma str_split_join sep toks :
  toks ≠ [] → Forall (λ tok, free_of sep tok = true) toks →
  str_split sep (join sep toks) = toks.
Proof.
  induction toks as [|tok rest IH]; [done|].
  intros _ H. inversion H as [|? ? Htok Hrest]; subst.
  destruct rest as [|tok' rest'].
  - simpl. by apply str_split_free.
  - change (join sep (tok :: tok' :: rest'))
      with (tok +:+ String sep (join sep (tok' :: rest'))).
    rewrite str_split_app by done. f_equal. by apply IH.
Qed.

Lemma digit_not_space c d : digit_of c = Some d → int_space c = false.
Proof. destruct c as [[] [] [] [] [] [] [] []]; vm_compute; congruence. Qed.

Lemma digit_not_sign c d :
  digit_of c = Some d → Ascii.eqb c "-" = false ∧ Ascii.eqb c "+" = false.
Proof. destruct c as [[] [] [] [] [] [] [] []]; vm_compute; intuition congruence. Qed.

Lemma digit_value c d : digit_of c = Some d → d = Z.of_nat (nat_of_ascii c) - 48.
Proof.
  unfold digit_of. destruct (_ && _); [|done]. by intros [= <-].
Qed.

Lemma lstrip_id l :
  match l with c :: _ => int_space c = false | [] => True end → lstrip l = l.
Proof. destruct l as [|c l]; simpl; [done|]. by intros ->. Qed.

Lemma all_digits_Forall s :
  all_digits s = true →
  Forall (λ c, is_Some (digit_of c)) (list_ascii_of_string s).
Proof.
  induction s as [|c s IH]; simpl; [by constructor|].
  destruct (digit_of c) eqn:E; [|done].
  intros H. constructor; [by eauto|by apply IH].
Qed.

Lemma strip_digits l :
  Forall (λ c, is_Some (digit_of c)) l → strip l = l.
Proof.
  intros H. unfold strip.
  assert (∀ l', Forall (λ c, is_Some (digit_of c)) l' → lstrip l' = l') as Hl.
  { intros l' Hl'. apply lstrip_id. destruct Hl' as [|c ? [d Hd] _]; [done|].
    by eapply digit_not_space. }
  rewrite (Hl l H). rewrite Hl.
  - apply rev_involutive.
  - by apply Forall_rev.
Qed.

Lemma int_digits_decimal s acc b :
  all_digits s = true → (s ≠ EmptyString ∨ b = true) →
  int_digits acc b (list_ascii_of_string s) = Some (decimal_from acc s).
Proof.
  revert acc b. induction s as [|c s IH]; simpl; intros acc b Hs Hb.
  - destruct Hb as [? | ->]; done.
  - destruct (digit_of c) as [d|] eqn:E; [|done].
    rewrite (digit_value _ _ E). apply IH; auto.
Qed.

(** [int()] on a non-empty string of digits yields the number they write. *)
Lemma py_int_decimal s :
  all_digits s = true → s ≠ EmptyString → py_int s = Ok (decimal s).
Proof.
  intros Hs Hne. unfold py_int.
  rewrite strip_digits by by apply all_digits_Forall.
  destruct s as [|c s]; [done|]. simpl in Hs |- *.
  destruct (digit_of c) as [d|] eqn:E; [|done].
  destruct (digit_not_sign _ _ E) as [-> ->]. simpl. rewrite E.
  rewrite (digit_value _ _ E).
  rewrite (int_digits_decimal s _ true) by auto.
  unfold decimal. simpl. f_equal. lia.
Qed.

(** A token that starts with eight digits is read as the date they write,
    whatever follows them. *)
Lemma date_of_token_digits ds tail :
  String.length ds = 8%nat → all_digits ds = true →
  date_of_token (ds +:+ tail) = date_of_digits ds.
Proof.
  intros Hlen Hds.
  do 8 (destruct ds as [|? ds]; [done|]). destruct ds; [|done].
  unfold date_of_token, date_of_digits, str_slice. simpl substring.
  simpl in Hds.
  repeat match type of Hds with
         | context [digit_of ?c] => destruct (digit_of c) eqn:?; [|done]
         end.
  assert (∀ s, substring 0 0 s = EmptyString) as -> by (by intros []).
  rewrite !py_int_decimal; simpl; try done;
    repeat match goal with H : digit_of _ = _ |- _ => rewrite H end; done.
Qed.

End Strings.

Section Dates.

Lemma date_lt_before a b : date_lt a b = true ↔ date_before a b.
Proof.
  unfold date_lt, date_before.
  rewrite !orb_true_iff, !andb_true_iff, !orb_true_iff, !andb_true_iff.
  rewrite !Z.ltb_lt, !Z.eqb_eq. tauto.
Qed.

Lemma date_ge_on_or_before d s : date_ge d s = true ↔ date_on_or_before s d.
Proof.
  unfold date_ge, date_on_or_before.
  rewrite negb_true_iff, <- not_true_iff_false, date_lt_before.
  destruct d as [yd md dd], s as [ys ms ds]. unfold date_before. simpl.
  split.
  - intros H.
    destruct (Z.eq_dec ys yd) as [->|]; [|right; lia].
    destruct (Z.eq_dec ms md) as [->|]; [|right; lia].
    destruct (Z.eq_dec ds dd) as [->|]; [by left|right; lia].
  - intros [[= -> -> ->]|H]; lia.
Qed.

Lemma in_date_range_iff s e product :
  in_date_range s e product = true ↔
  ∃ d, get_aquisition_date_from_product_name product = Ok d
       ∧ date_on_or_before s d ∧ date_before d e.
Proof.
  unfold in_date_range.
  destruct (get_aquisition_date_from_product_name product) as [d|err].
  - rewrite andb_true_iff, date_ge_on_or_before, date_lt_before. split.
    + intros [? ?]. by exists d.
    + by intros (d' & [= <-] & ? & ?).
  - split; [done|]. by intros (d & ? & _).
Qed.

(** The accumulating loop is a filter when every name parses. *)
Lemma filter_date_range_loop_filter product_list s e acc :
  (∀ product, product ∈ product_list →
     ∃ d, get_aquisition_date_from_product_name product = Ok d) →
  filter_date_range_loop product_list s e acc
  = Ok (acc ++ List.filter (in_date_range s e) product_list).
Proof.
  revert acc. induction product_list as [|product rest IH]; intros acc Hparse.
  - simpl. by rewrite app_nil_r.
  - destruct (Hparse product) as [d Hd]; [by left|].
    simpl. unfold in_date_range at 1. rewrite Hd. simpl.
    destruct (date_ge d s && date_lt d e).
    + rewrite IH by (intros; apply Hparse; by right).
      by rewrite <- app_assoc.
    + apply IH. intros; apply Hparse; by right.
Qed.

End Dates.

(** C1, on non-empty lists: for every non-empty product list whose names
    parse to acquisition dates, [filter_date_range] returns, in their order, exactly
    the products whose acquisition date d satisfies start <= d and d < end;
    products dated 2020-01-01, 2020-06-15 and 2020-12-31 filtered by
    [2020-01-01, 2020-12-31) leave exactly the first two. *)
Theorem filter_date_range_start_inclusive_end_exclusive :
  (∀ (product_list : list record) (start_date end_date : date),
     product_list ≠ [] →
     (∀ product, product ∈ product_list →
        ∃ d, get_aquisition_date_from_product_name product = Ok d) →
     ∃ kept,
       filter_date_range product_list start_date end_date = Ok kept
       ∧ kept = List.filter (in_date_range start_date end_date) product_list
       ∧ ∀ product,
           product ∈ kept ↔
           product ∈ product_list
           ∧ ∃ d, get_aquisition_date_from_product_name product = Ok d
                  ∧ date_on_or_before start_date d ∧ date_before d end_date)
  ∧ (∀ p1 p2 p3 : record,
       get_aquisition_date_from_product_name p1 = Ok (mkdate 2020 1 1) →
       get_aquisition_date_from_product_name p2 = Ok (mkdate 2020 6 15) →
       get_aquisition_date_from_product_name p3 = Ok (mkdate 2020 12 31) →
       filter_date_range [p1; p2; p3] (mkdate 2020 1 1) (mkdate 2020 12 31)
       = Ok [p1; p2]).
Proof.
  split.
  - intros product_list s e Hne Hparse.
    exists (List.filter (in_date_range s e) product_list). split; [|split; [done|]].
    + unfold filter_date_range.
      destruct product_list as [|product rest]; [done|].
      change (0 <? length (product :: rest))%nat with true. cbv iota.
      by rewrite filter_date_range_loop_filter.
    + intros product. rewrite list_elem_of_In, filter_In, <- list_elem_of_In.
      by rewrite in_date_range_iff.
  - intros p1 p2 p3 H1 H2 H3. unfold filter_date_range. simpl.
    rewrite H1. simpl. rewrite H2. simpl. by rewrite H3.
Qed.

(** C1 does not hold of every list: on the empty list, whose names all
    parse, the assertion on the length raises and nothing is returned. *)
Lemma filter_date_range_rejects_empty_list :
  ¬ (∀ (product_list : list record) (start_date end_date : date),
       (∀ product, product ∈ product_list →
          ∃ d, get_aquisition_date_from_product_name product = Ok d) →
       filter_date_range product_list start_date end_date
       = Ok (List.filter (in_date_range start_date end_date) product_list)).
Proof.
  intros H.
  specialize (H [] (mkdate 2020 1 1) (mkdate 2020 12 31)).
  assert (∀ product : record, product ∈ [] →
            ∃ d, get_aquisition_date_from_product_name product = Ok d) as Hvac.
  { intros product Hin. by apply elem_of_nil in Hin. }
  specialize (H Hvac). discriminate H.
Qed.

(** The witness of C1: the three products of the specification's example. *)
Lemma filter_date_range_witness :
  ∃ kept,
    filter_date_range [jan01; jun15; dec31] (mkdate 2020 1 1) (mkdate 2020 12 31)
    = Ok kept
    ∧ kept = List.filter (in_date_range (mkdate 2020 1 1) (mkdate 2020 12 31))
               [jan01; jun15; dec31]
    ∧ ∀ product,
        product ∈ kept ↔
        product ∈ [jan01; jun15; dec31]
        ∧ ∃ d, get_aquisition_date_from_product_name product = Ok d
               ∧ date_on_or_before (mkdate 2020 1 1) d
               ∧ date_before d (mkdate 2020 12 31).
Proof.
  apply (proj1 filter_date_range_start_inclusive_end_exclusive).
  - discriminate.
  - intros product Hin.
    apply elem_of_cons in Hin as [->|Hin]; [by eexists; vm_compute|].
    apply elem_of_cons in Hin as [->|Hin]; [by eexists; vm_compute|].
    apply elem_of_cons in Hin as [->|Hin]; [by eexists; vm_compute|].
    by apply elem_of_nil in Hin.
Defined.

(** C2: a name that splits on '_' into a single token is split again on
    '-' and its date is read from the eight digits YYYYMMDD that open the
    second token; a name that splits on '_' into several tokens has its
    date read from the digits that open the fifth token; names of the form
    S1A_IW_GRDH_1SDV_20200615T... and RS2-20200615-... both give
    2020-06-15. *)
Theorem acquisition_date_from_second_or_fifth_token :
  (∀ (product : record) (name : string) (toks : list string) (ds tail : string),
     product !! "name" = Some (VStr name) →
     length (str_split "_" name) = 1%nat →
     name = join "-" toks →
     Forall (λ tok, free_of "-" tok = true) toks →
     toks !! 1%nat = Some (ds +:+ tail) →
     String.length ds = 8%nat → all_digits ds = true →
     get_aquisition_date_from_product_name product = date_of_digits ds)
  ∧ (∀ (product : record) (name : string) (toks : list string) (ds tail : string),
     product !! "name" = Some (VStr name) →
     (1 < length (str_split "_" name))%nat →
     name = join "_" toks →
     Forall (λ tok, free_of "_" tok = true) toks →
     toks !! 4%nat = Some (ds +:+ tail) →
     String.length ds = 8%nat → all_digits ds = true →
     get_aquisition_date_from_product_name product = date_of_digits ds)
  ∧ (∀ rest : string,
       get_aquisition_date_from_product_name
         (named ("S1A_IW_GRDH_1SDV_20200615T" +:+ rest)) = Ok (mkdate 2020 6 15))
  ∧ (∀ rest : string,
       free_of "_" rest = true →
       get_aquisition_date_from_product_name
         (named ("RS2-20200615-" +:+ rest)) = Ok (mkdate 2020 6 15)).
Proof.
  repeat split.
  - intros product name toks ds tail Hname Hone -> Hfree Htok Hlen Hds.
    unfold get_aquisition_date_from_product_name. rewrite Hname, Hone. simpl.
    rewrite str_split_join; [|by intros ->|done].
    rewrite Htok. by apply date_of_token_digits.
  - intros product name toks ds tail Hname Hmany -> Hfree Htok Hlen Hds.
    unfold get_aquisition_date_from_product_name. rewrite Hname.
    destruct (Nat.eqb_spec (length (str_split "_" (join "_" toks))) 1) as [E|_];
      [lia|].
    rewrite str_split_join; [|by intros ->|done].
    rewrite Htok. by apply date_of_token_digits.
  - intros rest. unfold get_aquisition_date_from_product_name, named.
    rewrite lookup_singleton_eq. simpl. change ("" +:+ rest) with rest.
    destruct (str_split_cons "_" rest) as (tok & toks & ->). reflexivity.
  - intros rest Hfree. unfold get_aquisition_date_from_product_name, named.
    rewrite lookup_singleton_eq.
    rewrite (str_split_free "_") by exact Hfree.
    cbv [String.append]. simpl. reflexivity.
Qed.

(** The witness of C2: one name of each convention. *)
Lemma acquisition_date_witness :
  get_aquisition_date_from_product_name (named radarsat_name)
  = date_of_digits "20200615"
  ∧ get_aquisition_date_from_product_name (named sentinel_name)
    = date_of_digits "20200615"
  ∧ get_aquisition_date_from_product_name (named ("RS2-20200615-" +:+ "SLC"))
    = Ok (mkdate 2020 6 15).
Proof.
  destruct acquisition_date_from_second_or_fifth_token as (Hhyphen & Hunder & _ & Hrs2).
  split; [|split].
  - apply (Hhyphen (named radarsat_name) radarsat_name
             ["RS2"; "20200615"; "153045"; "SLC"] "20200615" "");
      try reflexivity.
    repeat constructor.
  - apply (Hunder (named sentinel_name) sentinel_name
             ["S1A"; "IW"; "GRDH"; "1SDV"; "20200615T153045"; "20200615T153110";
              "033000"; "03D2A1"; "1B2C"] "20200615" "T153045");
      try reflexivity.
    + vm_compute. lia.
    + repeat constructor.
  - apply Hrs2. reflexivity.
Defined.

(** C3: [flight_direction_valid] answers True exactly on the six strings
    A, ASC, ASCENDING, D, DESC, DESCENDING, compared as written, and False
    on everything else; 'asc' and 'East' are rejected. *)
Theorem flight_direction_valid_exact_members :
  ∀ (s : string) (w : world),
    (fst (flight_direction_valid s w) = Ok true ↔
     s = "A" ∨ s = "ASC" ∨ s = "ASCENDING"
     ∨ s = "D" ∨ s = "DESC" ∨ s = "DESCENDING")
    ∧ (fst (flight_direction_valid s w) = Ok true
       ∨ fst (flight_direction_valid s w) = Ok false)
    ∧ fst (flight_direction_valid "asc" w) = Ok false
    ∧ fst (flight_direction_valid "East" w) = Ok false.
Proof.
  intros s w. split; [|split; [|split; reflexivity]].
  - unfold flight_direction_valid.
    destruct (existsb (String.eqb s) valid_directions) eqn:E; simpl.
    + split; [intros _|done].
      apply existsb_exists in E as (x & Hin & Heq).
      apply String.eqb_eq in Heq. subst x. simpl in Hin. intuition auto.
    + split; [done|]. intros H.
      assert (existsb (String.eqb s) valid_directions = true) as E'; [|congruence].
      apply existsb_exists. exists s. split; [|apply String.eqb_refl].
      simpl. intuition auto.
  - unfold flight_direction_valid.
    destruct (existsb (String.eqb s) valid_directions); simpl; auto.
Qed.

Section Subscriptions.

(** The function hands back whatever the API answered. *)
Lemma get_hyp3_subscriptions_passes_through api w :
  fst (get_hyp3_subscriptions api w) = get_subscriptions api true.
Proof.
  unfold get_hyp3_subscriptions, bind, lift.
  destruct (get_subscriptions api true) as [subs|e]; [|done].
  by destruct (falsy_list subs).
Qed.

Lemma get_hyp3_subscriptions_reports_empty api w subs :
  get_subscriptions api true = Ok subs → falsy_list subs = true →
  stdout (snd (get_hyp3_subscriptions api w))
  = stdout w
    ++ [Line "There are no subscriptions associated with this Hyp3 account."].
Proof.
  intros Hapi Hfalsy. unfold get_hyp3_subscriptions, bind, lift.
  by rewrite Hapi, Hfalsy.
Qed.

End Subscriptions.

(** C4, evaluated on the code: when the API yields zero enabled
    subscriptions as an empty list, [get_hyp3_subscriptions] reports it
    and returns that empty list, not [None]. *)
Theorem get_hyp3_subscriptions_returns_the_empty_list :
  ∀ w : world,
    get_hyp3_subscriptions api_without_subscriptions w
    = (Ok (Some []),
       with_stdout w
         (stdout w
          ++ [Line "There are no subscriptions associated with this Hyp3 account."]))
    ∧ fst (get_hyp3_subscriptions api_without_subscriptions w) ≠ Ok None.
Proof. intros w. split; [reflexivity|discriminate]. Qed.

(** C10: on a non-empty product list, [product_filter] with neither a
    flight direction nor a path runs no filter and returns [None], not the
    unfiltered list; nothing is printed and no request is made. *)
Theorem product_filter_without_filters_returns_none :
  ∀ (product_list : list record) (w : world),
    product_list ≠ [] →
    product_filter product_list None None w = (Ok None, w)
    ∧ fst (product_filter product_list None None w) ≠ Ok (Some product_list).
Proof.
  intros product_list w Hne.
  destruct product_list as [|product rest]; [done|].
  split; [reflexivity|discriminate].
Qed.

(** The witness of C10: a one-product list. *)
Lemma product_filter_without_filters_witness :
  product_filter [jun15] None None world0 = (Ok None, world0)
  ∧ fst (product_filter [jun15] None None world0) ≠ Ok (Some [jun15]).
Proof.
  apply product_filter_without_filters_returns_none. discriminate.
Defined.

Section Corners.

(** The extents are the literals rounded to binary64: just below them, by
    less than half a unit in the last place (2^-28 between 2^24 and 2^25). *)
Lemma extent_rounds_literal :
  (x_extent <= x_literal)%Q ∧ (x_literal - x_extent <= 1 # 536870912)%Q
  ∧ (y_extent <= y_literal)%Q ∧ (y_literal - y_extent <= 1 # 536870912)%Q.
Proof. repeat split; vm_compute; discriminate. Qed.

(** No binary64 value of that binade, and so no integer either, lies
    between an extent and its literal: on Python ints and floats the test
    against the extent is the test against the decimal literal. *)
Lemma extent_agrees_with_literal (n : Z) :
  ((n # 268435456 <= x_literal)%Q ↔ (n # 268435456 <= x_extent)%Q)
  ∧ ((n # 268435456 <= y_literal)%Q ↔ (n # 268435456 <= y_extent)%Q).
Proof.
  unfold Qle, x_literal, y_literal, x_extent, y_extent. simpl. lia.
Qed.

Lemma num_lt_below a b : num_lt a b = true ↔ below a b.
Proof.
  destruct a as [p| | |], b as [q| | |]; simpl; try (split; by auto).
  rewrite negb_true_iff, <- not_true_iff_false, Qle_bool_iff.
  split; [apply Qnot_le_lt|apply Qlt_not_le].
Qed.

Lemma below_not_nan a b : below a b → a ≠ NaN ∧ b ≠ NaN.
Proof. destruct a, b; simpl; by auto. Qed.

(** Inside the extent is what the four range tests let through, for a
    coordinate that already passed an ordering test. *)
Lemma out_of_range_within bound c :
  c ≠ NaN → (out_of_range bound c = false ↔ within bound c).
Proof.
  intros Hnan. unfold out_of_range, num_gt.
  destruct c as [q| | |]; simpl; [|by split|by split|done].
  rewrite orb_false_iff, !negb_false_iff, !Qle_bool_iff. tauto.
Qed.

Lemma AOI_init_checks llx lly urx ury :
  AOI_init [llx; lly] [urx; ury]
  = if negb (num_lt llx urx) then Raise (AssertionError e_order)
    else if negb (num_lt lly ury) then Raise (AssertionError e_order)
    else if out_of_range x_extent llx || out_of_range x_extent urx
            || out_of_range y_extent lly || out_of_range y_extent ury
         then Raise (AssertionError e_off_planet)
         else Ok (mkAOI ∅ [[llx; lly]; [urx; ury]] unset_coords None
                    {["hover"; "subset"]}
                    {["subset"; "latitude"; "longitude"]}
                    (mkowners None None None)).
Proof.
  unfold AOI_init.
  destruct (num_lt llx urx); [|done]. destruct (num_lt lly ury); [|done].
  simpl.
  destruct (out_of_range x_extent llx), (out_of_range x_extent urx),
    (out_of_range y_extent lly), (out_of_range y_extent ury); try done.
Qed.

End Corners.

(** C6: a corner pair that violates the corner ordering or has a
    coordinate outside the world extent is refused by the constructor with
    an assertion error; no object is built. *)
Theorem AOI_init_rejects_invalid_corners :
  ∀ llx lly urx ury : number,
    ¬ valid_corners llx lly urx ury →
    (∃ msg, AOI_init [llx; lly] [urx; ury] = Raise (AssertionError msg))
    ∧ ∀ self, AOI_init [llx; lly] [urx; ury] ≠ Ok self.
Proof.
  intros llx lly urx ury Hbad.
  assert (∃ msg, AOI_init [llx; lly] [urx; ury] = Raise (AssertionError msg))
    as [msg Hmsg]; [|split; [by exists msg|by rewrite Hmsg]].
  rewrite AOI_init_checks.
  destruct (num_lt llx urx) eqn:Hx; [|by eexists].
  destruct (num_lt lly ury) eqn:Hy; [|by eexists].
  simpl.
  destruct (out_of_range x_extent llx || out_of_range x_extent urx
            || out_of_range y_extent lly || out_of_range y_extent ury) eqn:Hout;
    [by eexists|].
  exfalso. apply Hbad.
  apply num_lt_below in Hx, Hy.
  destruct (below_not_nan _ _ Hx), (below_not_nan _ _ Hy).
  rewrite !orb_false_iff in Hout. destruct Hout as [[[? ?] ?] ?].
  unfold valid_corners. rewrite <- !out_of_range_within by done. tauto.
Qed.

(** The witness of C6: corners in the wrong order, and a corner beyond
    the extent. *)
Lemma AOI_init_rejects_witness :
  ((∃ msg, AOI_init [Finite 5; Finite 0] [Finite 1; Finite 9]
           = Raise (AssertionError msg))
   ∧ ∀ self, AOI_init [Finite 5; Finite 0] [Finite 1; Finite 9] ≠ Ok self)
  ∧ ((∃ msg, AOI_init [Finite 0; Finite 0] [Finite 20037509; Finite 9]
             = Raise (AssertionError msg))
     ∧ ∀ self, AOI_init [Finite 0; Finite 0] [Finite 20037509; Finite 9] ≠ Ok self).
Proof.
  split; apply AOI_init_rejects_invalid_corners.
  - intros (H & _). vm_compute in H. discriminate H.
  - intros (_ & _ & _ & (_ & H) & _). vm_compute in H. by apply H.
Defined.

(** C7: for corners [[llx,lly],[urx,ury]] with llx < urx, lly < ury and
    every coordinate inside the world extent, construction succeeds, keeps
    the corners, and starts with subset_coords = [[None,None],[None,None]]. *)
Theorem AOI_init_accepts_valid_corners :
  ∀ llx lly urx ury : number,
    below llx urx → below lly ury →
    within x_extent llx → within x_extent urx →
    within y_extent lly → within y_extent ury →
    ∃ self,
      AOI_init [llx; lly] [urx; ury] = Ok self
      ∧ subset_coords self = [[VNone; VNone]; [VNone; VNone]]
      ∧ tiff_stack_coords self = [[llx; lly]; [urx; ury]].
Proof.
  intros llx lly urx ury Hx Hy Hllx Hurx Hlly Hury.
  rewrite AOI_init_checks.
  destruct (below_not_nan _ _ Hx), (below_not_nan _ _ Hy).
  apply num_lt_below in Hx, Hy. rewrite Hx, Hy. simpl.
  apply out_of_range_within in Hllx, Hurx, Hlly, Hury; try done.
  rewrite Hllx, Hurx, Hlly, Hury. simpl. by eexists.
Qed.

(** The witness of C7: the default corners, which span the whole extent. *)
Lemma AOI_init_accepts_witness :
  ∃ self,
    AOI_init [Finite (- x_extent); Finite (- y_extent)]
             [Finite x_extent; Finite y_extent] = Ok self
    ∧ subset_coords self = [[VNone; VNone]; [VNone; VNone]]
    ∧ tiff_stack_coords self
      = [[Finite (- x_extent); Finite (- y_extent)];
         [Finite x_extent; Finite y_extent]].
Proof.
  apply AOI_init_accepts_valid_corners; vm_compute; try split; discriminate.
Defined.

Section Download.

Lemma world_eta w :
  mkworld (stdout w) (stdin w) (fs w) (glob_glob w) (requests_post w) = w.
Proof. by destruct w. Qed.

(** Streaming the chunks appends them to the open file; the progress
    arithmetic goes through unless the declared length is zero while bytes
    arrive. *)
Lemma download_chunks_appends filename total_length chunks dl w content :
  fs w !! filename = Some (RegularFile content) →
  total_length ≠ 0 ∨ concat chunks = [] →
  ∃ progress,
    download_chunks filename total_length chunks dl w
    = (Ok tt,
       mkworld (stdout w ++ progress) (stdin w)
         (<[filename := RegularFile (content ++ concat chunks)]> (fs w))
         (glob_glob w) (requests_post w)).
Proof.
  revert dl w content.
  induction chunks as [|chunk rest IH]; intros dl w content Hfile Hlen.
  - exists []. simpl. rewrite !app_nil_r.
    rewrite (insert_id (fs w) filename _ Hfile). by rewrite world_eta.
  - simpl. destruct chunk as [|b chunk].
    + destruct (IH (dl + Z.of_nat (length (@nil Byte.byte))) w content Hfile)
        as [progress ->]; [by simpl in Hlen|].
      by exists progress.
    + destruct Hlen as [Hlen|Hlen]; [|done].
      unfold bind at 1. unfold bind at 1. unfold f_write. rewrite Hfile.
      rewrite (proj2 (Z.eqb_neq total_length 0) Hlen).
      unfold print at 1. cbv beta iota.
      set (w1 := with_stdout _ _).
      destruct (IH (dl + Z.of_nat (length (b :: chunk))) w1
                  (content ++ b :: chunk)) as [progress ->].
      { subst w1. simpl. by rewrite lookup_insert_eq. }
      { by left. }
      eexists (_ :: progress). subst w1. simpl.
      by rewrite insert_insert_eq, <- !app_assoc.
Qed.

(** A regular file that is there can be opened for writing. *)
Lemma open_for_writing_regular disk filename content :
  disk !! filename = Some (RegularFile content) →
  free_of "000" filename = true →
  open_for_writing disk filename = Ok tt.
Proof. intros Hfile Hnul. unfold open_for_writing. by rewrite Hnul, Hfile. Qed.

Lemma rstrip_slash_free name :
  free_of "/" name = true → rstrip_slash name = name.
Proof.
  induction name as [|c name IH]; [done|]. simpl.
  intros [Hc Hfree]%andb_true_iff. rewrite (IH Hfree).
  destruct name; [|done]. by apply negb_true_iff in Hc as ->.
Qed.

(** A new name without a slash is created in the current directory. *)
Lemma open_for_writing_new_name disk name :
  disk !! name = None →
  free_of "/" name = true → free_of "000" name = true →
  dot_name name = false →
  open_for_writing disk name = Ok tt.
Proof.
  intros Hnew Hslash Hnul Hdot. unfold open_for_writing.
  rewrite Hnul, Hnew. cbn [negb].
  assert (String.eqb name "" = false) as ->.
  { unfold dot_name in Hdot. by destruct (String.eqb name ""). }
  rewrite (rstrip_slash_free name Hslash), (str_split_free "/" name Hslash).
  cbn [walk rbind]. by rewrite String.eqb_refl, Hdot.
Qed.

(** A file is never created in a directory that is not there. *)
Lemma open_for_writing_missing_directory disk dir name :
  disk !! (dir +:+ "/" +:+ name) = None →
  disk !! dir = None →
  free_of "/" dir = true → free_of "/" name = true →
  free_of "000" dir = true → free_of "000" name = true →
  dot_name dir = false → name ≠ "" →
  open_for_writing disk (dir +:+ "/" +:+ name) = Raise FileNotFoundError.
Proof.
  intros Hnew Hdir Hsd Hsn Hnd Hnn Hdot Hname. unfold open_for_writing.
  change (dir +:+ "/" +:+ name) with (dir +:+ String "/" name) in *.
  assert (free_of "000" (dir +:+ String "/" name) = true) as ->.
  { clear -Hnd Hnn. induction dir as [|c dir IH]; [done|].
    change (String c dir +:+ String "/" name)
      with (String c (dir +:+ String "/" name)).
    simpl in *. apply andb_true_iff in Hnd as [-> Hnd]. by apply IH. }
  rewrite Hnew. cbn [negb].
  assert (String.eqb (dir +:+ String "/" name) "" = false) as ->.
  { by destruct dir. }
  assert (rstrip_slash (dir +:+ String "/" name) = dir +:+ String "/" name)
    as ->.
  { clear -Hsn Hname. induction dir as [|c dir IH].
    - change ("" +:+ String "/" name) with (String "/" name). simpl.
      rewrite (rstrip_slash_free name Hsn). by destruct name.
    - change (String c dir +:+ String "/" name)
        with (String c (dir +:+ String "/" name)).
      simpl. rewrite IH. by destruct dir. }
  rewrite (str_split_app "/" dir name Hsd), (str_split_free "/" name Hsn).
  cbn [walk]. rewrite Hdot.
  change ("" +:+ dir) with dir. by rewrite Hdir.
Qed.

Lemma download_writes_body filename request total_length w :
  open_for_writing (fs w) filename = Ok tt →
  content_length request = Ok total_length →
  total_length ≠ 0 ∨ concat (iter_content request) = [] →
  ∃ progress,
    download filename request w
    = (Ok tt,
       mkworld (stdout w ++ progress) (stdin w)
         (<[filename := RegularFile (concat (iter_content request))]> (fs w))
         (glob_glob w) (requests_post w)).
Proof.
  intros Hopen Hlen Hbody. unfold download, bind, lift, open_wb.
  rewrite Hopen, Hlen.
  set (w1 := with_fs w (<[filename:=RegularFile []]> (fs w))).
  destruct (download_chunks_appends filename total_length (iter_content request)
              0 w1 []) as [progress ->]; [|done|].
  { subst w1. simpl. by rewrite lookup_insert_eq. }
  exists progress. subst w1. simpl. by rewrite insert_insert_eq.
Qed.

(** A file that cannot be opened is the end of the download: nothing is
    written and nothing printed. *)
Lemma download_refused filename request w e :
  open_for_writing (fs w) filename = Raise e →
  download filename request w = (Raise e, w).
Proof. intros Hopen. unfold download, bind, open_wb. by rewrite Hopen. Qed.

(** With a declared length of zero the first chunk that holds bytes is
    written, and the progress bar then divides by zero. *)
Lemma download_chunks_divides filename chunks dl w content :
  fs w !! filename = Some (RegularFile content) →
  concat chunks ≠ [] →
  download_chunks filename 0 chunks dl w
  = (Raise ZeroDivisionError,
     with_fs w (<[filename := RegularFile (content ++ first_chunk chunks)]> (fs w))).
Proof.
  revert dl. induction chunks as [|chunk rest IH]; intros dl Hfile Hbody; [done|].
  simpl. destruct chunk as [|b chunk].
  - by apply IH.
  - unfold bind at 1. unfold bind at 1. unfold f_write. by rewrite Hfile.
Qed.

(** Once the granule is resolved, what is left to do depends on whether a
    local file has the declared size. *)
Lemma download_ASF_granule_resolved w granule_name processing_level vertex_info
    url local_filename r total_length :
  get_vertex_granule_info granule_name processing_level w
  = (Ok (Some vertex_info), w) →
  vertex_info !! "downloadUrl" = Some url →
  vertex_info !! "fileName" = Some (VStr local_filename) →
  requests_post w url [] = inr r →
  content_length r = Ok total_length →
  download_ASF_granule granule_name processing_level w
  = (if match fs w !! local_filename with
        | Some n => node_size n =? total_length
        | None => false
        end
     then
       print (Line (local_filename
                    +:+ " is already present in current working directory.")) ;;
       ret (Some local_filename)
     else
       print (LineOf "Downloading " url) ;;
       download local_filename r ;;
       do! size := os_stat_st_size local_filename in
       if size <? total_length then
         print (Line (nl +:+ "Download failed!" +:+ nl)) ;; ret None
       else
         print (Line (nl +:+ "Done" +:+ nl)) ;; ret (Some local_filename)) w.
Proof.
  intros Hinfo Hurl Hfile Hpost Hlen.
  unfold download_ASF_granule. unfold bind at 1. rewrite Hinfo.
  unfold bind at 1, lift at 1, getitem at 1. rewrite Hurl.
  unfold bind at 1, lift at 1, getitem at 1. rewrite Hfile.
  unfold bind at 1, post_or_exit at 1. rewrite Hpost.
  unfold bind at 1, lift at 1. rewrite Hlen.
  unfold bind at 1, lift at 1, as_path at 1.
  unfold bind at 1, os_path_exists at 1.
  destruct (fs w !! local_filename) as [n|] eqn:E.
  - unfold bind at 1. unfold bind at 1. unfold os_stat_st_size at 1.
    rewrite E. unfold ret at 1. done.
  - unfold bind at 1. unfold ret at 1. done.
Qed.

End Download.

(** C5, amended: once the granule is resolved and the response declares
    its content-length, [download_ASF_granule] returns the file name
    without downloading when a local file of that name has exactly the
    declared size; otherwise, when the name can be opened for writing and
    the declared length is not zero while bytes arrive (the progress bar
    divides by it), it downloads, and returns [None] after reporting the
    failure when the file written is smaller than declared, the file name
    when it is not. *)
Theorem download_ASF_granule_skips_or_checks_size :
  ∀ (w : world) (granule_name processing_level : string) (vertex_info : record)
    (url : value) (local_filename : string) (r : response) (total_length : Z),
    get_vertex_granule_info granule_name processing_level w
    = (Ok (Some vertex_info), w) →
    vertex_info !! "downloadUrl" = Some url →
    vertex_info !! "fileName" = Some (VStr local_filename) →
    requests_post w url [] = inr r →
    content_length r = Ok total_length →
    (∀ n, fs w !! local_filename = Some n → node_size n = total_length →
       download_ASF_granule granule_name processing_level w
       = (Ok (Some local_filename),
          with_stdout w
            (stdout w
             ++ [Line (local_filename
                       +:+ " is already present in current working directory.")])))
    ∧ ((fs w !! local_filename = None
        ∨ ∃ content, fs w !! local_filename = Some (RegularFile content)
                     ∧ Z.of_nat (length content) ≠ total_length) →
       open_for_writing (fs w) local_filename = Ok tt →
       total_length ≠ 0 ∨ concat (iter_content r) = [] →
       ∃ progress,
         download_ASF_granule granule_name processing_level w
         = (if Z.of_nat (length (concat (iter_content r))) <? total_length
            then Ok None else Ok (Some local_filename),
            mkworld
              (stdout w ++ [LineOf "Downloading " url] ++ progress
               ++ [Line (if Z.of_nat (length (concat (iter_content r)))
                            <? total_length
                         then nl +:+ "Download failed!" +:+ nl
                         else nl +:+ "Done" +:+ nl)])
              (stdin w)
              (<[local_filename := RegularFile (concat (iter_content r))]> (fs w))
              (glob_glob w) (requests_post w))).
Proof.
  intros w granule_name processing_level vertex_info url local_filename r
    total_length Hinfo Hurl Hfile Hpost Hlen.
  rewrite (download_ASF_granule_resolved w granule_name processing_level
             vertex_info url local_filename r total_length
             Hinfo Hurl Hfile Hpost Hlen).
  split.
  - intros n Hn Hsize. rewrite Hn. by apply Z.eqb_eq in Hsize as ->.
  - intros Habsent Hopen Hbody.
    assert (match fs w !! local_filename with
            | Some n => node_size n =? total_length
            | None => false
            end = false) as ->.
    { destruct Habsent as [->|(content & -> & Hne)]; [done|].
      by apply Z.eqb_neq. }
    unfold bind at 1. unfold print at 1.
    set (w1 := with_stdout w _).
    destruct (download_writes_body local_filename r total_length w1)
      as [progress Hdl]; [done | done | done |].
    exists progress. unfold bind at 1. rewrite Hdl.
    unfold bind at 1, os_stat_st_size at 1. subst w1. simpl.
    rewrite lookup_insert_eq. simpl.
    destruct (Z.of_nat (length (concat (iter_content r))) <? total_length);
      unfold bind, print, ret; simpl; rewrite <- !app_assoc; done.
Qed.

(** The witness of C5: the archive already on disk with the declared size,
    a complete download, and a download that comes out short. *)
Lemma download_ASF_granule_witness :
  download_ASF_granule "S1A_IW_GRDH_1SDV_20200615T153045" "GRD_HD"
    (granule_world "3"
       {[ granule_zip := RegularFile [Byte.x50; Byte.x4b; Byte.x03] ]})
  = (Ok (Some granule_zip),
     with_stdout
       (granule_world "3"
          {[ granule_zip := RegularFile [Byte.x50; Byte.x4b; Byte.x03] ]})
       [Line (granule_zip +:+ " is already present in current working directory.")])
  ∧ (∃ progress,
       download_ASF_granule "S1A_IW_GRDH_1SDV_20200615T153045" "GRD_HD"
         (granule_world "3" ∅)
       = (Ok (Some granule_zip),
          mkworld
            ([LineOf "Downloading " granule_url] ++ progress
             ++ [Line (nl +:+ "Done" +:+ nl)])
            []
            {[ granule_zip := RegularFile [Byte.x50; Byte.x4b; Byte.x03] ]}
            (λ _, []) (granule_service "3")))
  ∧ (∃ progress,
       download_ASF_granule "S1A_IW_GRDH_1SDV_20200615T153045" "GRD_HD"
         (granule_world "5" ∅)
       = (Ok None,
          mkworld
            ([LineOf "Downloading " granule_url] ++ progress
             ++ [Line (nl +:+ "Download failed!" +:+ nl)])
            []
            {[ granule_zip := RegularFile [Byte.x50; Byte.x4b; Byte.x03] ]}
            (λ _, []) (granule_service "5"))).
Proof.
  split; [|split].
  - apply (proj1 (download_ASF_granule_skips_or_checks_size
                    (granule_world "3" _) _ _ granule_info granule_url granule_zip
                    (granule_response "3") 3
                    eq_refl eq_refl eq_refl eq_refl eq_refl)
             (RegularFile [Byte.x50; Byte.x4b; Byte.x03]));
      reflexivity.
  - apply (proj2 (download_ASF_granule_skips_or_checks_size
                    (granule_world "3" ∅) _ _ granule_info granule_url granule_zip
                    (granule_response "3") 3
                    eq_refl eq_refl eq_refl eq_refl eq_refl)).
    + left. reflexivity.
    + reflexivity.
    + left. lia.
  - apply (proj2 (download_ASF_granule_skips_or_checks_size
                    (granule_world "5" ∅) _ _ granule_info granule_url granule_zip
                    (granule_response "5") 5
                    eq_refl eq_refl eq_refl eq_refl eq_refl)).
    + left. reflexivity.
    + reflexivity.
    + left. lia.
Defined.

(** C5 does not hold of every resolved granule: a response that declares
    a length of zero and still delivers bytes stops the download on the
    division of the progress bar, and the call returns neither [None] nor
    the file name. *)
Lemma download_ASF_granule_raises_while_downloading :
  ¬ (∀ (w : world) (granule_name processing_level : string)
       (vertex_info : record) (url : value) (local_filename : string)
       (r : response) (total_length : Z),
       get_vertex_granule_info granule_name processing_level w
       = (Ok (Some vertex_info), w) →
       vertex_info !! "downloadUrl" = Some url →
       vertex_info !! "fileName" = Some (VStr local_filename) →
       requests_post w url [] = inr r →
       content_length r = Ok total_length →
       (∀ n, fs w !! local_filename = Some n → node_size n ≠ total_length) →
       fst (download_ASF_granule granule_name processing_level w) = Ok None
       ∨ fst (download_ASF_granule granule_name processing_level w)
         = Ok (Some local_filename)).
Proof.
  intros H.
  specialize (H (granule_world "0" ∅) "S1A_IW_GRDH_1SDV_20200615T153045"
                "GRD_HD" granule_info granule_url granule_zip
                (granule_response "0") 0
                eq_refl eq_refl eq_refl eq_refl eq_refl).
  assert (∀ n : node, fs (granule_world "0" ∅) !! granule_zip = Some n →
                      node_size n ≠ 0) as Hnew.
  { intros n Hn. vm_compute in Hn. discriminate Hn. }
  destruct (H Hnew) as [Hnone|Hname].
  - vm_compute in Hnone. discriminate Hnone.
  - vm_compute in Hname. discriminate Hname.
Qed.

Section Polarization.

Variable w : world.
Variables base_path separator : string.
Variable process_type : Z.
Hypothesis Hprocess :
  (process_type = 2 ∧ separator = "_") ∨ (process_type = 18 ∧ separator = "-").
Hypothesis Hbase : is_Some (fs w !! base_path).

(** What the function does once the four probes are answered. *)
Lemma select_RTC_polarization_probes :
  select_RTC_polarization process_type base_path w
  = (let found band :=
       match glob_glob w (band_path base_path separator band) with
       | [] => [] | _ => [separator +:+ band]
       end in
     match found "VV" ++ found "VH" ++ found "HV" ++ found "HH" with
     | [only] =>
         print (Line ("Selecting the only available polarization: " +:+ only)) ;;
         ret (Some (base_path +:+ "/*/*" +:+ only +:+ ".tif"))
     | (_ :: _ :: _) as polarizations =>
         print (Line "Select a polarization:") ;;
         print_choices polarizations 0 ;;
         (λ w', choose_polarization base_path polarizations (stdin w') w')
     | [] =>
         print (Line "Error: found no available polarizations.") ;;
         ret None
     end) w.
Proof.
  destruct Hbase as [n Hn].
  unfold select_RTC_polarization, band_path.
  assert (negb ((process_type =? 2) || (process_type =? 18)) = false) as ->.
  { by destruct Hprocess as [[-> _]|[-> _]]. }
  assert ((if process_type =? 2 then "_" else "-") = separator) as ->.
  { by destruct Hprocess as [[-> ->]|[-> ->]]. }
  unfold bind at 1, os_path_exists at 1. rewrite Hn. cbv beta iota zeta.
  unfold negb.
  unfold bind at 1, bind at 1, polarization_exists at 1, ret at 1.
  unfold bind at 1, bind at 1, polarization_exists at 1, ret at 1.
  unfold bind at 1, bind at 1, polarization_exists at 1, ret at 1.
  unfold bind at 1, bind at 1, polarization_exists at 1, ret at 1.
  destruct (glob_glob w (base_path +:+ "/*/*" +:+ separator +:+ "VV" +:+ ".tif"));
  destruct (glob_glob w (base_path +:+ "/*/*" +:+ separator +:+ "VH" +:+ ".tif"));
  destruct (glob_glob w (base_path +:+ "/*/*" +:+ separator +:+ "HV" +:+ ".tif"));
  destruct (glob_glob w (base_path +:+ "/*/*" +:+ separator +:+ "HH" +:+ ".tif"));
  reflexivity.
Qed.

Lemma band_path_assoc band :
  base_path +:+ "/*/*" +:+ (separator +:+ band) +:+ ".tif"
  = band_path base_path separator band.
Proof.
  unfold band_path. by destruct Hprocess as [[_ ->]|[_ ->]].
Qed.

End Polarization.

(** C9: with process type 2 (separator '_') or 18 (separator '-') and an
    existing base path, [select_RTC_polarization] returns the wildcard
    path base_path/*/*<sep><band>.tif of the only band among VV, VH, HV,
    HH that has matching files, reading nothing from the console; when no
    band has matching files it reports an error and returns [None]. *)
Theorem select_RTC_polarization_single_or_none :
  ∀ (w : world) (process_type : Z) (base_path separator : string),
    (process_type = 2 ∧ separator = "_") ∨ (process_type = 18 ∧ separator = "-") →
    is_Some (fs w !! base_path) →
    (∀ band,
       band ∈ bands →
       glob_glob w (band_path base_path separator band) ≠ [] →
       (∀ other, other ∈ bands → other ≠ band →
          glob_glob w (band_path base_path separator other) = []) →
       select_RTC_polarization process_type base_path w
       = (Ok (Some (band_path base_path separator band)),
          with_stdout w
            (stdout w
             ++ [Line ("Selecting the only available polarization: "
                       +:+ separator +:+ band)]))
       ∧ stdin (snd (select_RTC_polarization process_type base_path w)) = stdin w)
    ∧ ((∀ band, band ∈ bands →
          glob_glob w (band_path base_path separator band) = []) →
       select_RTC_polarization process_type base_path w
       = (Ok None,
          with_stdout w
            (stdout w ++ [Line "Error: found no available polarizations."]))).
Proof.
  intros w process_type base_path separator Hprocess Hbase.
  rewrite (select_RTC_polarization_probes w base_path separator process_type
             Hprocess Hbase).
  assert (∀ band, band ∈ bands ↔
            band = "VV" ∨ band = "VH" ∨ band = "HV" ∨ band = "HH") as Hbands.
  { intros band. unfold bands. rewrite !elem_of_cons, elem_of_nil. tauto. }
  split.
  - intros band Hband Hfound Hothers.
    assert (∀ other, other ∈ bands → other ≠ band →
              match glob_glob w (band_path base_path separator other) with
              | [] => [] | _ => [separator +:+ other]
              end = []) as Hnone.
    { intros other Hin Hne. by rewrite (Hothers other Hin Hne). }
    assert (match glob_glob w (band_path base_path separator band) with
            | [] => [] | _ => [separator +:+ band]
            end = [separator +:+ band]) as Hone.
    { by destruct (glob_glob w (band_path base_path separator band)). }
    cbv beta zeta.
    apply Hbands in Hband as [-> | [-> | [-> | ->]]];
      rewrite Hone;
      rewrite ?(Hnone "VV"), ?(Hnone "VH"), ?(Hnone "HV"), ?(Hnone "HH")
        by (try (apply Hbands; tauto); discriminate);
      cbn [app]; unfold bind, print, ret; cbv beta iota;
      rewrite (band_path_assoc base_path separator process_type Hprocess);
      done.
  - intros Hnone. cbv beta zeta.
    rewrite !Hnone by (apply Hbands; tauto). reflexivity.
Qed.

(** The witness of C9: only VH products on disk, and none at all. *)
Lemma select_RTC_polarization_witness :
  (select_RTC_polarization 2 "rtc_products" rtc_world
   = (Ok (Some "rtc_products/*/*_VH.tif"),
      with_stdout rtc_world
        [Line "Selecting the only available polarization: _VH"])
   ∧ stdin (snd (select_RTC_polarization 2 "rtc_products" rtc_world)) = ["1"])
  ∧ select_RTC_polarization 18 "rtc_products" bare_world
    = (Ok None,
       with_stdout bare_world [Line "Error: found no available polarizations."]).
Proof.
  split.
  - apply (proj1 (select_RTC_polarization_single_or_none
                    rtc_world 2 "rtc_products" "_"
                    (or_introl (conj eq_refl eq_refl))
                    (ex_intro _ (Directory 4096) eq_refl)) "VH").
    + unfold bands. rewrite !elem_of_cons. tauto.
    + discriminate.
    + intros other Hin Hne. unfold bands in Hin.
      rewrite !elem_of_cons, elem_of_nil in Hin.
      destruct Hin as [-> | [-> | [-> | [-> | Hin]]]]; done.
  - apply (proj2 (select_RTC_polarization_single_or_none
                    bare_world 18 "rtc_products" "-"
                    (or_intror (conj eq_refl eq_refl))
                    (ex_intro _ (Directory 4096) eq_refl))).
    reflexivity.
Defined.

(** C9 does not hold of every base path: under a base path that is not on
    disk no band has a matching file, and the assertion on the base path
    raises where the claim has the function report an error and return
    [None]. *)
Lemma select_RTC_polarization_asserts_the_base_path :
  ¬ (∀ (w : world) (process_type : Z) (base_path separator : string),
       (process_type = 2 ∧ separator = "_")
       ∨ (process_type = 18 ∧ separator = "-") →
       (∀ band, band ∈ bands →
          glob_glob w (band_path base_path separator band) = []) →
       select_RTC_polarization process_type base_path w
       = (Ok None,
          with_stdout w
            (stdout w ++ [Line "Error: found no available polarizations."]))).
Proof.
  intros H.
  specialize (H world0 2 "rtc_products" "_"
                (or_introl (conj eq_refl eq_refl)) (λ _ _, eq_refl)).
  vm_compute in H. discriminate H.
Qed.

Section Widget.

(** The selection callback writes the four geometry values into
    subset_coords, in the order x0, y0, x1, y1, and echoes them. *)
Lemma python_callback_writes_geometry (self : AOI) (w : world)
    (geometry : record) (x0 y0 x1 y1 a b c d : value) :
  subset_coords self = [[a; b]; [c; d]] →
  geometry !! "x0" = Some x0 → geometry !! "y0" = Some y0 →
  geometry !! "x1" = Some x1 → geometry !! "y1" = Some y1 →
  python_callback geometry (self, w)
  = (Ok tt,
     (with_subset_coords (with_geom self (geometry ∪ geom self))
        [[x0; y0]; [x1; y1]],
      with_stdout w (stdout w ++ [SubsetCoordsEcho x0 y0 x1 y1]))).
Proof.
  intros Hshape Hx0 Hy0 Hx1 Hy1.
  unfold python_callback, bind, lift, getitem, modify_self, set_subset_coord,
    get_subset_coord, lift_world, print.
  rewrite Hx0, Hy0, Hx1, Hy1. simpl. rewrite Hshape. reflexivity.
Qed.

(** Called directly, the reset method restores the unset corners. *)
Lemma reset_subset_bounds_unsets (self : AOI) (w : world) :
  reset_subset_bounds (self, w) = (Ok tt, (with_subset_coords self unset_coords, w)).
Proof. reflexivity. Qed.

(** On a displayed widget a selection event reaches the callback. *)
Lemma fire_selection_runs_callback (self : AOI) (w : world) (geometry : record) :
  p self = Some (mkfigure [(selectiongeometry, python_callback_closure)]
                          [(reset, None)]) →
  fire (SelectionGeometry geometry) (self, w)
  = (python_callback geometry ;; ret tt) (self, w).
Proof. intros Hp. unfold fire. simpl. by rewrite Hp. Qed.

(** A reset event finds no Python callback: the object stays as it is. *)
Lemma fire_reset_changes_nothing (self : AOI) (w : world) :
  p self = Some (mkfigure [(selectiongeometry, python_callback_closure)]
                          [(reset, None)]) →
  fire Reset (self, w) = (Ok tt, (self, w)).
Proof. intros Hp. unfold fire. simpl. by rewrite Hp. Qed.

Lemma require_key_present key keys (self : AOI) (w : world) :
  key ∈ keys self → require_key key keys (self, w) = (Ok tt, (self, w)).
Proof. intros Hin. unfold require_key. simpl. by rewrite bool_decide_true. Qed.

(** What [build_plot] has done by the time it hands the figure to the
    document: the corners are unset once more, and the figure has a
    selection callback, and [None] where the reset callback was meant to
    go. *)
Lemma build_plot_adds_root (self : AOI) (w : world) (doc : document) :
  {["subset"; "latitude"; "longitude"]} ⊆ callbacks self →
  {["hover"; "subset"]} ⊆ sources self →
  build_plot doc (self, w)
  = add_root doc
      (mkfigure [(selectiongeometry, python_callback_closure)] [(reset, None)])
      (with_p (with_subset_coords self unset_coords)
         (Some (mkfigure [(selectiongeometry, python_callback_closure)]
                         [(reset, None)])), w).
Proof.
  intros Hc Hs. unfold build_plot.
  unfold bind at 1. rewrite require_key_present by set_solver.
  unfold bind at 1, set_figure at 1, modify_self at 1. cbn [fst snd].
  unfold bind at 1. rewrite require_key_present by (simpl; set_solver).
  unfold bind at 1. rewrite require_key_present by (simpl; set_solver).
  unfold bind at 1. rewrite require_key_present by (simpl; set_solver).
  unfold bind at 1. rewrite reset_subset_bounds_unsets.
  unfold bind at 1, set_figure at 1, modify_self at 1. cbn [fst snd].
  unfold bind at 1, set_figure at 1, modify_self at 1. cbn [fst snd].
  unfold bind at 1. rewrite require_key_present by (simpl; set_solver).
  reflexivity.
Qed.

(** A document that may take the models of the object takes the figure. *)
Lemma build_plot_wires (self : AOI) (w : world) (doc : document) :
  {["subset"; "latitude"; "longitude"]} ⊆ callbacks self →
  {["hover"; "subset"]} ⊆ sources self →
  attachable doc (models self) = true →
  build_plot doc (self, w)
  = (Ok (mkdocument (doc_id doc)
           (roots doc
            ++ [mkfigure [(selectiongeometry, python_callback_closure)]
                         [(reset, None)]])),
     (with_models
        (with_p (with_subset_coords self unset_coords)
           (Some (mkfigure [(selectiongeometry, python_callback_closure)]
                           [(reset, None)])))
        (attached doc), w)).
Proof.
  intros Hc Hs Hfree. rewrite build_plot_adds_root by done.
  unfold add_root. cbn [fst snd models with_p with_subset_coords].
  by rewrite Hfree.
Qed.


End Widget.

(** C8, evaluated on the code: on the widget built with the default
    corners and displayed, the selection event x0=0, y0=0, x1=100, y1=100
    sets subset_coords to [[0,0],[100,100]], and the reset event that
    follows leaves it there: [build_plot] registered no Python callback for
    reset events. *)
Theorem reset_event_keeps_the_selection :
  ∃ self0,
    AOI_default = Ok self0
    ∧ ∀ w : world,
        ∃ self,
          select_then_reset (self0, w)
          = (Ok tt,
             (self,
              with_stdout w
                (stdout w
                 ++ [SubsetCoordsEcho (VNum (Finite 0)) (VNum (Finite 0))
                       (VNum (Finite 100)) (VNum (Finite 100))])))
          ∧ subset_coords self
            = [[VNum (Finite 0); VNum (Finite 0)];
               [VNum (Finite 100); VNum (Finite 100)]]
          ∧ subset_coords self ≠ [[VNone; VNone]; [VNone; VNone]].
Proof.
  eexists. split; [reflexivity|]. intros w.
  eexists. split.
  - unfold select_then_reset.
    unfold bind at 1.
    rewrite build_plot_wires
      by first [reflexivity | eapply (bool_decide_unpack _); vm_compute; exact I].
    unfold bind at 1. rewrite fire_selection_runs_callback by reflexivity.
    unfold bind at 1.
    erewrite python_callback_writes_geometry by reflexivity.
    unfold ret at 1. cbv beta iota.
    rewrite fire_reset_changes_nothing by reflexivity. reflexivity.
  - split; [reflexivity|discriminate].
Qed.

(** * Further properties of the code *)

(** X1: when the file can be opened for writing, the download leaves in
    it exactly the bytes of the response, in order, whatever the file held
    before; no other path of the disk changes and nothing is read from the
    console. *)
Theorem download_stores_the_body :
  ∀ (filename : string) (request : response) (total_length : Z) (w : world),
    open_for_writing (fs w) filename = Ok tt →
    content_length request = Ok total_length →
    total_length ≠ 0 ∨ concat (iter_content request) = [] →
    fst (download filename request w) = Ok tt
    ∧ fs (snd (download filename request w)) !! filename
      = Some (RegularFile (concat (iter_content request)))
    ∧ (∀ other, other ≠ filename →
         fs (snd (download filename request w)) !! other = fs w !! other)
    ∧ stdin (snd (download filename request w)) = stdin w.
Proof.
  intros filename request total_length w Hopen Hlen Hbody.
  destruct (download_writes_body filename request total_length w Hopen Hlen Hbody)
    as [progress ->].
  simpl. repeat split.
  - by rewrite lookup_insert_eq.
  - intros other Hne. by rewrite lookup_insert_ne.
Qed.

Lemma download_stores_the_body_witness :
  fst (download granule_zip (granule_response "3") (granule_world "3" stale_disk))
  = Ok tt
  ∧ fs (snd (download granule_zip (granule_response "3")
               (granule_world "3" stale_disk))) !! granule_zip
    = Some (RegularFile (concat (iter_content (granule_response "3"))))
  ∧ (∀ other, other ≠ granule_zip →
       fs (snd (download granule_zip (granule_response "3")
                  (granule_world "3" stale_disk))) !! other
       = fs (granule_world "3" stale_disk) !! other)
  ∧ stdin (snd (download granule_zip (granule_response "3")
                  (granule_world "3" stale_disk)))
    = stdin (granule_world "3" stale_disk).
Proof.
  apply (download_stores_the_body granule_zip (granule_response "3") 3).
  - reflexivity.
  - reflexivity.
  - left. lia.
Defined.

(** X2: the file is opened for writing before the content-length is read:
    when the file can be opened and the header is missing or is not an
    integer, [download] raises (TypeError, ValueError) and what the file
    held is already gone.  When the file cannot be opened, nothing has
    happened by the time the error of [open] leaves the function. *)
Theorem download_truncates_before_reading_length :
  ∀ (filename : string) (request : response) (w : world) (e : exn),
    content_length request = Raise e →
    (open_for_writing (fs w) filename = Ok tt →
     download filename request w
     = (Raise e, with_fs w (<[filename := RegularFile []]> (fs w))))
    ∧ (∀ e', open_for_writing (fs w) filename = Raise e' →
         download filename request w = (Raise e', w))
    ∧ (headers request !! "content-length" = None → e = TypeError)
    ∧ (is_Some (headers request !! "content-length") → e = ValueError).
Proof.
  intros filename request w e Hlen. split; [|split; [|split]].
  - intros Hopen. unfold download, bind, lift, open_wb. by rewrite Hopen, Hlen.
  - intros e' Hopen. unfold download, bind, open_wb. by rewrite Hopen.
  - intros Hnone. unfold content_length in Hlen. rewrite Hnone in Hlen. congruence.
  - intros [h Hh]. unfold content_length in Hlen. rewrite Hh in Hlen.
    unfold py_int in Hlen. destruct (int_digits _ _ _); congruence.
Qed.

Lemma download_truncates_witness :
  download granule_zip headless_response (granule_world "3" stale_disk)
  = (Raise TypeError,
     with_fs (granule_world "3" stale_disk)
       (<[granule_zip := RegularFile []]> (fs (granule_world "3" stale_disk))))
  ∧ download "missing/archive.zip" headless_response
      (granule_world "3" stale_disk)
    = (Raise FileNotFoundError, granule_world "3" stale_disk).
Proof.
  split.
  - apply (proj1 (download_truncates_before_reading_length
                    granule_zip headless_response
                    (granule_world "3" stale_disk) TypeError eq_refl)).
    reflexivity.
  - apply (proj1 (proj2 (download_truncates_before_reading_length
                           "missing/archive.zip" headless_response
                           (granule_world "3" stale_disk) TypeError eq_refl))).
    reflexivity.
Defined.

Section FilterChain.

Lemma filter_date_range_loop_raises before product after s e err acc :
  (∀ q, q ∈ before → ∃ d, get_aquisition_date_from_product_name q = Ok d) →
  get_aquisition_date_from_product_name product = Raise err →
  filter_date_range_loop (before ++ product :: after) s e acc = Raise err.
Proof.
  revert acc. induction before as [|q before IH]; intros acc Hparse Hbad.
  - simpl. by rewrite Hbad.
  - destruct (Hparse q) as [d Hd]; [by left|].
    simpl. rewrite Hd. simpl.
    destruct (date_ge d s && date_lt d e);
      apply IH; try done; intros; apply Hparse; by right.
Qed.

Lemma filter_twice {A : Type} (f g : A → bool) (l : list A) :
  List.filter g (List.filter f l) = List.filter (λ x, f x && g x) l.
Proof.
  induction l as [|x l IH]; [done|]. simpl.
  destruct (f x); simpl; [|done]. destruct (g x); by rewrite IH.
Qed.

Lemma nonempty_length {A : Type} (l : list A) :
  l ≠ [] → (0 <? length l)%nat = true.
Proof. by destruct l. Qed.

End FilterChain.

(** X3: one product whose name does not parse makes [filter_date_range]
    raise that product's error; the products kept so far are not returned. *)
Theorem filter_date_range_raises_on_unparsable_name :
  ∀ (before after : list record) (product : record) (s e : date) (err : exn),
    (∀ q, q ∈ before → ∃ d, get_aquisition_date_from_product_name q = Ok d) →
    get_aquisition_date_from_product_name product = Raise err →
    filter_date_range (before ++ product :: after) s e = Raise err.
Proof.
  intros before after product s e err Hparse Hbad. unfold filter_date_range.
  rewrite nonempty_length by (by destruct before).
  by apply filter_date_range_loop_raises.
Qed.

Lemma filter_date_range_raises_witness :
  filter_date_range ([jan01; jun15] ++ feb30 :: [dec31])
    (mkdate 2020 1 1) (mkdate 2020 12 31)
  = Raise ValueError.
Proof.
  apply filter_date_range_raises_on_unparsable_name.
  - intros q Hq.
    apply elem_of_cons in Hq as [-> | Hq]; [by eexists; vm_compute|].
    apply elem_of_cons in Hq as [-> | Hq]; [by eexists; vm_compute|].
    by apply elem_of_nil in Hq.
  - vm_compute. reflexivity.
Defined.

(** X4: filtering the result of one date filter by a second range keeps
    the products that lie in both ranges, provided the first filter kept
    something; when it kept nothing the second call raises an assertion
    error instead of returning the empty list. *)
Theorem filter_date_range_twice :
  ∀ (product_list kept : list record) (s1 e1 s2 e2 : date),
    (∀ q, q ∈ product_list →
       ∃ d, get_aquisition_date_from_product_name q = Ok d) →
    filter_date_range product_list s1 e1 = Ok kept →
    (kept ≠ [] →
     filter_date_range kept s2 e2
     = Ok (List.filter (λ q, in_date_range s1 e1 q && in_date_range s2 e2 q)
             product_list))
    ∧ (kept = [] →
       ∃ msg, filter_date_range kept s2 e2 = Raise (AssertionError msg)).
Proof.
  intros product_list kept s1 e1 s2 e2 Hparse Hfirst.
  unfold filter_date_range in Hfirst.
  destruct (0 <? length product_list)%nat; [|done].
  rewrite filter_date_range_loop_filter in Hfirst by done.
  injection Hfirst as <-. simpl. split.
  - intros Hne. unfold filter_date_range. rewrite nonempty_length by done.
    rewrite filter_date_range_loop_filter.
    + simpl. by rewrite filter_twice.
    + intros q Hq. apply Hparse.
      apply list_elem_of_In, filter_In in Hq as [Hq _]. by apply list_elem_of_In.
  - intros ->. by eexists.
Qed.

Lemma filter_date_range_twice_witness :
  (List.filter (in_date_range (mkdate 2020 1 1) (mkdate 2020 12 31))
     [jan01; jun15; dec31] ≠ [] →
   filter_date_range
     (List.filter (in_date_range (mkdate 2020 1 1) (mkdate 2020 12 31))
        [jan01; jun15; dec31])
     (mkdate 2020 6 1) (mkdate 2021 1 1)
   = Ok (List.filter
           (λ q, in_date_range (mkdate 2020 1 1) (mkdate 2020 12 31) q
                 && in_date_range (mkdate 2020 6 1) (mkdate 2021 1 1) q)
           [jan01; jun15; dec31]))
  ∧ (List.filter (in_date_range (mkdate 2020 1 1) (mkdate 2020 12 31))
       [jan01; jun15; dec31] = [] →
     ∃ msg,
       filter_date_range
         (List.filter (in_date_range (mkdate 2020 1 1) (mkdate 2020 12 31))
            [jan01; jun15; dec31])
         (mkdate 2020 6 1) (mkdate 2021 1 1)
       = Raise (AssertionError msg)).
Proof.
  apply filter_date_range_twice.
  - intros q Hq.
    apply elem_of_cons in Hq as [-> | Hq]; [by eexists; vm_compute|].
    apply elem_of_cons in Hq as [-> | Hq]; [by eexists; vm_compute|].
    apply elem_of_cons in Hq as [-> | Hq]; [by eexists; vm_compute|].
    by apply elem_of_nil in Hq.
  - vm_compute. reflexivity.
Defined.

(** X5: a date that [get_aquisition_date_from_product_name] returns is a
    date of the calendar: year 1 to 9999, month 1 to 12, and a day that
    exists in that month of that year. *)
Theorem acquisition_date_is_a_calendar_date :
  ∀ (product : record) (d : date),
    get_aquisition_date_from_product_name product = Ok d →
    1 ≤ year d ≤ 9999 ∧ 1 ≤ month d ≤ 12
    ∧ 1 ≤ day d ≤ days_in_month (year d) (month d)
    ∧ days_in_month (year d) (month d) ≤ 31.
Proof.
  intros product d Hd.
  assert (∀ tok, date_of_token tok = Ok d →
            1 ≤ year d ≤ 9999 ∧ 1 ≤ month d ≤ 12
            ∧ 1 ≤ day d ≤ days_in_month (year d) (month d)) as Htok.
  { intros tok. unfold date_of_token, rbind.
    destruct (py_int _) as [y|]; [|done]. destruct (py_int _) as [m|]; [|done].
    destruct (py_int _) as [dd|]; [|done]. unfold datetime_date.
    destruct (_ && _) eqn:E; [|done]. intros [= <-]. simpl.
    rewrite !andb_true_iff, !Z.leb_le in E. lia. }
  assert (1 ≤ year d ≤ 9999 ∧ 1 ≤ month d ≤ 12
          ∧ 1 ≤ day d ≤ days_in_month (year d) (month d)) as (? & ? & ?).
  { unfold get_aquisition_date_from_product_name in Hd.
    destruct (product !! "name") as [[| |name]|]; try done.
    destruct (length (str_split "_" name) =? 1)%nat;
      destruct (_ !! _) as [tok|]; try done; by apply (Htok tok). }
  repeat split; try lia.
  unfold days_in_month. repeat destruct (_ =? _); simpl; try lia;
    destruct (is_leap _); lia.
Qed.

Lemma acquisition_date_is_a_calendar_date_witness :
  1 ≤ year (mkdate 2020 6 15) ≤ 9999 ∧ 1 ≤ month (mkdate 2020 6 15) ≤ 12
  ∧ 1 ≤ day (mkdate 2020 6 15)
    ≤ days_in_month (year (mkdate 2020 6 15)) (month (mkdate 2020 6 15))
  ∧ days_in_month (year (mkdate 2020 6 15)) (month (mkdate 2020 6 15)) ≤ 31.
Proof.
  apply (acquisition_date_is_a_calendar_date jun15). vm_compute. reflexivity.
Defined.

(** X6: a name of two to four underscore-delimited tokens has no fifth
    token, and a name without '_' and without '-' has no second token:
    both raise IndexError. *)
Theorem acquisition_date_of_short_name_raises :
  (∀ toks : list string,
     Forall (λ tok, free_of "_" tok = true) toks →
     (2 ≤ length toks ≤ 4)%nat →
     get_aquisition_date_from_product_name (named (join "_" toks))
     = Raise IndexError)
  ∧ (∀ name : string,
       free_of "_" name = true → free_of "-" name = true →
       get_aquisition_date_from_product_name (named name) = Raise IndexError).
Proof.
  split.
  - intros toks Hfree Hlen.
    unfold get_aquisition_date_from_product_name, named.
    rewrite lookup_singleton_eq.
    rewrite str_split_join; [|intros ->; simpl in Hlen; lia|done].
    destruct toks as [|t1 [|t2 [|t3 [|t4 [|t5 toks]]]]]; simpl in *;
      try lia; reflexivity.
  - intros name Hu Hh. unfold get_aquisition_date_from_product_name, named.
    rewrite lookup_singleton_eq. rewrite !str_split_free by done. reflexivity.
Qed.

Lemma acquisition_date_of_short_name_witness :
  get_aquisition_date_from_product_name (named (join "_" ["S1A"; "IW"; "GRDH"]))
  = Raise IndexError
  ∧ get_aquisition_date_from_product_name (named "granule") = Raise IndexError.
Proof.
  destruct acquisition_date_of_short_name_raises as [Hunder Hplain]. split.
  - apply Hunder; [repeat constructor|simpl; lia].
  - apply Hplain; reflexivity.
Defined.

Section Granules.

Lemma product_filter_loop_filter product_list fd path acc w :
  (∀ q, q ∈ product_list → is_Some (search_answer w fd path q)) →
  product_filter_loop product_list fd path acc w
  = (Ok (acc ++ List.filter (confirmed w fd path) product_list), w).
Proof.
  revert acc. induction product_list as [|q rest IH]; intros acc Hans.
  - simpl. by rewrite app_nil_r.
  - destruct (Hans q) as [first Hq]; [by left|].
    simpl. unfold confirmed at 1. rewrite Hq.
    unfold search_answer in Hq.
    unfold bind at 1, lift at 1.
    destruct (granule_of_product q) as [g|]; [|done].
    unfold bind at 1, post_or_exit at 1.
    destruct (requests_post w _ _) as [|r]; [done|].
    unfold bind at 1, lift at 1, response_json.
    destruct (json r) as [[|first' groups]|]; try done.
    injection Hq as ->.
    rewrite IH by (intros; apply Hans; by right).
    destruct first as [|j first]; simpl; [done|].
    destruct (size j =? 0)%nat; simpl; [done|]. by rewrite <- app_assoc.
Qed.

Lemma product_filter_loop_exits before product after fd path acc w g msg :
  (∀ q, q ∈ before → is_Some (search_answer w fd path q)) →
  granule_of_product product = Ok g →
  requests_post w (VStr vertex_API_URL) (search_parameters g fd path) = inl msg →
  product_filter_loop (before ++ product :: after) fd path acc w
  = (Raise (SystemExit 1), with_stdout w (stdout w ++ [Line msg])).
Proof.
  revert acc. induction before as [|q before IH]; intros acc Hans Hg Hdown.
  - simpl. unfold bind at 1, lift at 1. rewrite Hg.
    unfold bind at 1, post_or_exit at 1. rewrite Hdown. reflexivity.
  - assert (product_filter_loop [q] fd path acc w
            = (Ok (acc ++ List.filter (confirmed w fd path) [q]), w)) as Hq.
    { apply product_filter_loop_filter. intros q' Hq'.
      apply elem_of_cons in Hq' as [-> | Hq']; [apply Hans; by left|].
      by apply elem_of_nil in Hq'. }
    simpl in Hq |- *.
    unfold bind at 1 in Hq. unfold bind at 1.
    destruct (lift (granule_of_product q) w) as [[g'|] w1]; [|done].
    unfold bind at 1 in Hq. unfold bind at 1.
    destruct (post_or_exit _ _ w1) as [[r|] w2]; [|done].
    unfold bind at 1 in Hq. unfold bind at 1.
    destruct (lift (response_json r) w2) as [[[|first groups]|] w3]; try done.
    injection Hq as _ ->. apply IH; try done. intros; apply Hans; by right.
Qed.

End Granules.

(** X7: when the search API knows no such granule, the lookup prints the
    mismatch message and returns [None], and [download_ASF_granule], which
    subscripts that result unchecked, raises TypeError; the disk is left
    as it was. *)
Theorem download_ASF_granule_of_unknown_granule_raises :
  ∀ (w : world) (granule_name processing_level : string) (r : response),
    requests_post w (VStr vertex_API_URL)
      [("granule_list", VStr granule_name); ("output", VStr "json");
       ("processingLevel", VStr processing_level)] = inr r →
    json r = Some [] →
    get_vertex_granule_info granule_name processing_level w
    = (Ok None, with_stdout w (stdout w ++ [mismatch_line]))
    ∧ download_ASF_granule granule_name processing_level w
      = (Raise TypeError, with_stdout w (stdout w ++ [mismatch_line])).
Proof.
  intros w granule_name processing_level r Hpost Hjson.
  assert (get_vertex_granule_info granule_name processing_level w
          = (Ok None, with_stdout w (stdout w ++ [mismatch_line]))) as Hinfo.
  { unfold get_vertex_granule_info.
    unfold bind at 1, post_or_exit at 1. rewrite Hpost.
    unfold bind at 1, lift at 1, response_json. rewrite Hjson. reflexivity. }
  split; [done|].
  unfold download_ASF_granule. unfold bind at 1. by rewrite Hinfo.
Qed.

Lemma download_ASF_granule_of_unknown_granule_witness :
  get_vertex_granule_info "S1A_IW_GRDH_1SDV_20200615T153045" "GRD_HD" unknown_world
  = (Ok None, with_stdout unknown_world (stdout unknown_world ++ [mismatch_line]))
  ∧ download_ASF_granule "S1A_IW_GRDH_1SDV_20200615T153045" "GRD_HD" unknown_world
    = (Raise TypeError,
       with_stdout unknown_world (stdout unknown_world ++ [mismatch_line])).
Proof.
  apply (download_ASF_granule_of_unknown_granule_raises unknown_world _ _
           (mkresponse ∅ (Some []) [])); reflexivity.
Defined.

(** X8: a request that fails, the search or the download of the granule
    it found, ends [download_ASF_granule] with exit status 1 after printing
    the exception; no file is created or changed. *)
Theorem download_ASF_granule_exits_on_request_failure :
  ∀ (w : world) (granule_name processing_level msg : string),
    (requests_post w (VStr vertex_API_URL)
       [("granule_list", VStr granule_name); ("output", VStr "json");
        ("processingLevel", VStr processing_level)] = inl msg →
     download_ASF_granule granule_name processing_level w
     = (Raise (SystemExit 1), with_stdout w (stdout w ++ [Line msg])))
    ∧ (∀ (vertex_info : record) (url file_name : value),
         get_vertex_granule_info granule_name processing_level w
         = (Ok (Some vertex_info), w) →
         vertex_info !! "downloadUrl" = Some url →
         vertex_info !! "fileName" = Some file_name →
         requests_post w url [] = inl msg →
         download_ASF_granule granule_name processing_level w
         = (Raise (SystemExit 1), with_stdout w (stdout w ++ [Line msg]))).
Proof.
  intros w granule_name processing_level msg. split.
  - intros Hdown. unfold download_ASF_granule, get_vertex_granule_info.
    unfold bind at 1, bind at 1, post_or_exit at 1. rewrite Hdown. reflexivity.
  - intros vertex_info url file_name Hinfo Hurl Hfile Hdown.
    unfold download_ASF_granule. unfold bind at 1. rewrite Hinfo.
    unfold bind at 1, lift at 1, getitem at 1. rewrite Hurl.
    unfold bind at 1, lift at 1, getitem at 1. rewrite Hfile.
    unfold bind at 1, post_or_exit at 1. rewrite Hdown. reflexivity.
Qed.

Lemma download_ASF_granule_exits_witness :
  download_ASF_granule "S1A_IW_GRDH_1SDV_20200615T153045" "GRD_HD" offline_world
  = (Raise (SystemExit 1),
     with_stdout offline_world
       (stdout offline_world ++ [Line "Connection refused"])).
Proof.
  apply (proj1 (download_ASF_granule_exits_on_request_failure offline_world
                  "S1A_IW_GRDH_1SDV_20200615T153045" "GRD_HD"
                  "Connection refused")).
  reflexivity.
Defined.

(** X9: given a flight direction or a path, and a search API that answers
    every product of a non-empty list, [product_filter] returns, in their
    order, exactly the products for which the search echoed a non-empty
    record; it prints nothing. *)
Theorem product_filter_keeps_the_confirmed_products :
  ∀ (product_list : list record) (flight_direction : option string)
    (path : option Z) (w : world),
    product_list ≠ [] →
    truthy_str flight_direction || truthy_int path = true →
    (∀ q, q ∈ product_list → is_Some (search_answer w flight_direction path q)) →
    product_filter product_list flight_direction path w
    = (Ok (Some (List.filter (confirmed w flight_direction path) product_list)), w).
Proof.
  intros product_list fd path w Hne Htruthy Hans. unfold product_filter.
  rewrite nonempty_length by done. rewrite Htruthy. simpl.
  unfold bind. by rewrite product_filter_loop_filter.
Qed.

Lemma product_filter_keeps_witness :
  product_filter [jan01; jun15; dec31] (Some "ASCENDING") None radarsat_world
  = (Ok (Some (List.filter (confirmed radarsat_world (Some "ASCENDING") None)
                 [jan01; jun15; dec31])), radarsat_world)
  ∧ map (confirmed radarsat_world (Some "ASCENDING") None) [jan01; jun15; dec31]
    = [true; false; true].
Proof.
  split; [|vm_compute; reflexivity].
  apply product_filter_keeps_the_confirmed_products.
  - discriminate.
  - reflexivity.
  - intros q Hq.
    apply elem_of_cons in Hq as [-> | Hq]; [eexists; vm_compute; reflexivity|].
    apply elem_of_cons in Hq as [-> | Hq]; [eexists; vm_compute; reflexivity|].
    apply elem_of_cons in Hq as [-> | Hq]; [eexists; vm_compute; reflexivity|].
    by apply elem_of_nil in Hq.
Defined.

(** X10: when the search request for one product fails, [product_filter]
    prints the exception and exits with status 1; the products confirmed
    before it are not returned. *)
Theorem product_filter_exits_on_request_failure :
  ∀ (before after : list record) (product : record)
    (flight_direction : option string) (path : option Z) (w : world)
    (granule_name msg : string),
    truthy_str flight_direction || truthy_int path = true →
    (∀ q, q ∈ before → is_Some (search_answer w flight_direction path q)) →
    granule_of_product product = Ok granule_name →
    requests_post w (VStr vertex_API_URL)
      (search_parameters granule_name flight_direction path) = inl msg →
    product_filter (before ++ product :: after) flight_direction path w
    = (Raise (SystemExit 1), with_stdout w (stdout w ++ [Line msg])).
Proof.
  intros before after product fd path w g msg Htruthy Hans Hg Hdown.
  unfold product_filter.
  rewrite nonempty_length by (by destruct before). rewrite Htruthy. simpl.
  unfold bind. by rewrite (product_filter_loop_exits _ _ _ _ _ _ _ g msg).
Qed.

Lemma product_filter_exits_witness :
  product_filter ([] ++ jan01 :: [jun15]) None (Some 42) offline_world
  = (Raise (SystemExit 1),
     with_stdout offline_world
       (stdout offline_world ++ [Line "Connection refused"])).
Proof.
  apply (product_filter_exits_on_request_failure [] [jun15] jan01 None (Some 42)
           offline_world "RS2" "Connection refused").
  - reflexivity.
  - intros q Hq. by apply elem_of_nil in Hq.
  - vm_compute. reflexivity.
  - reflexivity.
Defined.

Section Prompt.

Lemma print_choices_menu polarizations i w :
  print_choices polarizations i w
  = (Ok tt, with_stdout w (stdout w ++ menu_lines polarizations i)).
Proof.
  revert i w. induction polarizations as [|pol rest IH]; intros i w.
  - simpl. unfold ret, with_stdout. by rewrite app_nil_r, world_eta.
  - simpl. unfold bind at 1, print at 1. rewrite IH.
    unfold with_stdout. simpl. by rewrite <- app_assoc.
Qed.

(** Refused entries are consumed one by one, each answered by the same
    line, and the prompt goes on with what is left of the console. *)
Lemma choose_polarization_skips_refused base_path polarizations bad tail w :
  stdin w = bad ++ tail →
  Forall (λ line, refused (length polarizations) line = true) bad →
  choose_polarization base_path polarizations (bad ++ tail) w
  = choose_polarization base_path polarizations tail
      (mkworld (stdout w ++ repeat retry_line (length bad)) tail (fs w)
         (glob_glob w) (requests_post w)).
Proof.
  revert w. induction bad as [|line bad IH]; intros w Hin Hbad.
  - simpl in *. by rewrite app_nil_r, <- Hin, world_eta.
  - inversion Hbad as [|? ? Hline Hrest]; subst.
    change ((line :: bad) ++ tail) with (line :: (bad ++ tail)).
    cbn [choose_polarization]. unfold bind at 1. cbv beta iota.
    unfold refused in Hline.
    set (w1 := with_stdin w (bad ++ tail)).
    assert (∀ k : M world (option string),
              (print retry_line ;; k) w1
              = k (with_stdout w1 (stdout w1 ++ [retry_line]))) as Hprint.
    { reflexivity. }
    assert (choose_polarization base_path polarizations (bad ++ tail)
              (with_stdout w1 (stdout w1 ++ [retry_line]))
            = choose_polarization base_path polarizations tail
                (mkworld (stdout w ++ repeat retry_line (length (line :: bad)))
                   tail (fs w) (glob_glob w) (requests_post w))) as Hnext.
    { rewrite IH by done. subst w1. simpl.
      by rewrite <- app_assoc. }
    destruct (py_int line) as [choice|err].
    + rewrite Hline. fold retry_line. by rewrite Hprint.
    + fold retry_line. by rewrite Hprint.
Qed.

Lemma select_RTC_polarization_menu w process_type base_path separator :
  (process_type = 2 ∧ separator = "_") ∨ (process_type = 18 ∧ separator = "-") →
  is_Some (fs w !! base_path) →
  (2 ≤ length (available w base_path separator))%nat →
  select_RTC_polarization process_type base_path w
  = choose_polarization base_path (available w base_path separator) (stdin w)
      (with_stdout w
         (stdout w ++ [Line "Select a polarization:"]
          ++ menu_lines (available w base_path separator) 0)).
Proof.
  intros Hprocess Hbase Hlen.
  rewrite (select_RTC_polarization_probes w base_path separator process_type
             Hprocess Hbase).
  cbv beta zeta. unfold available in *. cbv beta zeta in Hlen.
  set (pols := _ ++ _ ++ _ ++ _) in *.
  destruct pols as [|a [|b pols]]; simpl in Hlen; try lia.
  unfold bind at 1, print at 1. unfold bind at 1. rewrite print_choices_menu.
  unfold with_stdout. simpl. by rewrite <- app_assoc.
Qed.

End Prompt.

(** X11: with two or more polarizations on disk, the prompt consumes the
    refused entries (not an integer, negative, or above the number of
    choices), answers each with the same line, and returns the wildcard
    path of the polarization whose number is the first accepted entry; the
    rest of the console is left unread. *)
Theorem select_RTC_polarization_asks_until_valid :
  ∀ (w : world) (process_type : Z) (base_path separator : string)
    (bad rest : list string) (line pol : string) (choice : Z),
    (process_type = 2 ∧ separator = "_") ∨ (process_type = 18 ∧ separator = "-") →
    is_Some (fs w !! base_path) →
    (2 ≤ length (available w base_path separator))%nat →
    stdin w = bad ++ line :: rest →
    Forall (λ l, refused (length (available w base_path separator)) l = true) bad →
    py_int line = Ok choice →
    0 ≤ choice →
    available w base_path separator !! Z.to_nat choice = Some pol →
    select_RTC_polarization process_type base_path w
    = (Ok (Some (base_path +:+ "/*/*" +:+ pol +:+ ".tif")),
       mkworld
         (stdout w ++ [Line "Select a polarization:"]
          ++ menu_lines (available w base_path separator) 0
          ++ repeat retry_line (length bad))
         rest (fs w) (glob_glob w) (requests_post w)).
Proof.
  intros w process_type base_path separator bad rest line pol choice
    Hprocess Hbase Hlen Hin Hbad Hline Hpos Hpol.
  rewrite (select_RTC_polarization_menu w process_type base_path separator)
    by done.
  rewrite Hin, choose_polarization_skips_refused by done.
  cbn [choose_polarization]. unfold bind at 1. cbv beta iota. rewrite Hline.
  apply lookup_lt_Some in Hpol as Hlt.
  assert ((choice >? Z.of_nat (length (available w base_path separator)))
          || (choice <? 0) = false) as ->.
  { apply orb_false_iff. split; [|by apply Z.ltb_ge]. rewrite Z.gtb_ltb.
    apply Z.ltb_ge. lia. }
  rewrite Hpol. unfold ret, with_stdin, with_stdout. simpl.
  by rewrite <- !app_assoc.
Qed.

Lemma select_RTC_polarization_asks_witness :
  select_RTC_polarization 2 "rtc_products" (dual_world ["x"; "-1"; "1"; "0"])
  = (Ok (Some ("rtc_products" +:+ "/*/*" +:+ "_VH" +:+ ".tif")),
     mkworld
       (stdout (dual_world ["x"; "-1"; "1"; "0"]) ++ [Line "Select a polarization:"]
        ++ menu_lines
             (available (dual_world ["x"; "-1"; "1"; "0"]) "rtc_products" "_") 0
        ++ repeat retry_line (length ["x"; "-1"]))
       ["0"] (fs (dual_world ["x"; "-1"; "1"; "0"]))
       (glob_glob (dual_world ["x"; "-1"; "1"; "0"]))
       (requests_post (dual_world ["x"; "-1"; "1"; "0"]))).
Proof.
  apply (select_RTC_polarization_asks_until_valid
           (dual_world ["x"; "-1"; "1"; "0"]) 2 "rtc_products" "_"
           ["x"; "-1"] ["0"] "1" "_VH" 1).
  - left. split; reflexivity.
  - eexists. reflexivity.
  - vm_compute. lia.
  - reflexivity.
  - repeat constructor.
  - reflexivity.
  - lia.
  - reflexivity.
Defined.

(** X12: the range test of the prompt lets through the entry equal to the
    number of choices, which is one past the last of them: that entry
    makes [select_RTC_polarization] raise IndexError. *)
Theorem select_RTC_polarization_off_by_one :
  ∀ (w : world) (process_type : Z) (base_path separator : string)
    (bad rest : list string) (line : string),
    (process_type = 2 ∧ separator = "_") ∨ (process_type = 18 ∧ separator = "-") →
    is_Some (fs w !! base_path) →
    (2 ≤ length (available w base_path separator))%nat →
    stdin w = bad ++ line :: rest →
    Forall (λ l, refused (length (available w base_path separator)) l = true) bad →
    py_int line = Ok (Z.of_nat (length (available w base_path separator))) →
    fst (select_RTC_polarization process_type base_path w) = Raise IndexError
    ∧ stdin (snd (select_RTC_polarization process_type base_path w)) = rest.
Proof.
  intros w process_type base_path separator bad rest line
    Hprocess Hbase Hlen Hin Hbad Hline.
  rewrite (select_RTC_polarization_menu w process_type base_path separator)
    by done.
  rewrite Hin, choose_polarization_skips_refused by done.
  cbn [choose_polarization]. unfold bind at 1. cbv beta iota. rewrite Hline.
  assert ((Z.of_nat (length (available w base_path separator))
           >? Z.of_nat (length (available w base_path separator)))
          || (Z.of_nat (length (available w base_path separator)) <? 0)
          = false) as ->.
  { apply orb_false_iff. split; [rewrite Z.gtb_ltb|]; apply Z.ltb_ge; lia. }
  rewrite Nat2Z.id, lookup_ge_None_2 by lia. done.
Qed.

Lemma select_RTC_polarization_off_by_one_witness :
  fst (select_RTC_polarization 2 "rtc_products" (dual_world ["9"; "2"; "0"]))
  = Raise IndexError
  ∧ stdin (snd (select_RTC_polarization 2 "rtc_products"
                  (dual_world ["9"; "2"; "0"]))) = ["0"].
Proof.
  apply (select_RTC_polarization_off_by_one
           (dual_world ["9"; "2"; "0"]) 2 "rtc_products" "_" ["9"] ["0"] "2").
  - left. split; reflexivity.
  - eexists. reflexivity.
  - vm_compute. lia.
  - reflexivity.
  - repeat constructor.
  - reflexivity.
Defined.

(** X13: when every entry left on the console is refused, the prompt reads
    them all and ends with EOFError; it never returns [None] from there. *)
Theorem select_RTC_polarization_exhausts_console :
  ∀ (w : world) (process_type : Z) (base_path separator : string),
    (process_type = 2 ∧ separator = "_") ∨ (process_type = 18 ∧ separator = "-") →
    is_Some (fs w !! base_path) →
    (2 ≤ length (available w base_path separator))%nat →
    Forall (λ l, refused (length (available w base_path separator)) l = true)
      (stdin w) →
    select_RTC_polarization process_type base_path w
    = (Raise EOFError,
       mkworld
         (stdout w ++ [Line "Select a polarization:"]
          ++ menu_lines (available w base_path separator) 0
          ++ repeat retry_line (length (stdin w)))
         [] (fs w) (glob_glob w) (requests_post w)).
Proof.
  intros w process_type base_path separator Hprocess Hbase Hlen Hbad.
  rewrite (select_RTC_polarization_menu w process_type base_path separator)
    by done.
  rewrite <- (app_nil_r (stdin w)) at 1.
  rewrite choose_polarization_skips_refused by (by rewrite ?app_nil_r).
  simpl. unfold raise. by rewrite <- !app_assoc.
Qed.

Lemma select_RTC_polarization_exhausts_witness :
  select_RTC_polarization 2 "rtc_products" (dual_world ["VH"; "3"])
  = (Raise EOFError,
     mkworld
       (stdout (dual_world ["VH"; "3"]) ++ [Line "Select a polarization:"]
        ++ menu_lines (available (dual_world ["VH"; "3"]) "rtc_products" "_") 0
        ++ repeat retry_line (length (stdin (dual_world ["VH"; "3"]))))
       [] (fs (dual_world ["VH"; "3"])) (glob_glob (dual_world ["VH"; "3"]))
       (requests_post (dual_world ["VH"; "3"]))).
Proof.
  apply (select_RTC_polarization_exhausts_console
           (dual_world ["VH"; "3"]) 2 "rtc_products" "_").
  - left. split; reflexivity.
  - eexists. reflexivity.
  - vm_compute. lia.
  - repeat constructor.
Defined.

(** X14: on a displayed widget whose subset_coords is a pair of corners,
    any sequence of reset events and of selection events that carry
    x0, y0, x1, y1 is handled without an exception, and afterwards
    subset_coords holds the corners of the last selection (its former value
    when there was none): reset events change nothing.  The stack corners,
    the figure, the disk and the console input are untouched. *)
Theorem widget_holds_the_last_selection :
  ∀ (evs : list event) (self : AOI) (w : world) (a b c d : value),
    p self = Some wired_figure →
    subset_coords self = [[a; b]; [c; d]] →
    Forall complete evs →
    ∃ self' w',
      fire_all evs (self, w) = (Ok tt, (self', w'))
      ∧ subset_coords self' = last_selection evs (subset_coords self)
      ∧ tiff_stack_coords self' = tiff_stack_coords self
      ∧ p self' = p self
      ∧ stdin w' = stdin w ∧ fs w' = fs w.
Proof.
  induction evs as [|ev evs IH]; intros self w a b c d Hp Hshape Hevs.
  - exists self, w. by repeat split.
  - inversion Hevs as [|? ? Hev Hrest]; subst. simpl fire_all.
    destruct ev as [geometry|].
    + destruct Hev as [corners Hcorners]. unfold corners_of in Hcorners.
      destruct (geometry !! "x0") as [x0|] eqn:Hx0; [|done].
      destruct (geometry !! "y0") as [y0|] eqn:Hy0; [|done].
      destruct (geometry !! "x1") as [x1|] eqn:Hx1; [|done].
      destruct (geometry !! "y1") as [y1|] eqn:Hy1; [|done].
      unfold bind at 1. rewrite fire_selection_runs_callback by done.
      unfold bind at 1.
      rewrite (python_callback_writes_geometry self w geometry x0 y0 x1 y1 a b c d)
        by done.
      unfold ret at 1. cbv beta iota.
      edestruct (IH (with_subset_coords (with_geom self (geometry ∪ geom self))
                       [[x0; y0]; [x1; y1]])
                    (with_stdout w (stdout w ++ [SubsetCoordsEcho x0 y0 x1 y1]))
                    x0 y0 x1 y1) as (self' & w' & Hrun & Hc & Ht & Hp' & Hi & Hf);
        [done..|].
      exists self', w'. rewrite Hrun. repeat split; try done.
      rewrite Hc. simpl. unfold corners_of. by rewrite Hx0, Hy0, Hx1, Hy1.
    + unfold bind at 1. rewrite fire_reset_changes_nothing by done.
      destruct (IH self w a b c d) as (self' & w' & Hrun & Hc & Ht & Hp' & Hi & Hf);
        [done..|].
      exists self', w'. by rewrite Hrun.
Qed.

Lemma widget_holds_the_last_selection_witness :
  ∃ self' w',
    fire_all [SelectionGeometry selection_0_100; Reset;
              SelectionGeometry selection_5_9; Reset]
      (displayed_widget, world0) = (Ok tt, (self', w'))
    ∧ subset_coords self'
      = last_selection [SelectionGeometry selection_0_100; Reset;
                        SelectionGeometry selection_5_9; Reset]
          (subset_coords displayed_widget)
    ∧ tiff_stack_coords self' = tiff_stack_coords displayed_widget
    ∧ p self' = p displayed_widget
    ∧ stdin w' = stdin world0 ∧ fs w' = fs world0.
Proof.
  apply (widget_holds_the_last_selection _ displayed_widget world0
           VNone VNone VNone VNone).
  - reflexivity.
  - reflexivity.
  - repeat constructor; eexists; vm_compute; reflexivity.
Defined.

(** X15: a selection event whose geometry has x0 and y0 but no x1 raises
    KeyError after the first corner has been written: subset_coords is left
    with the new lower-left corner and the old upper-right one, and the
    geometry is already merged into geom. *)
Theorem python_callback_half_written_on_missing_key :
  ∀ (self : AOI) (w : world) (geometry : record) (x0 y0 a b c d : value),
    subset_coords self = [[a; b]; [c; d]] →
    geometry !! "x0" = Some x0 → geometry !! "y0" = Some y0 →
    geometry !! "x1" = None →
    python_callback geometry (self, w)
    = (Raise (KeyError "x1"),
       (with_subset_coords (with_geom self (geometry ∪ geom self))
          [[x0; y0]; [c; d]], w)).
Proof.
  intros self w geometry x0 y0 a b c d Hshape Hx0 Hy0 Hx1.
  unfold python_callback, bind, lift, getitem, modify_self, set_subset_coord.
  rewrite Hx0, Hy0, Hx1. simpl. rewrite Hshape. reflexivity.
Qed.

Lemma python_callback_half_written_witness :
  python_callback half_selection (displayed_widget, world0)
  = (Raise (KeyError "x1"),
     (with_subset_coords
        (with_geom displayed_widget (half_selection ∪ geom displayed_widget))
        [[VNum (Finite 5); VNum (Finite 5)]; [VNone; VNone]], world0)).
Proof.
  apply (python_callback_half_written_on_missing_key displayed_widget world0
           half_selection (VNum (Finite 5)) (VNum (Finite 5))
           VNone VNone VNone VNone); reflexivity.
Defined.



(** X17: [date_range_valid] returns True exactly when both dates are given
    and the start is on or before the end, and False exactly when a date is
    missing; when the start is after the end it prints the error and
    returns None, not False.  Nothing else is printed. *)
Theorem date_range_valid_answers :
  ∀ (start_date end_date : option date) (w : world),
    (fst (date_range_valid start_date end_date w) = Ok (Some true) ↔
     ∃ s e, start_date = Some s ∧ end_date = Some e ∧ date_on_or_before s e)
    ∧ (fst (date_range_valid start_date end_date w) = Ok (Some false) ↔
       start_date = None ∨ end_date = None)
    ∧ (fst (date_range_valid start_date end_date w) = Ok None ↔
       ∃ s e, start_date = Some s ∧ end_date = Some e ∧ date_before e s)
    ∧ snd (date_range_valid start_date end_date w)
      = match fst (date_range_valid start_date end_date w) with
        | Ok None =>
            with_stdout w
              (stdout w
               ++ [Line "Error: The start date must be prior to the end date."])
        | _ => w
        end.
Proof.
  intros start_date end_date w.
  destruct start_date as [s|], end_date as [e|]; simpl;
    try (repeat split; try done; try (intros (? & ? & ? & ? & ?); done);
         try (intros _; by auto); try (intros [?|?]; done); fail).
  pose proof (date_ge_on_or_before e s) as Hge. unfold date_ge in Hge.
  pose proof (date_lt_before e s) as Hlt.
  destruct (date_lt e s); simpl in *.
  - repeat split; try done.
    + intros (s' & e' & [= <-] & [= <-] & Hle). apply Hge in Hle. done.
    + intros [?|?]; done.
    + intros _. exists s, e. repeat split. by apply Hlt.
  - repeat split; try done.
    + intros _. exists s, e. repeat split. by apply Hge.
    + intros [?|?]; done.
    + intros (s' & e' & [= <-] & [= <-] & Hb). apply Hlt in Hb. done.
Qed.

Section Subscriptions_choice.

Lemma list_subscriptions_ids py_str subscriptions acc w ids w' :
  list_subscriptions py_str subscriptions acc w = (Ok ids, w') →
  (∀ v, v ∈ ids →
     v ∈ acc ∨ ∃ sub, sub ∈ subscriptions ∧ sub !! "id" = Some v)
  ∧ stdin w' = stdin w ∧ fs w' = fs w.
Proof.
  revert acc w. induction subscriptions as [|sub rest IH]; intros acc w Hrun.
  - injection Hrun as <- <-. by auto.
  - simpl in Hrun. unfold bind at 1, lift at 1, getitem at 1 in Hrun.
    destruct (sub !! "id") as [id|] eqn:Hid; [|done].
    unfold bind at 1, lift at 1, getitem at 1 in Hrun.
    destruct (sub !! "name") as [name|]; [|done].
    unfold bind at 1, print at 1 in Hrun.
    apply IH in Hrun as (Hids & Hin & Hfs). split; [|done].
    intros v Hv. destruct (Hids v Hv) as [Hacc|(sub' & Hsub' & Hv')].
    + apply elem_of_app in Hacc as [?|Hacc]; [by left|].
      apply list_elem_of_singleton in Hacc as ->.
      right. exists sub. split; [by left|done].
    + right. exists sub'. split; [by right|done].
Qed.

Lemma pick_loop_returns_listed ids lines w n :
  fst (pick_loop ids lines w) = Ok n →
  existsb (λ id, value_eq_int id n) ids = true.
Proof.
  revert w. induction lines as [|line rest IH]; intros w; [done|].
  cbn [pick_loop]. unfold bind at 1, print at 1. unfold bind at 1.
  cbv beta iota.
  destruct (py_int line) as [choice|].
  - destruct (existsb (λ id, value_eq_int id choice) ids) eqn:E.
    + simpl. intros [= Hn]. by rewrite <- Hn.
    + unfold bind at 1, print at 1. apply IH.
  - unfold bind at 1, print at 1. apply IH.
Qed.

End Subscriptions_choice.

(** X18: whatever is typed on the console, a number that
    [pick_hyp3_subscription] returns is equal to the id of one of the
    subscriptions it was given. *)
Theorem pick_hyp3_subscription_returns_a_listed_id :
  ∀ (py_str : value → string) (subscriptions : option (list record))
    (w : world) (n : Z),
    fst (pick_hyp3_subscription py_str subscriptions w) = Ok n →
    ∃ l sub v,
      subscriptions = Some l ∧ sub ∈ l ∧ sub !! "id" = Some v
      ∧ value_eq_int v n = true.
Proof.
  intros py_str subscriptions w n Hrun.
  destruct subscriptions as [[|s0 l]|]; try done.
  unfold pick_hyp3_subscription, bind in Hrun.
  destruct (list_subscriptions py_str (s0 :: l) [] w) as [[ids|] w'] eqn:Hlist;
    [|done].
  apply list_subscriptions_ids in Hlist as (Hids & _ & _).
  apply pick_loop_returns_listed, existsb_exists in Hrun as (v & Hv & Heq).
  apply list_elem_of_In in Hv.
  destruct (Hids v Hv) as [Hnil|(sub & Hsub & Hid)]; [by apply elem_of_nil in Hnil|].
  by exists (s0 :: l), sub, v.
Qed.

Lemma pick_hyp3_subscription_returns_witness :
  ∃ l sub v,
    Some two_subscriptions = Some l ∧ sub ∈ l ∧ sub !! "id" = Some v
    ∧ value_eq_int v 5678 = true.
Proof.
  apply (pick_hyp3_subscription_returns_a_listed_id example_str
           (Some two_subscriptions) (console_world ["12"; "5678"]) 5678).
  vm_compute. reflexivity.
Defined.

Section Subscriptions_prompt.

Lemma ids_of_cons (sub : record) (rest : list record) (id : value) :
  sub !! "id" = Some id → ids_of (sub :: rest) = id :: ids_of rest.
Proof.
  intros Hid. unfold ids_of. change (omap ?f (sub :: rest))
    with (match f sub with Some y => y :: omap f rest | None => omap f rest end).
  cbv beta. by rewrite Hid.
Qed.

Lemma list_subscriptions_collects py_str subscriptions acc w :
  (∀ sub, sub ∈ subscriptions →
     is_Some (sub !! "id") ∧ is_Some (sub !! "name")) →
  ∃ out,
    list_subscriptions py_str subscriptions acc w
    = (Ok (acc ++ ids_of subscriptions),
       mkworld (stdout w ++ out) (stdin w) (fs w) (glob_glob w) (requests_post w)).
Proof.
  revert acc w. induction subscriptions as [|sub rest IH]; intros acc w Hkeys.
  - exists []. simpl. unfold ret. by rewrite !app_nil_r, world_eta.
  - destruct (Hkeys sub) as [[id Hid] [name Hname]]; [by left|].
    cbn [list_subscriptions].
    unfold bind at 1, lift at 1, getitem at 1. rewrite Hid.
    unfold bind at 1, lift at 1, getitem at 1. rewrite Hname.
    unfold bind at 1, print at 1.
    edestruct IH as [out ->]; [intros; apply Hkeys; by right|].
    eexists (_ :: out). rewrite (ids_of_cons sub rest id Hid).
    cbn [stdout stdin fs glob_glob requests_post with_stdout].
    by rewrite <- !app_assoc.
Qed.

Lemma pick_loop_skips ids bad tail w :
  stdin w = bad ++ tail →
  Forall (λ line, match py_int line with
                  | Ok n => negb (existsb (λ id, value_eq_int id n) ids)
                  | Raise _ => true
                  end = true) bad →
  ∃ out,
    pick_loop ids (bad ++ tail) w
    = pick_loop ids tail
        (mkworld (stdout w ++ out) tail (fs w) (glob_glob w) (requests_post w)).
Proof.
  revert w. induction bad as [|line bad IH]; intros w Hin Hbad.
  - exists []. simpl in *. by rewrite app_nil_r, <- Hin, world_eta.
  - inversion Hbad as [|? ? Hline Hrest]; subst.
    change ((line :: bad) ++ tail) with (line :: (bad ++ tail)).
    cbn [pick_loop]. unfold bind at 1, print at 1. unfold bind at 1.
    cbv beta iota.
    set (w1 := with_stdin _ (bad ++ tail)).
    destruct (IH (with_stdout w1 (stdout w1 ++ [Line (nl +:+ "Invalid ID")])))
      as [out Hout]; [done|done|].
    exists ([Line "Pick a subscription ID from the above list:";
             Line (nl +:+ "Invalid ID")] ++ out).
    assert ((print (Line (nl +:+ "Invalid ID")) ;; pick_loop ids (bad ++ tail)) w1
            = pick_loop ids tail
                (mkworld
                   (stdout w
                    ++ [Line "Pick a subscription ID from the above list:";
                        Line (nl +:+ "Invalid ID")] ++ out)
                   tail (fs w) (glob_glob w) (requests_post w))) as Hnext.
    { unfold bind at 1, print at 1. rewrite Hout. subst w1. simpl.
      by rewrite <- !app_assoc. }
    destruct (py_int line) as [n|]; [|done].
    apply negb_true_iff in Hline. by rewrite Hline.
Qed.

End Subscriptions_prompt.

(** X19: given subscriptions that all have an id and a name,
    [pick_hyp3_subscription] reads past every entry that is not an integer
    or not one of the ids and returns the first entry that is an id,
    leaving the rest of the console unread and the disk untouched. *)
Theorem pick_hyp3_subscription_asks_until_listed :
  ∀ (py_str : value → string) (subscriptions : list record) (w : world)
    (bad rest : list string) (line : string) (n : Z),
    subscriptions ≠ [] →
    (∀ sub, sub ∈ subscriptions →
       is_Some (sub !! "id") ∧ is_Some (sub !! "name")) →
    stdin w = bad ++ line :: rest →
    Forall (λ l, not_an_id subscriptions l = true) bad →
    py_int line = Ok n →
    listed_id subscriptions n = true →
    fst (pick_hyp3_subscription py_str (Some subscriptions) w) = Ok n
    ∧ stdin (snd (pick_hyp3_subscription py_str (Some subscriptions) w)) = rest
    ∧ fs (snd (pick_hyp3_subscription py_str (Some subscriptions) w)) = fs w.
Proof.
  intros py_str subscriptions w bad rest line n Hne Hkeys Hin Hbad Hline Hlisted.
  destruct subscriptions as [|s0 l]; [done|].
  unfold pick_hyp3_subscription, bind.
  destruct (list_subscriptions_collects py_str (s0 :: l) [] w Hkeys) as [out ->].
  cbn [stdin app]. rewrite Hin.
  edestruct (pick_loop_skips (ids_of (s0 :: l)) bad (line :: rest)) as [out' ->];
    [reflexivity|exact Hbad|].
  cbn [pick_loop]. unfold bind at 1, print at 1. unfold bind at 1.
  cbv beta iota. rewrite Hline. unfold listed_id in Hlisted. rewrite Hlisted.
  done.
Qed.

Lemma pick_hyp3_subscription_asks_witness :
  fst (pick_hyp3_subscription example_str (Some two_subscriptions)
         (console_world ["rtc"; "12"; "5678"; "1234"])) = Ok 5678
  ∧ stdin (snd (pick_hyp3_subscription example_str (Some two_subscriptions)
                  (console_world ["rtc"; "12"; "5678"; "1234"]))) = ["1234"]
  ∧ fs (snd (pick_hyp3_subscription example_str (Some two_subscriptions)
               (console_world ["rtc"; "12"; "5678"; "1234"])))
    = fs (console_world ["rtc"; "12"; "5678"; "1234"]).
Proof.
  apply (pick_hyp3_subscription_asks_until_listed example_str two_subscriptions
           (console_world ["rtc"; "12"; "5678"; "1234"]) ["rtc"; "12"] ["1234"]
           "5678" 5678).
  - discriminate.
  - intros sub Hsub. unfold two_subscriptions in Hsub.
    apply elem_of_cons in Hsub as [-> | Hsub];
      [split; eexists; vm_compute; reflexivity|].
    apply elem_of_cons in Hsub as [-> | Hsub];
      [split; eexists; vm_compute; reflexivity|].
    by apply elem_of_nil in Hsub.
  - reflexivity.
  - repeat constructor.
  - reflexivity.
  - vm_compute. reflexivity.
Defined.

Section Rasters.

Variable gdal_Open : node → option Z.
Variable tif_dir : string.
Hypothesis Hfiles_only : ∀ st_size, gdal_Open (Directory st_size) = None.

(** The loop deletes the listed blank rasters and nothing else, counts one
    for each entry that leaves the disk, and neither prints nor reads. *)
Lemma remove_nan_filled_tifs_loop_sweeps file_names removed w :
  ∃ w' k,
    remove_nan_filled_tifs_loop gdal_Open tif_dir file_names removed w
    = (Ok (removed + k)%nat, w')
    ∧ (∀ path,
         fs w' !! path
         = match fs w !! path with
           | Some n =>
               if blank_raster gdal_Open n && listed tif_dir file_names path
               then None else Some n
           | None => None
           end)
    ∧ size (fs w) = (size (fs w') + k)%nat
    ∧ stdout w' = stdout w ∧ stdin w' = stdin w.
Proof.
  revert removed w. induction file_names as [|tiff rest IH]; intros removed w.
  - exists w, 0%nat. simpl. unfold ret. rewrite Nat.add_0_r.
    repeat split; try done. intros path.
    destruct (fs w !! path) as [n|]; [|done].
    by rewrite andb_false_r.
  - cbn [remove_nan_filled_tifs_loop].
    assert (∀ path, listed tif_dir (tiff :: rest) path
                    = bool_decide (path = tif_dir +:+ tiff) || listed tif_dir rest path)
      as Hlisted.
    { intros path. unfold listed. rewrite fmap_cons.
      destruct (decide (path = tif_dir +:+ tiff)) as [->|Hne].
      - rewrite (bool_decide_true (_ = _)) by done.
        rewrite bool_decide_true by (by left). done.
      - rewrite (bool_decide_false (path = _)) by done. simpl.
        apply bool_decide_ext. rewrite elem_of_cons. tauto. }
    assert (∀ w1 : world,
              fs w1 = fs w → stdout w1 = stdout w → stdin w1 = stdin w →
              (∀ n, fs w !! (tif_dir +:+ tiff) = Some n →
                    blank_raster gdal_Open n = false) →
              ∃ w' k,
                remove_nan_filled_tifs_loop gdal_Open tif_dir rest removed w1
                = (Ok (removed + k)%nat, w')
                ∧ (∀ path,
                     fs w' !! path
                     = match fs w !! path with
                       | Some n =>
                           if blank_raster gdal_Open n
                              && listed tif_dir (tiff :: rest) path
                           then None else Some n
                       | None => None
                       end)
                ∧ size (fs w) = (size (fs w') + k)%nat
                ∧ stdout w' = stdout w ∧ stdin w' = stdin w) as Hkeep.
    { intros w1 Hfs Hout Hin Hnot.
      destruct (IH removed w1) as (w' & k & Hrun & Hlook & Hsize & Ho & Hi).
      exists w', k. rewrite Hrun, <- Hfs, <- Hout, <- Hin.
      repeat split; try done. intros path. rewrite Hlook, Hfs, Hlisted.
      destruct (fs w !! path) as [n|] eqn:E; [|done].
      destruct (decide (path = tif_dir +:+ tiff)) as [->|Hne].
      - by rewrite (Hnot n E).
      - by rewrite (bool_decide_false (path = _)) by done. }
    destruct (fs w !! (tif_dir +:+ tiff)) as [n|] eqn:Hn;
      [|apply Hkeep; done].
    destruct (gdal_Open n) as [count|] eqn:Hopen.
    2: { apply Hkeep; try done. intros n' Hn'.
         assert (n' = n) as -> by congruence. unfold blank_raster.
         destruct n; [by rewrite Hopen|done]. }
    destruct (count <? 1) eqn:Hcount.
    2: { apply Hkeep; try done. intros n' Hn'.
         assert (n' = n) as -> by congruence. unfold blank_raster.
         destruct n; [by rewrite Hopen, Hcount|done]. }
    destruct n as [content|st_size]; [|by rewrite Hfiles_only in Hopen].
    unfold bind at 1, os_remove at 1. rewrite Hn.
    destruct (IH (S removed) (with_fs w (delete (tif_dir +:+ tiff) (fs w))))
      as (w' & k & Hrun & Hlook & Hsize & Ho & Hi).
    exists w', (S k). rewrite Hrun. simpl in *.
    repeat split; try done.
    + f_equal. f_equal. lia.
    + intros path. rewrite Hlook, Hlisted.
      destruct (decide (path = tif_dir +:+ tiff)) as [->|Hne].
      * rewrite lookup_delete_eq, Hn. unfold blank_raster at 1.
        rewrite Hopen, Hcount. by rewrite bool_decide_true.
      * rewrite lookup_delete_ne by done.
        by rewrite (bool_decide_false (path = _)) by done.
    + rewrite map_size_delete, Hn in Hsize.
      assert (size (fs w) ≠ 0)%nat.
      { intros H0. apply map_size_empty_inv in H0. by rewrite H0 in Hn. }
      lia.
Qed.

End Rasters.

(** X20: on a non-empty list of names, and with a GDAL that opens no
    directory, [remove_nan_filled_tifs] deletes exactly the listed files
    that open as rasters without a non-zero cell; every other entry of the
    disk, listed or not, is kept as it is.  The count it prints as removed
    is the number of entries that left the disk. *)
Theorem remove_nan_filled_tifs_deletes_the_blank_rasters :
  ∀ (gdal_Open : node → option Z) (tif_dir : string)
    (file_names : list string) (w : world),
    file_names ≠ [] →
    (∀ st_size, gdal_Open (Directory st_size) = None) →
    ∃ w' removed,
      remove_nan_filled_tifs gdal_Open tif_dir file_names w = (Ok tt, w')
      ∧ (∀ path,
           fs w' !! path
           = match fs w !! path with
             | Some n =>
                 if blank_raster gdal_Open n && listed tif_dir file_names path
                 then None else Some n
             | None => None
             end)
      ∧ size (fs w) = (size (fs w') + removed)%nat
      ∧ stdout w'
        = stdout w
          ++ [Line ("GeoTiffs Examined: " +:+ str_of_nat (length file_names));
              Line ("GeoTiffs Removed:  " +:+ str_of_nat removed)]
      ∧ stdin w' = stdin w.
Proof.
  intros gdal_Open tif_dir file_names w Hne Hfiles.
  unfold remove_nan_filled_tifs. rewrite nonempty_length by done. simpl.
  destruct (remove_nan_filled_tifs_loop_sweeps gdal_Open tif_dir Hfiles
              file_names 0%nat w) as (w1 & k & Hrun & Hlook & Hsize & Ho & Hi).
  unfold bind at 1. rewrite Hrun. simpl.
  eexists _, k. split; [reflexivity|]. simpl.
  repeat split; try done. rewrite Ho. by rewrite <- app_assoc.
Qed.

Lemma remove_nan_filled_tifs_witness :
  ∃ w' removed,
    remove_nan_filled_tifs toy_gdal "tifs/"
      ["a.tif"; "b.tif"; "notes.txt"; "gone.tif"; "a.tif"] tif_world = (Ok tt, w')
    ∧ (∀ path,
         fs w' !! path
         = match fs tif_world !! path with
           | Some n =>
               if blank_raster toy_gdal n
                  && listed "tifs/"
                       ["a.tif"; "b.tif"; "notes.txt"; "gone.tif"; "a.tif"] path
               then None else Some n
           | None => None
           end)
    ∧ size (fs tif_world) = (size (fs w') + removed)%nat
    ∧ stdout w'
      = stdout tif_world
        ++ [Line ("GeoTiffs Examined: "
                  +:+ str_of_nat
                        (length ["a.tif"; "b.tif"; "notes.txt"; "gone.tif"; "a.tif"]));
            Line ("GeoTiffs Removed:  " +:+ str_of_nat removed)]
    ∧ stdin w' = stdin tif_world.
Proof.
  apply remove_nan_filled_tifs_deletes_the_blank_rasters.
  - discriminate.
  - reflexivity.
Defined.

Example remove_nan_filled_tifs_run :
  fst (remove_nan_filled_tifs toy_gdal "tifs/"
         ["a.tif"; "b.tif"; "notes.txt"; "gone.tif"; "a.tif"] tif_world) = Ok tt
  ∧ stdout (snd (remove_nan_filled_tifs toy_gdal "tifs/"
                   ["a.tif"; "b.tif"; "notes.txt"; "gone.tif"; "a.tif"] tif_world))
    = [Line "GeoTiffs Examined: 5"; Line "GeoTiffs Removed:  1"]
  ∧ map (λ path,
           match fs (snd (remove_nan_filled_tifs toy_gdal "tifs/"
                            ["a.tif"; "b.tif"; "notes.txt"; "gone.tif"; "a.tif"]
                            tif_world)) !! path with
           | Some _ => true
           | None => false
           end)
      ["tifs/a.tif"; "tifs/b.tif"; "tifs/notes.txt"]
    = [false; true; true].
Proof. vm_compute. repeat split. Qed.

Section Patterns.

Example os_path_splitext_examples :
  os_path_splitext "products/S1A_RTC.zip" = ("products/S1A_RTC", ".zip")
  ∧ os_path_splitext "products/.zip" = ("products/.zip", "")
  ∧ os_path_splitext "products.d/S1A_RTC" = ("products.d/S1A_RTC", "")
  ∧ os_path_splitext "a.tar.zip" = ("a.tar", ".zip").
Proof. repeat split; reflexivity. Qed.

Example product_of_url_examples :
  product_of_url "https://hyp3-download.asf.alaska.edu/asf/data/S1A_RTC.zip"
  = Some "S1A_RTC"
  ∧ product_of_url "https://hyp3-download.asf.alaska.edu/asf/data/a.zip?b.zip"
    = Some "a.zip?b"
  ∧ product_of_url "https://hyp3-downloadXasfXalaskaXedu/asf/data/S1A_RTC-zip"
    = Some "S1A_RTC"
  ∧ product_of_url "https://example.org/asf/data/S1A_RTC.zip" = None
  ∧ product_of_url "https://hyp3-download.asf.alaska.edu/asf/data/.zip" = Some ""
  ∧ product_of_url "https://hyp3-download.asf.alaska.edu/asf/data/zip" = None.
Proof. repeat split; reflexivity. Qed.

Lemma match_prefix_base r :
  match_prefix download_base (download_base +:+ r) = Some r.
Proof. reflexivity. Qed.

Lemma zip_group_of_tail c :
  Ascii.eqb c "010" = false → zip_group (String c "zip") = Some EmptyString.
Proof. intros Hc. simpl. by rewrite Hc. Qed.

Lemma zip_group_whole name c :
  one_line name = true → Ascii.eqb c "010" = false →
  zip_group (name +:+ String c "zip") = Some name.
Proof.
  intros Hname Hc. induction name as [|a name IH].
  - by apply zip_group_of_tail.
  - unfold one_line in *. simpl in Hname.
    apply andb_true_iff in Hname as [Ha Hname]. apply negb_true_iff in Ha.
    change (String a name +:+ String c "zip")
      with (String a (name +:+ String c "zip")).
    cbn [zip_group]. rewrite Ha. by rewrite IH.
Qed.

End Patterns.

(** X21: the url under which the download service serves a product gives
    the product name back: for a name without a newline, the pattern
    matched on base + name + one character + zip yields the name, and the
    character before zip need not be a dot. *)
Theorem product_of_url_recovers_the_name :
  ∀ (name : string) (c : ascii),
    one_line name = true → Ascii.eqb c "010" = false →
    product_of_url (download_base +:+ name +:+ String c "zip") = Some name.
Proof.
  intros name c Hname Hc. unfold product_of_url.
  change "https://hyp3-download.asf.alaska.edu/asf/data/" with download_base.
  rewrite match_prefix_base. by apply zip_group_whole.
Qed.

Lemma product_of_url_recovers_witness :
  product_of_url (download_base +:+ "S1A_IW_RT30_20200615T153045_G_gpn"
                  +:+ String "." "zip")
  = Some "S1A_IW_RT30_20200615T153045_G_gpn".
Proof. apply product_of_url_recovers_the_name; reflexivity. Defined.

Section Login.

Variable new_API : string → result API.
Variable api_login : string → string → login_outcome.
Variable encode : string → option (list Byte.byte).

(** After the attempts that are turned away, the accepted one reaches the
    write of the credentials with the welcome on display. *)
Lemma earthdata_hyp3_login_loop_reaches attempts username password rest api :
  Forall (turned_away new_API api_login) attempts →
  new_API username = Ok api →
  api_login username password = LoggedIn →
  ∀ (err : option string) (w : world),
    earthdata_hyp3_login_loop new_API api_login encode err
      (typed attempts ++ username :: password :: rest) w
    = (open_wb netrc ;;
       match encode (netrc_line username password) with
       | Some bytes => f_write netrc bytes ;; ret api
       | None => raise ValueError
       end)
        (mkworld
           [Line "Login successful."; Line ("Welcome " +:+ username +:+ ".")]
           rest (fs w) (glob_glob w) (requests_post w)).
Proof.
  intros Hbad Hnew Hlogin.
  induction attempts as [|[u0 p0] attempts IH]; intros err w.
  - cbn [typed app earthdata_hyp3_login_loop]. rewrite Hnew, Hlogin.
    destruct err as [e|]; reflexivity.
  - inversion Hbad as [|? ? [[api0 Hnew0] [msg Hmsg]] Hrest]; subst.
    simpl in Hnew0, Hmsg.
    cbn [typed app earthdata_hyp3_login_loop]. rewrite Hnew0, Hmsg.
    destruct err as [e|]; unfold bind at 1; simpl;
      unfold bind, print, clear_output, ret; simpl;
      rewrite (IH Hrest); reflexivity.
Qed.

End Login.

(** X22: however many attempts were turned away with a login error
    before, the attempt that succeeds leaves on display the two lines of
    welcome and nothing else, and leaves the entries that follow on the
    console unread.  When the credentials file can be opened and the line
    encoded, [earthdata_hyp3_login] returns the API object and the file
    holds one line with the user name and the password as typed, replacing
    what it held.  When the file cannot be opened, the function raises the
    error of [open] after the welcome: the login went through and the API
    object is lost. *)
Theorem earthdata_hyp3_login_stores_the_accepted_credentials :
  ∀ (new_API : string → result API)
    (api_login : string → string → login_outcome)
    (encode : string → option (list Byte.byte))
    (attempts : list (string * string)) (username password : string)
    (rest : list string) (api : API) (w : world),
    Forall (turned_away new_API api_login) attempts →
    new_API username = Ok api →
    api_login username password = LoggedIn →
    stdin w = typed attempts ++ username :: password :: rest →
    (∀ bytes,
       open_for_writing (fs w) netrc = Ok tt →
       encode (netrc_line username password) = Some bytes →
       earthdata_hyp3_login new_API api_login encode w
       = (Ok api,
          mkworld
            [Line "Login successful."; Line ("Welcome " +:+ username +:+ ".")]
            rest (<[netrc := RegularFile bytes]> (fs w))
            (glob_glob w) (requests_post w)))
    ∧ (∀ e,
         open_for_writing (fs w) netrc = Raise e →
         earthdata_hyp3_login new_API api_login encode w
         = (Raise e,
            mkworld
              [Line "Login successful."; Line ("Welcome " +:+ username +:+ ".")]
              rest (fs w) (glob_glob w) (requests_post w))).
Proof.
  intros new_API api_login encode attempts username password rest api w
    Hbad Hnew Hlogin Hin.
  unfold earthdata_hyp3_login. rewrite Hin.
  rewrite (earthdata_hyp3_login_loop_reaches new_API api_login encode
             attempts username password rest api Hbad Hnew Hlogin).
  split.
  - intros bytes Hopen Hbytes.
    unfold bind at 1, open_wb at 1. cbn [fs]. rewrite Hopen, Hbytes.
    unfold bind, f_write, ret. cbn [fs with_fs].
    rewrite lookup_insert_eq. cbn [with_fs fs stdout stdin glob_glob requests_post].
    by rewrite insert_insert_eq.
  - intros e Hopen. unfold bind at 1, open_wb at 1. cbn [fs]. by rewrite Hopen.
Qed.

(** The witness of X22: two attempts turned away and a third accepted, in
    a home directory that is there, and in one that is not. *)
Lemma earthdata_hyp3_login_witness :
  earthdata_hyp3_login (λ _, Ok api_without_subscriptions) one_account
    (λ s, Some (ascii_bytes s))
    (home_world ["analyst"; "secret"; "guest"; ""; "analyst"; "s3cret"; "1234"])
  = (Ok api_without_subscriptions,
     mkworld [Line "Login successful."; Line ("Welcome " +:+ "analyst" +:+ ".")]
       ["1234"]
       (<[netrc := RegularFile (ascii_bytes (netrc_line "analyst" "s3cret"))]>
          (fs (home_world [])))
       (λ _, []) (λ _ _, inl "no route to host"))
  ∧ earthdata_hyp3_login (λ _, Ok api_without_subscriptions) one_account
      (λ s, Some (ascii_bytes s))
      (console_world ["analyst"; "s3cret"; "1234"])
    = (Raise FileNotFoundError,
       mkworld [Line "Login successful."; Line ("Welcome " +:+ "analyst" +:+ ".")]
         ["1234"] ∅ (λ _, []) (λ _ _, inl "no route to host")).
Proof.
  split.
  - apply (proj1 (earthdata_hyp3_login_stores_the_accepted_credentials
                    (λ _, Ok api_without_subscriptions) one_account
                    (λ s, Some (ascii_bytes s))
                    [("analyst", "secret"); ("guest", "")] "analyst" "s3cret"
                    ["1234"] api_without_subscriptions
                    (home_world ["analyst"; "secret"; "guest"; ""; "analyst";
                                 "s3cret"; "1234"])
                    ltac:(repeat constructor; simpl; eexists; reflexivity)
                    eq_refl eq_refl eq_refl)).
    + reflexivity.
    + reflexivity.
  - apply (proj2 (earthdata_hyp3_login_stores_the_accepted_credentials
                    (λ _, Ok api_without_subscriptions) one_account
                    (λ s, Some (ascii_bytes s))
                    [] "analyst" "s3cret"
                    ["1234"] api_without_subscriptions
                    (console_world ["analyst"; "s3cret"; "1234"])
                    ltac:(constructor) eq_refl eq_refl eq_refl)).
    reflexivity.
Defined.

Section Products.

Variable py_str : value → string.
Variable get_products : Z → list (list record).
Variable requests_get : string → result response.
Variable extractall : list Byte.byte → string → gmap string node → unzip_outcome.

Lemma list_subscriptions_keeps_disk subscriptions acc w :
  fs (snd (list_subscriptions py_str subscriptions acc w)) = fs w.
Proof.
  revert acc w. induction subscriptions as [|sub rest IH]; intros acc w; [done|].
  simpl. unfold bind at 1, lift at 1. destruct (getitem sub "id"); [|done].
  unfold bind at 1, lift at 1. destruct (getitem sub "name"); [|done].
  unfold bind at 1, print at 1. by rewrite IH.
Qed.

Lemma pick_loop_keeps_disk ids lines w :
  fs (snd (pick_loop ids lines w)) = fs w.
Proof.
  revert w. induction lines as [|line rest IH]; intros w; [done|].
  cbn [pick_loop]. unfold bind at 1, print at 1. unfold bind at 1.
  cbv beta iota.
  destruct (py_int line) as [n|]; [destruct (existsb _ ids); [done|]|];
    unfold bind at 1, print at 1; by rewrite IH.
Qed.

Lemma pick_hyp3_subscription_keeps_disk subscriptions w :
  fs (snd (pick_hyp3_subscription py_str subscriptions w)) = fs w.
Proof.
  destruct subscriptions as [[|s0 l]|]; try done.
  unfold pick_hyp3_subscription, bind.
  pose proof (list_subscriptions_keeps_disk (s0 :: l) [] w) as Hfs.
  destruct (list_subscriptions py_str (s0 :: l) [] w) as [[ids|] w1]; [|done].
  simpl in Hfs. by rewrite pick_loop_keeps_disk.
Qed.

Lemma fetch_products_skips_present destination_path products count w :
  (∀ p, p ∈ products → on_disk destination_path (fs w) p) →
  ∃ out,
    fetch_products requests_get extractall destination_path count products w
    = (Ok tt,
       mkworld (stdout w ++ out) (stdin w) (fs w) (glob_glob w) (requests_post w)).
Proof.
  revert count w. induction products as [|p rest IH]; intros count w Hdisk.
  - exists []. simpl. unfold ret. by rewrite app_nil_r, world_eta.
  - destruct (Hdisk p) as (url & product & Hurl & Hprod & [n Hn]); [by left|].
    cbn [fetch_products]. unfold bind at 1, fetch_product.
    unfold bind at 1, print at 1. unfold bind at 1, lift at 1, getitem at 1.
    rewrite Hurl, Hprod. unfold bind at 1, os_path_exists at 1.
    cbn [fs with_stdout]. rewrite Hn. cbn [negb]. unfold print at 1.
    edestruct (IH (S count)) as [out ->]; [intros; by apply Hdisk; right|].
    eexists (_ :: _ :: out). cbn [stdout stdin fs glob_glob requests_post with_stdout].
    by rewrite <- !app_assoc.
Qed.

End Products.

(** X23: on an account without enabled subscriptions, whether the API
    answers with an empty list or with None, [download_hyp3_products]
    prints that there are none and then fails the assertion of
    [pick_hyp3_subscription]; it does not return None, asks nothing and
    leaves the disk alone. *)
Theorem download_hyp3_products_without_subscriptions :
  ∀ (py_str : value → string) (get_products : Z → list (list record))
    (requests_get : string → result response)
    (extractall : list Byte.byte → string → gmap string node → unzip_outcome)
    (api : API) (destination_path : string) (start_date end_date : option date)
    (flight_direction : option string) (path : option Z) (w : world)
    (subscriptions : option (list record)),
    is_Some (fs w !! destination_path) →
    get_subscriptions api true = Ok subscriptions →
    falsy_list subscriptions = true →
    ∃ msg,
      download_hyp3_products py_str get_products requests_get extractall api
        destination_path start_date end_date flight_direction path w
      = (Raise (AssertionError msg),
         with_stdout w
           (stdout w
            ++ [Line "There are no subscriptions associated with this Hyp3 account."])).
Proof.
  intros py_str get_products requests_get extractall api destination_path
    start_date end_date flight_direction path w subscriptions
    [n Hdest] Hapi Hfalsy.
  unfold download_hyp3_products.
  unfold bind at 1, os_path_exists at 1. rewrite Hdest. cbn [negb].
  unfold bind at 1, get_hyp3_subscriptions.
  unfold bind at 1, lift at 1. rewrite Hapi. rewrite Hfalsy.
  unfold bind at 1, print at 1. unfold ret at 1.
  unfold bind at 1.
  destruct subscriptions as [[|s0 l]|]; try done; by eexists.
Qed.

Lemma download_hyp3_products_without_subscriptions_witness :
  ∃ msg,
    download_hyp3_products example_str example_pages no_download no_unzip
      api_without_subscriptions "products" None None None None
      (products_world ["1234"])
    = (Raise (AssertionError msg),
       with_stdout (products_world ["1234"])
         (stdout (products_world ["1234"])
          ++ [Line "There are no subscriptions associated with this Hyp3 account."])).
Proof.
  apply (download_hyp3_products_without_subscriptions _ _ _ _ _ _ _ _ _ _ _
           (Some [])).
  - eexists. reflexivity.
  - reflexivity.
  - reflexivity.
Defined.

(** X24: a flight direction that is not one of the six accepted strings
    ends [download_hyp3_products] with exit status 1, but only after the
    subscription has been chosen; nothing is downloaded and the disk is
    left as it was. *)
Theorem download_hyp3_products_exits_on_invalid_flight_direction :
  ∀ (py_str : value → string) (get_products : Z → list (list record))
    (requests_get : string → result response)
    (extractall : list Byte.byte → string → gmap string node → unzip_outcome)
    (api : API) (destination_path : string) (start_date end_date : option date)
    (flight_direction : string) (path : option Z) (w w' : world)
    (subscriptions : list record) (subscription_id : Z),
    is_Some (fs w !! destination_path) →
    get_subscriptions api true = Ok (Some subscriptions) →
    subscriptions ≠ [] →
    pick_hyp3_subscription py_str (Some subscriptions) w = (Ok subscription_id, w') →
    subscription_id ≠ 0 →
    start_date = None ∨ end_date = None →
    flight_direction ≠ "" →
    existsb (String.eqb flight_direction) valid_directions = false →
    fst (download_hyp3_products py_str get_products requests_get extractall api
           destination_path start_date end_date (Some flight_direction) path w)
    = Raise (SystemExit 1)
    ∧ fs (snd (download_hyp3_products py_str get_products requests_get extractall
                 api destination_path start_date end_date (Some flight_direction)
                 path w))
      = fs w.
Proof.
  intros py_str get_products requests_get extractall api destination_path
    start_date end_date flight_direction path w w' subscriptions subscription_id
    [n Hdest] Hapi Hne Hpick Hid Hdates Hfd Hinvalid.
  pose proof (pick_hyp3_subscription_keeps_disk py_str (Some subscriptions) w)
    as Hdisk. rewrite Hpick in Hdisk. simpl in Hdisk.
  assert (download_hyp3_products py_str get_products requests_get extractall api
            destination_path start_date end_date (Some flight_direction) path w
          = (Raise (SystemExit 1),
             with_stdout w'
               (stdout w'
                ++ [Line ("Error: " +:+ flight_direction
                          +:+ " is not a valid flight direction.");
                    Line "Valid Directions: ['A', 'ASC', 'ASCENDING', 'D', 'DESC', 'DESCENDING']";
                    Line "Aborting download_hyp3_products() due to invalid flight_direction."])))
    as ->; [|by split].
  unfold download_hyp3_products.
  unfold bind at 1, os_path_exists at 1. rewrite Hdest. cbn [negb].
  unfold bind at 1, get_hyp3_subscriptions.
  unfold bind at 1, lift at 1. rewrite Hapi.
  assert (falsy_list (Some subscriptions) = false) as ->
    by (by destruct subscriptions).
  unfold bind at 1, ret at 1. unfold ret at 1.
  unfold bind at 1. rewrite Hpick.
  rewrite (proj2 (Z.eqb_neq _ _) Hid).
  assert (date_range_valid start_date end_date w' = (Ok (Some false), w')) as Hvalid.
  { destruct Hdates as [-> | ->]; [done|]. by destruct start_date. }
  unfold bind at 1. rewrite Hvalid. unfold bind at 1, ret at 1.
  assert (truthy_str (Some flight_direction) = true) as ->.
  { simpl. apply negb_true_iff, String.eqb_neq. done. }
  unfold bind at 1. unfold bind at 1, flight_direction_valid at 1.
  rewrite Hinvalid. unfold bind, print, raise, ret, with_stdout. simpl.
  by rewrite <- !app_assoc.
Qed.

Lemma download_hyp3_products_exits_witness :
  fst (download_hyp3_products example_str example_pages no_download no_unzip
         two_subscription_api "products" None None (Some "asc") None
         (products_world ["1234"]))
  = Raise (SystemExit 1)
  ∧ fs (snd (download_hyp3_products example_str example_pages no_download
               no_unzip two_subscription_api "products" None None (Some "asc")
               None (products_world ["1234"])))
    = fs (products_world ["1234"]).
Proof.
  eapply (download_hyp3_products_exits_on_invalid_flight_direction
            example_str example_pages no_download no_unzip two_subscription_api
            "products" None None "asc" None (products_world ["1234"]) _
            two_subscriptions 1234).
  - eexists. reflexivity.
  - reflexivity.
  - discriminate.
  - vm_compute. reflexivity.
  - lia.
  - by left.
  - discriminate.
  - reflexivity.
Defined.

(** X25: with a valid date range, a subscription that has no product
    makes [download_hyp3_products] fail on the assertion of
    [filter_date_range] that the product list is not empty, once the
    subscription has been chosen. *)
Theorem download_hyp3_products_of_empty_subscription_in_date_range :
  ∀ (py_str : value → string) (get_products : Z → list (list record))
    (requests_get : string → result response)
    (extractall : list Byte.byte → string → gmap string node → unzip_outcome)
    (api : API) (destination_path : string) (s e : date)
    (flight_direction : option string) (path : option Z) (w w' : world)
    (subscriptions : list record) (subscription_id : Z),
    is_Some (fs w !! destination_path) →
    get_subscriptions api true = Ok (Some subscriptions) →
    subscriptions ≠ [] →
    pick_hyp3_subscription py_str (Some subscriptions) w = (Ok subscription_id, w') →
    subscription_id ≠ 0 →
    collect_pages (get_products subscription_id) [] = [] →
    date_on_or_before s e →
    ∃ msg,
      download_hyp3_products py_str get_products requests_get extractall api
        destination_path (Some s) (Some e) flight_direction path w
      = (Raise (AssertionError msg), w').
Proof.
  intros py_str get_products requests_get extractall api destination_path s e
    flight_direction path w w' subscriptions subscription_id
    [n Hdest] Hapi Hne Hpick Hid Hpages Hdates.
  unfold download_hyp3_products.
  unfold bind at 1, os_path_exists at 1. rewrite Hdest. cbn [negb].
  unfold bind at 1, get_hyp3_subscriptions.
  unfold bind at 1, lift at 1. rewrite Hapi.
  assert (falsy_list (Some subscriptions) = false) as ->
    by (by destruct subscriptions).
  unfold bind at 1, ret at 1. unfold ret at 1.
  unfold bind at 1. rewrite Hpick.
  rewrite (proj2 (Z.eqb_neq _ _) Hid). rewrite Hpages.
  assert (date_range_valid (Some s) (Some e) w' = (Ok (Some true), w')) as Hvalid.
  { unfold date_range_valid. apply date_ge_on_or_before in Hdates.
    unfold date_ge in Hdates. apply negb_true_iff in Hdates. by rewrite Hdates. }
  unfold bind at 1. rewrite Hvalid. by eexists.
Qed.

Lemma download_hyp3_products_of_empty_subscription_witness :
  ∃ msg,
    download_hyp3_products example_str example_pages no_download no_unzip
      two_subscription_api "products" (Some (mkdate 2020 1 1))
      (Some (mkdate 2020 12 31)) None None (products_world ["5678"])
    = (Raise (AssertionError msg),
       snd (pick_hyp3_subscription example_str (Some two_subscriptions)
              (products_world ["5678"]))).
Proof.
  apply (download_hyp3_products_of_empty_subscription_in_date_range
           example_str example_pages no_download no_unzip two_subscription_api
           "products" (mkdate 2020 1 1) (mkdate 2020 12 31) None None
           (products_world ["5678"]) _ two_subscriptions 5678).
  - eexists. reflexivity.
  - reflexivity.
  - discriminate.
  - vm_compute. reflexivity.
  - lia.
  - reflexivity.
  - right. unfold date_before. simpl. lia.
Defined.

(** X26: without a date range, a flight direction or a path, and with
    every product of the chosen subscription already extracted under the
    destination, [download_hyp3_products] returns the chosen id and leaves
    the disk exactly as it was: nothing is fetched, renamed or removed. *)
Theorem download_hyp3_products_skips_products_on_disk :
  ∀ (py_str : value → string) (get_products : Z → list (list record))
    (requests_get : string → result response)
    (extractall : list Byte.byte → string → gmap string node → unzip_outcome)
    (api : API) (destination_path : string) (start_date end_date : option date)
    (w w' : world) (subscriptions : list record) (subscription_id : Z),
    is_Some (fs w !! destination_path) →
    get_subscriptions api true = Ok (Some subscriptions) →
    subscriptions ≠ [] →
    pick_hyp3_subscription py_str (Some subscriptions) w = (Ok subscription_id, w') →
    subscription_id ≠ 0 →
    start_date = None ∨ end_date = None →
    (∀ p, p ∈ collect_pages (get_products subscription_id) [] →
       on_disk destination_path (fs w) p) →
    ∃ out,
      download_hyp3_products py_str get_products requests_get extractall api
        destination_path start_date end_date None None w
      = (Ok (Some subscription_id),
         mkworld (stdout w' ++ out) (stdin w') (fs w) (glob_glob w')
           (requests_post w')).
Proof.
  intros py_str get_products requests_get extractall api destination_path
    start_date end_date w w' subscriptions subscription_id
    [n Hdest] Hapi Hne Hpick Hid Hdates Hdisk.
  pose proof (pick_hyp3_subscription_keeps_disk py_str (Some subscriptions) w)
    as Hfs. rewrite Hpick in Hfs. simpl in Hfs.
  unfold download_hyp3_products.
  unfold bind at 1, os_path_exists at 1. rewrite Hdest. cbn [negb].
  unfold bind at 1, get_hyp3_subscriptions.
  unfold bind at 1, lift at 1. rewrite Hapi.
  assert (falsy_list (Some subscriptions) = false) as ->
    by (by destruct subscriptions).
  unfold bind at 1, ret at 1. unfold ret at 1.
  unfold bind at 1. rewrite Hpick.
  rewrite (proj2 (Z.eqb_neq _ _) Hid).
  assert (date_range_valid start_date end_date w' = (Ok (Some false), w')) as Hvalid.
  { destruct Hdates as [-> | ->]; [done|]. by destruct start_date. }
  unfold bind at 1. rewrite Hvalid. unfold bind at 1, ret at 1.
  unfold bind at 1, ret at 1. cbn [truthy_int]. unfold bind at 1, ret at 1.
  unfold bind at 1. unfold bind at 1, path_exists at 1.
  unfold bind at 1, os_path_exists at 1. rewrite Hfs, Hdest. unfold ret at 1.
  unfold bind at 1, print at 1.
  set (w1 := with_stdout w' _).
  destruct (fetch_products_skips_present requests_get extractall destination_path
              (collect_pages (get_products subscription_id) []) 1 w1)
    as [out ->].
  { subst w1. simpl. by rewrite Hfs. }
  eexists (_ :: out). unfold ret. subst w1. simpl.
  by rewrite Hfs, <- app_assoc.
Qed.

Lemma download_hyp3_products_skips_witness :
  ∃ out,
    download_hyp3_products example_str example_pages no_download no_unzip
      two_subscription_api "products" None None None None
      (products_world ["1234"])
    = (Ok (Some 1234),
       mkworld
         (stdout (snd (pick_hyp3_subscription example_str (Some two_subscriptions)
                         (products_world ["1234"]))) ++ out)
         (stdin (snd (pick_hyp3_subscription example_str (Some two_subscriptions)
                        (products_world ["1234"]))))
         (fs (products_world ["1234"]))
         (glob_glob (snd (pick_hyp3_subscription example_str
                            (Some two_subscriptions) (products_world ["1234"]))))
         (requests_post (snd (pick_hyp3_subscription example_str
                                (Some two_subscriptions)
                                (products_world ["1234"]))))).
Proof.
  apply (download_hyp3_products_skips_products_on_disk
           example_str example_pages no_download no_unzip two_subscription_api
           "products" None None (products_world ["1234"]) _ two_subscriptions 1234).
  - eexists. reflexivity.
  - reflexivity.
  - discriminate.
  - vm_compute. reflexivity.
  - lia.
  - by left.
  - intros p Hp. change (collect_pages (example_pages 1234) [])
      with [rtc_product "S1A_IW_RT30_20200615T153045_G_gpn";
            rtc_product "S1A_IW_RT30_20200627T153046_G_gpn"] in Hp.
    apply elem_of_cons in Hp as [-> | Hp];
      [eexists _, _; split; [reflexivity|split; [reflexivity|]];
       eexists; vm_compute; reflexivity|].
    apply elem_of_cons in Hp as [-> | Hp];
      [eexists _, _; split; [reflexivity|split; [reflexivity|]];
       eexists; vm_compute; reflexivity|].
    by apply elem_of_nil in Hp.
Defined.

Section Unzip.

(** A missing product is fetched, renamed to an archive, extracted, and
    the archive removed; the product that is there is skipped. *)
Example download_hyp3_products_fetches_the_missing_product :
  fst (download_hyp3_products example_str example_pages zip_download toy_unzip
         two_subscription_api "products" None None None None
         (half_world ["1234"]))
  = Ok (Some 1234)
  ∧ map (λ path,
           fs (snd (download_hyp3_products example_str example_pages zip_download
                      toy_unzip two_subscription_api "products" None None None
                      None (half_world ["1234"]))) !! path)
      ["products/S1A_IW_RT30_20200615T153045_G_gpn";
       "products/S1A_IW_RT30_20200627T153046_G_gpn";
       "products/S1A_IW_RT30_20200627T153046_G_gpn.zip"]
    = [Some (Directory 4096); Some (Directory 4096); None].
Proof. vm_compute. split; reflexivity. Qed.

Lemma append_empty s : s +:+ EmptyString = s.
Proof.
  induction s as [|c s IH]; [done|].
  change (String c s +:+ EmptyString) with (String c (s +:+ EmptyString)).
  by rewrite IH.
Qed.

Lemma substring_whole s : substring 0 (String.length s) s = s.
Proof. induction s as [|c s IH]; [done|]. simpl. by rewrite IH. Qed.

Lemma substring_cut d s :
  substring 0 d s +:+ substring d (String.length s - d) s = s.
Proof.
  revert d. induction s as [|c s IH]; intros d.
  - by destruct d.
  - destruct d as [|d].
    + rewrite Nat.sub_0_r, (substring_whole (String c s)). reflexivity.
    + change (String c (substring 0 d s +:+ substring d (String.length s - d) s)
              = String c s).
      by rewrite IH.
Qed.

Lemma os_path_splitext_joins p :
  fst (os_path_splitext p) +:+ snd (os_path_splitext p) = p.
Proof.
  unfold os_path_splitext.
  destruct (_ <? _); [destruct (all_dots _)|]; simpl;
    auto using append_empty, substring_cut.
Qed.

Lemma length_append (s t : string) :
  String.length (s +:+ t) = (String.length s + String.length t)%nat.
Proof.
  induction s as [|c s IH]; [done|].
  change (String c s +:+ t) with (String c (s +:+ t)). simpl. by rewrite IH.
Qed.

Lemma substring_skip (s t : string) n :
  substring (String.length s) n (s +:+ t) = substring 0 n t.
Proof.
  induction s as [|c s IH]; [done|].
  change (String c s +:+ t) with (String c (s +:+ t)). simpl. exact IH.
Qed.

Lemma ends_with_append root suffix : ends_with suffix (root +:+ suffix) = true.
Proof.
  unfold ends_with. rewrite length_append, Nat.add_sub, substring_skip.
  rewrite substring_whole. apply String.eqb_refl.
Qed.

(** The outcomes of [asf_unzip], case by case. *)
Lemma asf_unzip_cases extractall output_dir file_path w :
  asf_unzip extractall output_dir file_path w
  = if negb (String.eqb (snd (os_path_splitext file_path)) ".zip") then
      (Raise (AssertionError "Error: file_path must be the path of a zip"), w)
    else
      match fs w !! output_dir with
      | None =>
          (Ok tt, with_stdout w (stdout w ++ [Line ("Invalid Path: " +:+ output_dir)]))
      | Some _ =>
          match fs w !! file_path with
          | None =>
              (Ok tt,
               with_stdout w (stdout w ++ [Line ("Invalid Path: " +:+ file_path)]))
          | Some (Directory _) =>
              (Raise IsADirectoryError,
               with_stdout w (stdout w ++ [Line ("Extracting: " +:+ file_path)]))
          | Some (RegularFile content) =>
              match extractall content output_dir (fs w) with
              | Extracted disk =>
                  (Ok tt,
                   with_fs
                     (with_stdout w
                        (stdout w ++ [Line ("Extracting: " +:+ file_path)]))
                     disk)
              | BadZipFile disk =>
                  (Ok tt,
                   with_fs
                     (with_stdout w
                        (stdout w ++ [Line ("Extracting: " +:+ file_path);
                                      Line "Zipfile Error."]))
                     disk)
              | UnzipRaises e disk =>
                  (Raise e,
                   with_fs
                     (with_stdout w
                        (stdout w ++ [Line ("Extracting: " +:+ file_path)]))
                     disk)
              end
          end
      end.
Proof.
  unfold asf_unzip. destruct (negb _); [done|].
  unfold bind at 1, path_exists at 1. unfold bind at 1, os_path_exists at 1.
  destruct (fs w !! output_dir) as [d|]; [|done].
  unfold ret at 1. unfold bind at 1, path_exists at 1.
  unfold bind at 1, os_path_exists at 1.
  destruct (fs w !! file_path) as [[content|sz]|] eqn:Hfile; [| |done].
  - unfold ret at 1. unfold bind at 1, print at 1. simpl. rewrite Hfile.
    destruct (extractall content output_dir (fs w)); try done.
    unfold print, with_stdout, with_fs. simpl. by rewrite <- app_assoc.
  - unfold ret at 1. unfold bind at 1, print at 1. simpl. by rewrite Hfile.
Qed.

End Unzip.

(** X27: [os.path.splitext] loses no character, root and extension joined
    give the path back, so [asf_unzip] fails its assertion, before it looks
    at the disk or prints, on every path that does not end in .zip. *)
Theorem asf_unzip_refuses_other_extensions :
  ∀ (extractall : list Byte.byte → string → gmap string node → unzip_outcome)
    (output_dir file_path : string) (w : world),
    fst (os_path_splitext file_path) +:+ snd (os_path_splitext file_path)
    = file_path
    ∧ (ends_with ".zip" file_path = false →
       asf_unzip extractall output_dir file_path w
       = (Raise (AssertionError "Error: file_path must be the path of a zip"), w)).
Proof.
  intros extractall output_dir file_path w.
  split; [apply os_path_splitext_joins|].
  intros Hext. unfold asf_unzip.
  destruct (String.eqb_spec (snd (os_path_splitext file_path)) ".zip") as [E|_];
    [|done].
  rewrite <- (os_path_splitext_joins file_path), E, ends_with_append in Hext.
  done.
Qed.

(** X28: [asf_unzip] writes nothing of its own: the disk changes only
    when the path has the extension .zip and the output directory and the
    archive are there, and then it is the disk as the extraction left it,
    whether the extraction returned or raised.  A corrupt archive is
    reported with one more line and the call returns normally, with what
    the extraction had written by then still on disk. *)
Theorem asf_unzip_changes_the_disk_only_by_extraction :
  ∀ (extractall : list Byte.byte → string → gmap string node → unzip_outcome)
    (output_dir file_path : string) (w : world),
    (fs (snd (asf_unzip extractall output_dir file_path w)) = fs w
     ∨ ∃ content,
         snd (os_path_splitext file_path) = ".zip"
         ∧ is_Some (fs w !! output_dir)
         ∧ fs w !! file_path = Some (RegularFile content)
         ∧ fs (snd (asf_unzip extractall output_dir file_path w))
           = disk_after (extractall content output_dir (fs w)))
    ∧ (∀ content disk,
         snd (os_path_splitext file_path) = ".zip" →
         is_Some (fs w !! output_dir) →
         fs w !! file_path = Some (RegularFile content) →
         extractall content output_dir (fs w) = BadZipFile disk →
         asf_unzip extractall output_dir file_path w
         = (Ok tt,
            mkworld
              (stdout w ++ [Line ("Extracting: " +:+ file_path);
                            Line "Zipfile Error."])
              (stdin w) disk (glob_glob w) (requests_post w))).
Proof.
  intros extractall output_dir file_path w. rewrite asf_unzip_cases. split.
  - destruct (String.eqb_spec (snd (os_path_splitext file_path)) ".zip") as [E|_];
      [|by left].
    cbn [negb].
    destruct (fs w !! output_dir) as [d|] eqn:Hdir; [|by left].
    destruct (fs w !! file_path) as [[content|sz]|] eqn:Hfile; try (by left).
    right. exists content.
    split; [done|]. split; [by eexists|]. split; [done|].
    by destruct (extractall content output_dir (fs w)).
  - intros content disk E [d Hdir] Hfile Hbad.
    by rewrite E, Hdir, Hfile, Hbad.
Qed.

(** The witness of X28: an archive whose extraction fails after its first
    member is out. *)
Lemma asf_unzip_witness :
  asf_unzip torn_unzip "products" "products/broken.zip" broken_world
  = (Ok tt,
     mkworld
       [Line ("Extracting: " +:+ "products/broken.zip"); Line "Zipfile Error."]
       []
       (<["products/part.tif" := RegularFile []]> (fs broken_world))
       (λ _, []) (λ _ _, inl "no route to host")).
Proof.
  apply (proj2 (asf_unzip_changes_the_disk_only_by_extraction torn_unzip
                  "products" "products/broken.zip" broken_world) []).
  - reflexivity.
  - eexists. reflexivity.
  - reflexivity.
  - reflexivity.
Defined.

Lemma asf_unzip_refuses_witness :
  fst (os_path_splitext "products/S1A.tar.gz")
  +:+ snd (os_path_splitext "products/S1A.tar.gz") = "products/S1A.tar.gz"
  ∧ asf_unzip toy_unzip "products" "products/S1A.tar.gz" world0
    = (Raise (AssertionError "Error: file_path must be the path of a zip"),
       world0).
Proof.
  destruct (asf_unzip_refuses_other_extensions toy_unzip "products"
              "products/S1A.tar.gz" world0) as [Hjoin Hrefuse].
  split; [exact Hjoin|]. apply Hrefuse. reflexivity.
Defined.

(** X29: what stops a download of a resolved granule.  When the name
    cannot be opened for writing, [download_ASF_granule] raises the error
    of [open] after announcing the download, and the disk is as it was.
    When the response declares a length of zero and still delivers bytes,
    the first chunk that holds bytes is written and the call raises
    ZeroDivisionError: the file is left with that chunk only. *)
Theorem download_ASF_granule_stops_while_downloading :
  ∀ (w : world) (granule_name processing_level : string) (vertex_info : record)
    (url : value) (local_filename : string) (r : response) (total_length : Z),
    get_vertex_granule_info granule_name processing_level w
    = (Ok (Some vertex_info), w) →
    vertex_info !! "downloadUrl" = Some url →
    vertex_info !! "fileName" = Some (VStr local_filename) →
    requests_post w url [] = inr r →
    content_length r = Ok total_length →
    (∀ n, fs w !! local_filename = Some n → node_size n ≠ total_length) →
    (∀ e, open_for_writing (fs w) local_filename = Raise e →
       download_ASF_granule granule_name processing_level w
       = (Raise e, with_stdout w (stdout w ++ [LineOf "Downloading " url])))
    ∧ (open_for_writing (fs w) local_filename = Ok tt →
       total_length = 0 → concat (iter_content r) ≠ [] →
       download_ASF_granule granule_name processing_level w
       = (Raise ZeroDivisionError,
          mkworld (stdout w ++ [LineOf "Downloading " url]) (stdin w)
            (<[local_filename := RegularFile (first_chunk (iter_content r))]>
               (fs w))
            (glob_glob w) (requests_post w))).
Proof.
  intros w granule_name processing_level vertex_info url local_filename r
    total_length Hinfo Hurl Hfile Hpost Hlen Hsize.
  rewrite (download_ASF_granule_resolved w granule_name processing_level
             vertex_info url local_filename r total_length
             Hinfo Hurl Hfile Hpost Hlen).
  assert (match fs w !! local_filename with
          | Some n => node_size n =? total_length
          | None => false
          end = false) as ->.
  { destruct (fs w !! local_filename) as [n|]; [|done].
    by apply Z.eqb_neq, Hsize. }
  split.
  - intros e Hopen. unfold bind at 1, print at 1. unfold bind at 1.
    by rewrite (download_refused local_filename r
                  (with_stdout w (stdout w ++ [LineOf "Downloading " url]))
                  e Hopen).
  - intros Hopen -> Hbody. unfold bind at 1, print at 1. unfold bind at 1.
    unfold download. unfold bind at 1, open_wb at 1. cbn [fs with_stdout].
    rewrite Hopen. unfold bind at 1, lift at 1. rewrite Hlen.
    rewrite (download_chunks_divides local_filename (iter_content r) 0 _ [])
      by (try done; cbn [fs with_fs]; by rewrite lookup_insert_eq).
    cbn [with_fs fs stdout stdin glob_glob requests_post app].
    by rewrite insert_insert_eq.
Qed.

(** The witness of X29: the name of the archive is taken by a directory,
    and a response that declares no bytes delivers three. *)
Lemma download_ASF_granule_stops_witness :
  download_ASF_granule "S1A_IW_GRDH_1SDV_20200615T153045" "GRD_HD"
    (granule_world "3" {[ granule_zip := Directory 4096 ]})
  = (Raise IsADirectoryError,
     with_stdout (granule_world "3" {[ granule_zip := Directory 4096 ]})
       [LineOf "Downloading " granule_url])
  ∧ download_ASF_granule "S1A_IW_GRDH_1SDV_20200615T153045" "GRD_HD"
      (granule_world "0" ∅)
    = (Raise ZeroDivisionError,
       mkworld [LineOf "Downloading " granule_url] []
         {[ granule_zip := RegularFile [Byte.x50; Byte.x4b] ]}
         (λ _, []) (granule_service "0")).
Proof.
  assert (∀ n : node,
            fs (granule_world "3" {[ granule_zip := Directory 4096 ]})
              !! granule_zip = Some n → node_size n ≠ 3) as Hdirectory.
  { intros n Hn. vm_compute in Hn. injection Hn as Hn. subst n.
    vm_compute. discriminate. }
  assert (∀ n : node,
            fs (granule_world "0" ∅) !! granule_zip = Some n →
            node_size n ≠ 0) as Hnew.
  { intros n Hn. vm_compute in Hn. discriminate Hn. }
  split.
  - apply (proj1 (download_ASF_granule_stops_while_downloading
                    (granule_world "3" {[ granule_zip := Directory 4096 ]})
                    _ _ granule_info granule_url granule_zip
                    (granule_response "3") 3
                    eq_refl eq_refl eq_refl eq_refl eq_refl Hdirectory)).
    reflexivity.
  - apply (proj2 (download_ASF_granule_stops_while_downloading
                    (granule_world "0" ∅)
                    _ _ granule_info granule_url granule_zip
                    (granule_response "0") 0
                    eq_refl eq_refl eq_refl eq_refl eq_refl Hnew)).
    + reflexivity.
    + reflexivity.
    + discriminate.
Defined.
